(** * Resilient request execution of the Mixpost client

    A shallow embedding of [src/error-handler.ts] (classes [CircuitBreaker]
    and [ErrorHandler]) and of [MixpostClient.executeRequest] from
    [src/client.ts], followed by the properties the specification states
    about them.

    Conventions of the embedding:
    - a JavaScript value that the code probes dynamically ([error: unknown],
      response bodies, validation maps) is a [JsValue]: plain data, that is
      [undefined], [null], booleans, integer numbers, strings, arrays and
      objects with own data properties.  Host objects (functions, getters,
      symbols, proxies) and non-integer numbers are outside the model;
    - an own property of such an object is never callable, so an object with
      an own [toString] property has no primitive value: converting it to a
      string or to a number throws a [TypeError], and so does every
      function of the handler that converts it;
    - primitives of the JavaScript host that the code calls but does not
      define (number printing, numeric-string parsing, upper-casing) are the
      fields of a [Host] and every result holds for every host;
    - delays are rationals: [calculateBackoffDelay] is the formula of the
      code computed exactly, where the code rounds every product and sum to
      binary64, so that only what rounding preserves is stated of it;
    - the clock and [Math.random] are oracles of the [World], asynchronous
      code is run sequentially by state passing. *)

From Stdlib Require Import ZArith QArith Qminmax String Ascii List Bool Lia Lqa.
From Stdlib Require Import DecimalString.
From Equations Require Import Equations.
Import ListNotations.

Local Open Scope string_scope.
Local Open Scope Z_scope.

(** ** JavaScript values *)

#[warnings="-register-all"] Inductive JsValue : Type :=
| JUndefined
| JNull
| JBool (b : bool)
| JNum (n : Z)
| JStr (s : string)
| JArr (items : list JsValue)
| JObj (props : list (string * JsValue)).

(** Host primitives: [Number::toString], [StringToNumber] ([None] is [NaN])
    and [String.prototype.toUpperCase]. *)
Class Host : Type := {
  NumberToString : Z -> string;
  StringToNumber : string -> option Z;
  toUpperCase : string -> string
}.

(** ** Error codes ([ERROR_CODES]) *)

Inductive ErrorCode : Type :=
| BAD_REQUEST | UNAUTHORIZED | FORBIDDEN | NOT_FOUND | METHOD_NOT_ALLOWED
| CONFLICT | UNPROCESSABLE_ENTITY | TOO_MANY_REQUESTS
| INTERNAL_SERVER_ERROR | BAD_GATEWAY | SERVICE_UNAVAILABLE | GATEWAY_TIMEOUT
| NETWORK_ERROR | TIMEOUT | CONNECTION_REFUSED
| CIRCUIT_OPEN.

Definition codeString (c : ErrorCode) : string :=
  match c with
  | BAD_REQUEST => "BAD_REQUEST"
  | UNAUTHORIZED => "UNAUTHORIZED"
  | FORBIDDEN => "FORBIDDEN"
  | NOT_FOUND => "NOT_FOUND"
  | METHOD_NOT_ALLOWED => "METHOD_NOT_ALLOWED"
  | CONFLICT => "CONFLICT"
  | UNPROCESSABLE_ENTITY => "UNPROCESSABLE_ENTITY"
  | TOO_MANY_REQUESTS => "TOO_MANY_REQUESTS"
  | INTERNAL_SERVER_ERROR => "INTERNAL_SERVER_ERROR"
  | BAD_GATEWAY => "BAD_GATEWAY"
  | SERVICE_UNAVAILABLE => "SERVICE_UNAVAILABLE"
  | GATEWAY_TIMEOUT => "GATEWAY_TIMEOUT"
  | NETWORK_ERROR => "NETWORK_ERROR"
  | TIMEOUT => "TIMEOUT"
  | CONNECTION_REFUSED => "CONNECTION_REFUSED"
  | CIRCUIT_OPEN => "CIRCUIT_OPEN"
  end.


(** ** Errors raised by the core *)

(** [type ErrorContext]: call-site metadata supplied by the API methods. *)
Record ErrorContext : Type := {
  ctx_endpoint : option string;
  ctx_method : option string
}.

(** [EnhancedApiError.context]; [timestamp] is the instant (epoch
    milliseconds) that [toISOString] renders. *)
Record ErrorInfo : Type := {
  endpoint : JsValue;
  method : option string;
  timestamp : Z;
  requestId : option string;
  retryCount : option nat
}.

(** [interface EnhancedApiError extends ApiError] *)
Record EnhancedApiError : Type := {
  message : string;
  status : JsValue;
  code : ErrorCode;
  retryable : bool;
  suggestion : string;
  errors : option (list (string * list string));
  context : ErrorInfo
}.

(** What a call ends with: a result, or a thrown value. *)
Inductive Outcome (T E : Type) : Type :=
| Resolved (v : T)
| Rejected (e : E).
Arguments Resolved {T E} v.
Arguments Rejected {T E} e.

(** Values the core throws: an enhanced error, or the [TypeError] of calling
    something that is not a function or of converting an object that has no
    primitive value. *)
Inductive Thrown : Type :=
| ThrownEnhanced (e : EnhancedApiError)
| ThrownTypeError.

(** One evaluation after the other: what the first throws is thrown. *)
Definition andThen {A B E : Type} (first : Outcome A E)
  (next : A -> Outcome B E) : Outcome B E :=
  match first with
  | Resolved a => next a
  | Rejected e => Rejected e
  end.

Notation "x <~ first ;; next" := (andThen first (fun x => next))
  (at level 61, first at next level, right associativity).

Module Js.

(** Own-property lookup in an object's entries, in [Object.entries] order. *)
Fixpoint lookup (k : string) (ps : list (string * JsValue)) : option JsValue :=
  match ps with
  | [] => None
  | (k', v) :: rest => if String.eqb k k' then Some v else lookup k rest
  end.

(** [v[k]] for a [v] that is neither [undefined] nor [null]; none of the keys
    the code reads is an index or ["length"], so arrays and primitives answer
    [undefined]. *)
Definition get (k : string) (v : JsValue) : JsValue :=
  match v with
  | JObj ps => match lookup k ps with Some x => x | None => JUndefined end
  | _ => JUndefined
  end.

(** [k in v] for an object [v]. *)
Definition has (k : string) (v : JsValue) : bool :=
  match v with
  | JObj ps => match lookup k ps with Some _ => true | None => false end
  | _ => false
  end.

Definition nullish (v : JsValue) : bool :=
  match v with JUndefined | JNull => true | _ => false end.

(** [v?.k] *)
Definition optGet (k : string) (v : JsValue) : JsValue :=
  if nullish v then JUndefined else get k v.

(** [a ?? b] *)
Definition coalesce (a b : JsValue) : JsValue :=
  if nullish a then b else a.

(** [typeof v === 'object'] *)
Definition typeofObject (v : JsValue) : bool :=
  match v with JNull | JArr _ | JObj _ => true | _ => false end.

(** [typeof v === 'object' && v !== null] *)
Definition isObject (v : JsValue) : bool :=
  match v with JArr _ | JObj _ => true | _ => false end.

Definition typeofNumber (v : JsValue) : bool :=
  match v with JNum _ => true | _ => false end.

Definition typeofString (v : JsValue) : bool :=
  match v with JStr _ => true | _ => false end.

Definition isUndefined (v : JsValue) : bool :=
  match v with JUndefined => true | _ => false end.

(** [v === s] for a string literal [s] and [v === n] for a number literal. *)
Definition isStr (v : JsValue) (s : string) : bool :=
  match v with JStr s' => String.eqb s' s | _ => false end.

Definition isNum (v : JsValue) (n : Z) : bool :=
  match v with JNum m => Z.eqb m n | _ => false end.

(** ToBoolean *)
Definition truthy (v : JsValue) : bool :=
  match v with
  | JUndefined | JNull => false
  | JBool b => b
  | JNum n => negb (Z.eqb n 0)
  | JStr s => negb (String.eqb s "")
  | JArr _ | JObj _ => true
  end.

Section WithHost.
Context {host : Host}.

(** The string that [String(v)] evaluates to when the conversion returns:
    an array is joined with commas, [undefined] and [null] entries being
    empty, and an object prints as [Object.prototype.toString] does. *)
Fixpoint stringOf (v : JsValue) : string :=
  match v with
  | JUndefined => "undefined"
  | JNull => "null"
  | JBool true => "true"
  | JBool false => "false"
  | JNum n => NumberToString n
  | JStr s => s
  | JArr items =>
      String.concat ","
        (map (fun x => match x with
                       | JUndefined | JNull => ""
                       | _ => stringOf x
                       end) items)
  | JObj _ => "[object Object]"
  end.

(** ToPrimitive fails on [v]: an object with an own [toString] property,
    which is not callable and hides the inherited method, while the
    inherited [valueOf] returns the object itself; or an array one of whose
    entries, converted by [join], is such a value. *)
Fixpoint unconvertible (v : JsValue) : bool :=
  match v with
  | JObj props =>
      match lookup "toString" props with Some _ => true | None => false end
  | JArr items =>
      existsb (fun x => match x with
                        | JUndefined | JNull => false
                        | _ => unconvertible x
                        end) items
  | _ => false
  end.

(** [String(v)] *)
Definition ToString (v : JsValue) : Outcome string Thrown :=
  if unconvertible v then Rejected ThrownTypeError
  else Resolved (stringOf v).

(** [value.map((v) => String(v))] *)
Fixpoint mapToString (items : list JsValue) : Outcome (list string) Thrown :=
  match items with
  | [] => Resolved []
  | x :: rest =>
      s <~ ToString x ;;
      strings <~ mapToString rest ;;
      Resolved (s :: strings)
  end.

(** ToNumber; [None] stands for [NaN].  An object is converted to a
    primitive first: its inherited [valueOf] returns the object itself, so
    the primitive is its string. *)
Definition ToNumber (v : JsValue) : Outcome (option Z) Thrown :=
  match v with
  | JUndefined => Resolved None
  | JNull => Resolved (Some 0)
  | JBool b => Resolved (Some (if b then 1 else 0))
  | JNum n => Resolved (Some n)
  | JStr s => Resolved (StringToNumber s)
  | JArr _ | JObj _ => s <~ ToString v ;; Resolved (StringToNumber s)
  end.

(** [v >= n] and [v < n] for a number literal [n]. *)
Definition ge (v : JsValue) (n : Z) : Outcome bool Thrown :=
  m <~ ToNumber v ;;
  Resolved (match m with Some m => Z.leb n m | None => false end).

Definition lt (v : JsValue) (n : Z) : Outcome bool Thrown :=
  m <~ ToNumber v ;;
  Resolved (match m with Some m => Z.ltb m n | None => false end).

(** Keys of [Object.entries(v)] for an object or an array [v]. *)
Fixpoint indexed (i : nat) (items : list JsValue) : list (string * JsValue) :=
  match items with
  | [] => []
  | x :: rest => (NumberToString (Z.of_nat i), x) :: indexed (S i) rest
  end.

Definition entries (v : JsValue) : list (string * JsValue) :=
  match v with
  | JObj ps => ps
  | JArr items => indexed 0 items
  | _ => []
  end.

End WithHost.

End Js.

(** A [string | undefined]. *)
Definition optStr (o : option string) : JsValue :=
  match o with Some s => JStr s | None => JUndefined end.

(** The object an [EnhancedApiError] is when other code catches it. *)
Definition toJs (e : EnhancedApiError) : JsValue :=
  JObj
    [ ("message", JStr (message e));
      ("status", status e);
      ("code", JStr (codeString (code e)));
      ("retryable", JBool (retryable e));
      ("suggestion", JStr (suggestion e));
      ("errors",
        match errors e with
        | Some m => JObj (map (fun kv => (fst kv, JArr (map JStr (snd kv)))) m)
        | None => JUndefined
        end);
      ("context",
        JObj
          [ ("endpoint", endpoint (context e));
            ("method", optStr (method (context e)));
            ("timestamp", JNum (timestamp (context e)));
            ("requestId", optStr (requestId (context e)));
            ("retryCount",
              match retryCount (context e) with
              | Some n => JNum (Z.of_nat n)
              | None => JUndefined
              end) ]) ].

(** ** The world outside the core *)

(** [clock] lists the successive readings of [Date.now()] and [random] the
    successive draws of [Math.random()]; [calls] counts the invocations of the
    wrapped operation and [slept] logs the delays passed to [sleep]. *)
Record World : Type := {
  clock : nat -> Z;
  ticks : nat;
  random : nat -> Q;
  draws : nat;
  calls : nat;
  slept : list Q
}.

Definition M (A : Type) : Type := World -> A * World.

Definition ret {A : Type} (a : A) : M A := fun w => (a, w).

Definition bind {A B : Type} (m : M A) (k : A -> M B) : M B :=
  fun w => let (a, w') := m w in k a w'.

Notation "x <- m ;; k" := (bind m (fun x => k))
  (at level 61, m at next level, right associativity).

Definition Date_now : M Z :=
  fun w =>
    (clock w (ticks w),
     {| clock := clock w; ticks := S (ticks w); random := random w;
        draws := draws w; calls := calls w; slept := slept w |}).

Definition Math_random : M Q :=
  fun w =>
    (random w (draws w),
     {| clock := clock w; ticks := ticks w; random := random w;
        draws := S (draws w); calls := calls w; slept := slept w |}).

Definition sleep (ms : Q) : M unit :=
  fun w =>
    (tt,
     {| clock := clock w; ticks := ticks w; random := random w;
        draws := draws w; calls := calls w; slept := slept w ++ [ms] |}).

(** An operation [fn: () => Promise<T>] is the script of what its successive
    invocations end with; [call] runs the next one. *)
Definition Operation (T : Type) : Type := nat -> Outcome T JsValue.

Definition call {T : Type} (fn : Operation T) : M (Outcome T JsValue) :=
  fun w =>
    (fn (calls w),
     {| clock := clock w; ticks := ticks w; random := random w;
        draws := draws w; calls := S (calls w); slept := slept w |}).

(** ** Configuration *)

Record RetryConfig : Type := {
  maxRetries : Z;
  baseDelay : Q;
  maxDelay : Q;
  shouldRetry : option (EnhancedApiError -> bool)
}.

Record CircuitBreakerConfig : Type := {
  failureThreshold : Z;
  resetTimeout : Z;
  monitoringPeriod : Z
}.

(** ** class CircuitBreaker *)

Inductive Phase : Type := CLOSED | OPEN | HALF_OPEN.

Record CircuitBreakerState : Type := {
  state : Phase;
  failures : Z;
  successCount : Z;
  lastFailureTime : option Z;
  nextAttemptTime : option Z
}.

Module CircuitBreaker.

(** A new breaker: the field initialisers of the class. *)
Definition init : CircuitBreakerState :=
  {| state := CLOSED; failures := 0; successCount := 0;
     lastFailureTime := None; nextAttemptTime := None |}.

(** [Math.ceil(ms / 1000)] on integers. *)
Definition ceilSeconds (ms : Z) : Z := - ((- ms) / 1000).

Definition circuitOpenMessage : string :=
  "Circuit breaker is open - service temporarily unavailable".

Section WithHost.
Context {host : Host}.

Definition circuitOpenSuggestion (remainingMs : Z) : string :=
  "Service is experiencing issues. Circuit will reset in "
  ++ NumberToString (ceilSeconds remainingMs) ++ " seconds".

(** The suggestion reads [(this.nextAttemptTime ?? Date.now()) - Date.now()],
    the timestamp reads the clock once more. *)
Definition createCircuitOpenError (cb : CircuitBreakerState)
  : M EnhancedApiError :=
  target <- match nextAttemptTime cb with
            | Some t => ret t
            | None => Date_now
            end ;;
  now <- Date_now ;;
  stamp <- Date_now ;;
  ret {| message := circuitOpenMessage;
         status := JNum 503;
         code := CIRCUIT_OPEN;
         retryable := false;
         suggestion := circuitOpenSuggestion (target - now);
         errors := None;
         context := {| endpoint := JUndefined; method := None;
                       timestamp := stamp; requestId := None;
                       retryCount := None |} |}.

End WithHost.

Definition onSuccess (cb : CircuitBreakerState) : CircuitBreakerState :=
  match state cb with
  | HALF_OPEN =>
      let n := successCount cb + 1 in
      if 3 <=? n then
        {| state := CLOSED; failures := 0; successCount := n;
           lastFailureTime := lastFailureTime cb;
           nextAttemptTime := nextAttemptTime cb |}
      else
        {| state := HALF_OPEN; failures := failures cb; successCount := n;
           lastFailureTime := lastFailureTime cb;
           nextAttemptTime := nextAttemptTime cb |}
  | CLOSED =>
      {| state := CLOSED; failures := Z.max 0 (failures cb - 1);
         successCount := successCount cb;
         lastFailureTime := lastFailureTime cb;
         nextAttemptTime := nextAttemptTime cb |}
  | OPEN => cb
  end.

Definition onFailure (config : CircuitBreakerConfig) (cb : CircuitBreakerState)
  : M CircuitBreakerState :=
  let n := failures cb + 1 in
  seen <- Date_now ;;
  if failureThreshold config <=? n then
    opened <- Date_now ;;
    ret {| state := OPEN; failures := n; successCount := successCount cb;
           lastFailureTime := Some seen;
           nextAttemptTime := Some (opened + resetTimeout config) |}
  else
    ret {| state := state cb; failures := n; successCount := successCount cb;
           lastFailureTime := Some seen;
           nextAttemptTime := nextAttemptTime cb |}.

(** The [try]/[catch] of [execute]: run the operation and account for it. *)
Definition attempt {T : Type} (config : CircuitBreakerConfig)
  (fn : M (Outcome T Thrown)) (cb : CircuitBreakerState)
  : M (Outcome T Thrown * CircuitBreakerState) :=
  r <- fn ;;
  match r with
  | Resolved v => ret (Resolved v, onSuccess cb)
  | Rejected e => cb' <- onFailure config cb ;; ret (Rejected e, cb')
  end.

(** The transition out of OPEN once the reset time is reached. *)
Definition halfOpen (cb : CircuitBreakerState) : CircuitBreakerState :=
  {| state := HALF_OPEN; failures := failures cb; successCount := 0;
     lastFailureTime := lastFailureTime cb;
     nextAttemptTime := nextAttemptTime cb |}.

Section WithHost.
Context {host : Host}.

(** The bound of the test is [this.nextAttemptTime || 0]. *)
Definition execute {T : Type} (config : CircuitBreakerConfig)
  (fn : M (Outcome T Thrown)) (cb : CircuitBreakerState)
  : M (Outcome T Thrown * CircuitBreakerState) :=
  match state cb with
  | OPEN =>
      now <- Date_now ;;
      if now <? match nextAttemptTime cb with Some t => t | None => 0 end
      then
        e <- createCircuitOpenError cb ;;
        ret (Rejected (ThrownEnhanced e), cb)
      else attempt config fn (halfOpen cb)
  | _ => attempt config fn cb
  end.

End WithHost.

Definition getState (cb : CircuitBreakerState) : Phase * Z * Z :=
  (state cb, failures cb, successCount cb).

End CircuitBreaker.

(** ** class ErrorHandler *)

Module ErrorHandler.

Import Js.

Definition isAxiosError (error : JsValue) : bool :=
  isObject error && has "isAxiosError" error
  && match get "isAxiosError" error with JBool true => true | _ => false end.

Definition isApiErrorLike (error : JsValue) : bool :=
  if negb (truthy error) || negb (typeofObject error) then false
  else typeofNumber (get "status" error) && typeofString (get "message" error).

Definition hasResponse (error : JsValue) : bool :=
  if isAxiosError error then negb (isUndefined (get "response" error))
  else if isObject error && has "response" error
       then negb (isUndefined (get "response" error))
       else false.

Definition extractPlainMessage (error : JsValue) : option string :=
  if isApiErrorLike error then
    match get "message" error with JStr s => Some s | _ => None end
  else if isObject error && has "message" error then
    match get "message" error with JStr s => Some s | _ => None end
  else None.

(** The expression that [getErrorCode] and [isRetryable] both start with:
    [(isApiErrorLike(error) ? error.code : undefined) ??
     ('code' in error ? error.code : undefined)]. *)
Definition rawCode (error : JsValue) : JsValue :=
  coalesce (if isApiErrorLike error then get "code" error else JUndefined)
           (if isObject error && has "code" error then get "code" error
            else JUndefined).

(** Of [extractRequestId] the model keeps the record-shaped headers; a
    headers object with a [get] method is a host object. *)
Definition extractRequestId (axiosError : JsValue) : option string :=
  let headers := optGet "headers" (optGet "config" axiosError) in
  if negb (truthy headers) then None
  else match get "X-Request-ID" headers with
       | JStr s => Some s
       | _ => None
       end.

Section WithHost.
Context {host : Host}.

(** The [switch (status)] of [getErrorCode]; its cases compare with [===]
    and its default compares with [>=], which converts the status. *)
Definition switchStatus (status : JsValue) : Outcome ErrorCode Thrown :=
  if isNum status 400 then Resolved BAD_REQUEST
  else if isNum status 401 then Resolved UNAUTHORIZED
  else if isNum status 403 then Resolved FORBIDDEN
  else if isNum status 404 then Resolved NOT_FOUND
  else if isNum status 405 then Resolved METHOD_NOT_ALLOWED
  else if isNum status 409 then Resolved CONFLICT
  else if isNum status 422 then Resolved UNPROCESSABLE_ENTITY
  else if isNum status 429 then Resolved TOO_MANY_REQUESTS
  else if isNum status 500 then Resolved INTERNAL_SERVER_ERROR
  else if isNum status 502 then Resolved BAD_GATEWAY
  else if isNum status 503 then Resolved SERVICE_UNAVAILABLE
  else if isNum status 504 then Resolved GATEWAY_TIMEOUT
  else
    server <~ ge status 500 ;;
    Resolved (if server then INTERNAL_SERVER_ERROR else BAD_REQUEST).

Definition getErrorCode (status : JsValue) (error : JsValue)
  : Outcome ErrorCode Thrown :=
  let errorCode := rawCode error in
  if isStr errorCode "ECONNABORTED" then Resolved TIMEOUT
  else if isStr errorCode "ECONNREFUSED" then Resolved CONNECTION_REFUSED
  else if isStr errorCode (codeString CIRCUIT_OPEN) then Resolved CIRCUIT_OPEN
  else
    let message := extractPlainMessage error in
    if negb (hasResponse error)
       && match message with
          | Some m => String.eqb m "Network Error"
          | None => false
          end
    then Resolved NETWORK_ERROR
    else
      switchStatus status.

Definition getErrorMessage (error : JsValue) : string :=
  let fromBody :=
    let axiosError := if isAxiosError error then error else JUndefined in
    let data := optGet "data" (optGet "response" axiosError) in
    if truthy data && typeofObject data then
      match get "message" data with
      | JStr m => m
      | _ => match get "error" data with
             | JStr m => m
             | _ => "An unexpected error occurred"
             end
      end
    else "An unexpected error occurred" in
  match extractPlainMessage error with
  | Some plainMessage =>
      if negb (String.eqb plainMessage "") then plainMessage else fromBody
  | None => fromBody
  end.

(** [status && status >= 400 && status < 500] evaluates its comparisons from
    left to right and only as far as needed. *)
Definition isRetryable (error : JsValue) : Outcome bool Thrown :=
  let code := rawCode error in
  if isStr code (codeString CIRCUIT_OPEN) then Resolved false
  else
    let status :=
      coalesce (if isApiErrorLike error then get "status" error
                else JUndefined)
               (if isAxiosError error
                then optGet "status" (get "response" error)
                else JUndefined) in
    client <~ (if truthy status then
                 above <~ ge status 400 ;;
                 if above then lt status 500 else Resolved false
               else Resolved false) ;;
    if client then Resolved (isNum status 429 || isNum status 408)
    else if isUndefined status then Resolved true
    else ge status 500.

Definition getErrorSuggestion (code : ErrorCode) (error : JsValue) : string :=
  match code with
  | UNAUTHORIZED =>
      "Check your API key and ensure it is valid and has the necessary permissions"
  | FORBIDDEN =>
      "You do not have permission to access this resource. Check your workspace access"
  | NOT_FOUND =>
      "The requested resource was not found. Verify the ID and that it exists"
  | TOO_MANY_REQUESTS =>
      "Rate limit exceeded. Please wait before making additional requests"
  | UNPROCESSABLE_ENTITY =>
      "Validation failed. Check the request data format and required fields"
  | TIMEOUT =>
      "Request timed out. The server may be slow or unresponsive. Try again later"
  | NETWORK_ERROR =>
      "Network connection failed. Check your internet connection and server URL"
  | SERVICE_UNAVAILABLE =>
      "Service is temporarily unavailable. This is usually temporary, please try again later"
  | CIRCUIT_OPEN =>
      let fallback :=
        "Service is experiencing issues. Please wait before retrying" in
      if isApiErrorLike error then
        match get "suggestion" error with
        | JStr s => if negb (String.eqb s "") then s else fallback
        | _ => fallback
        end
      else fallback
  | _ =>
      "An error occurred. If this persists, please check the API documentation or contact support"
  end.

(** [result[key] = value] on the entries of an object under construction:
    an existing key keeps its place, a new key goes last, and the key
    ["__proto__"] reaches the inherited setter and adds no own property. *)
Fixpoint assign {A : Type} (key : string) (value : A)
  (result : list (string * A)) : list (string * A) :=
  match result with
  | [] => [(key, value)]
  | (k, v) :: rest =>
      if String.eqb key k then (key, value) :: rest
      else (k, v) :: assign key value rest
  end.

Definition setProp {A : Type} (key : string) (value : A)
  (result : list (string * A)) : list (string * A) :=
  if String.eqb key "__proto__" then result else assign key value result.

(** The body of the [for (const [key, value] of Object.entries(errors))]
    loop, which both branches of [extractValidationErrors] repeat. *)
Definition collectField (result : list (string * list string))
  (entry : string * JsValue) : Outcome (list (string * list string)) Thrown :=
  match snd entry with
  | JArr items =>
      strings <~ mapToString items ;;
      Resolved (setProp (fst entry) strings result)
  | JUndefined | JNull => Resolved result
  | value =>
      s <~ ToString value ;;
      Resolved (setProp (fst entry) [s] result)
  end.

(** The loop itself: the first conversion that throws ends it. *)
Fixpoint collectFields (fields : list (string * JsValue))
  (result : list (string * list string))
  : Outcome (list (string * list string)) Thrown :=
  match fields with
  | [] => Resolved result
  | entry :: rest =>
      result' <~ collectField result entry ;;
      collectFields rest result'
  end.

Definition collectErrors (errors : JsValue)
  : Outcome (option (list (string * list string))) Thrown :=
  result <~ collectFields (entries errors) [] ;;
  Resolved (if (0 <? length result)%nat then Some result else None).

Definition extractValidationErrors (error : JsValue) (axiosError : JsValue)
  : Outcome (option (list (string * list string))) Thrown :=
  if isApiErrorLike error && truthy (get "errors" error)
     && typeofObject (get "errors" error)
  then collectErrors (get "errors" error)
  else
    let data := optGet "data" (optGet "response" axiosError) in
    if truthy data && typeofObject data && has "errors" data then
      let errors := get "errors" data in
      if truthy errors && typeofObject errors then collectErrors errors
      else Resolved None
    else Resolved None.

(** [(context?.method ?? axiosError?.config?.method)?.toUpperCase()]: a
    value that is neither nullish nor a string has no [toUpperCase], and the
    call throws. *)
Definition upperMethod (context : option ErrorContext) (axiosError : JsValue)
  : Outcome (option string) Thrown :=
  let fromContext :=
    match context with
    | Some c => optStr (ctx_method c)
    | None => JUndefined
    end in
  match coalesce fromContext (optGet "method" (optGet "config" axiosError)) with
  | JUndefined | JNull => Resolved None
  | JStr m => Resolved (Some (toUpperCase m))
  | _ => Rejected ThrownTypeError
  end.

(** The fields are evaluated in the order of the object literal; the clock
    is read last, so that nothing has happened when a conversion throws. *)
Definition enhanceError (error : JsValue) (context : option ErrorContext)
  (retryCount : option nat) : M (Outcome EnhancedApiError Thrown) :=
  let axiosError := if isAxiosError error then error else JUndefined in
  let apiError := if isApiErrorLike error then error else JUndefined in
  let status :=
    coalesce (coalesce (optGet "status" (optGet "response" axiosError))
                       (optGet "status" apiError))
             (JNum 500) in
  let message := getErrorMessage error in
  let endpoint :=
    coalesce (match context with
              | Some c => optStr (ctx_endpoint c)
              | None => JUndefined
              end)
             (optGet "url" (optGet "config" axiosError)) in
  match (code <~ getErrorCode status error ;;
         retryable <~ isRetryable error ;;
         errors <~ extractValidationErrors error axiosError ;;
         method <~ upperMethod context axiosError ;;
         Resolved (code, retryable, errors, method)) with
  | Rejected t => ret (Rejected t)
  | Resolved (code, retryable, errors, method) =>
      stamp <- Date_now ;;
      ret (Resolved
             {| message := message;
                status := status;
                code := code;
                retryable := retryable;
                suggestion := getErrorSuggestion code error;
                errors := errors;
                context := {| endpoint := endpoint;
                              method := method;
                              timestamp := stamp;
                              requestId := extractRequestId axiosError;
                              retryCount := retryCount |} |})
  end.

(** [defaultRetryConfig]; its predicate re-reads the enhanced error, whose
    own status is read only when it is a number, so that nothing is
    converted and the predicate returns. *)
Definition defaultRetryConfig : RetryConfig :=
  {| maxRetries := 3;
     baseDelay := 1000;
     maxDelay := 10000;
     shouldRetry :=
       Some (fun error =>
               match isRetryable (toJs error) with
               | Resolved retry => retry
               | Rejected _ => false
               end) |}.

Definition defaultCircuitBreakerConfig : CircuitBreakerConfig :=
  {| failureThreshold := 5; resetTimeout := 60000; monitoringPeriod := 60000 |}.

(** [this.retryConfig.shouldRetry?.(enhancedError)] *)
Definition shouldRetryCall (config : RetryConfig) (e : EnhancedApiError)
  : bool :=
  match shouldRetry config with
  | Some predicate => predicate e
  | None => false
  end.

Definition calculateBackoffDelay (config : RetryConfig) (retryCount : nat)
  : M Q :=
  let exponentialDelay :=
    (baseDelay config * inject_Z (2 ^ Z.of_nat retryCount))%Q in
  r <- Math_random ;;
  let jitteredDelay := (exponentialDelay * ((1 # 2) + r * (1 # 2)))%Q in
  ret (Qmin jitteredDelay (maxDelay config)).

(** [retryOperation]: the recursion is on [retryCount], which the guard
    [retryCount < maxRetries] bounds; the distance to [maxRetries] decreases
    at each recursive call. *)
Equations? retryOperation {T : Type} (config : RetryConfig)
  (fn : Operation T) (context : option ErrorContext) (retryCount : nat)
  (w : World) : Outcome T Thrown * World
  by wf (Z.to_nat (maxRetries config - Z.of_nat retryCount)) Nat.lt :=
retryOperation config fn context retryCount w with call fn w => {
  | (Resolved v, w1) => (Resolved v, w1)
  | (Rejected error, w1)
      with enhanceError error context (Some retryCount) w1 => {
      | (Rejected t, w2) => (Rejected t, w2)
      | (Resolved enhancedError, w2)
          with Z_lt_dec (Z.of_nat retryCount) (maxRetries config) => {
          | right _ => (Rejected (ThrownEnhanced enhancedError), w2)
          | left _ with shouldRetryCall config enhancedError => {
              | false => (Rejected (ThrownEnhanced enhancedError), w2)
              | true =>
                  let (delay, w3) := calculateBackoffDelay config retryCount w2 in
                  let (_, w4) := sleep delay w3 in
                  retryOperation config fn context (S retryCount) w4 } } } }.
Proof. lia. Qed.

Definition executeWithRetry {T : Type} (retryConfig : RetryConfig)
  (circuitBreakerConfig : CircuitBreakerConfig) (fn : Operation T)
  (context : option ErrorContext) (cb : CircuitBreakerState)
  : M (Outcome T Thrown * CircuitBreakerState) :=
  CircuitBreaker.execute circuitBreakerConfig
    (retryOperation retryConfig fn context 0) cb.

End WithHost.

(** [Partial<RetryConfig>]: [None] is a key the caller left out. *)
Record RetryConfigOptions : Type := {
  opt_maxRetries : option Z;
  opt_baseDelay : option Q;
  opt_maxDelay : option Q;
  opt_shouldRetry : option (EnhancedApiError -> bool)
}.

(** The constructor's [{ ...this.defaultRetryConfig, ...retryConfigOptions }]. *)
Definition mergeRetryConfig {host : Host} (options : RetryConfigOptions)
  : RetryConfig :=
  {| maxRetries := match opt_maxRetries options with
                   | Some n => n
                   | None => maxRetries defaultRetryConfig
                   end;
     baseDelay := match opt_baseDelay options with
                  | Some d => d
                  | None => baseDelay defaultRetryConfig
                  end;
     maxDelay := match opt_maxDelay options with
                 | Some d => d
                 | None => maxDelay defaultRetryConfig
                 end;
     shouldRetry := match opt_shouldRetry options with
                    | Some p => Some p
                    | None => shouldRetry defaultRetryConfig
                    end |}.

End ErrorHandler.

(** ** MixpostClient.executeRequest *)

(** [interface HttpResponse<T>] *)
Record HttpResponse (T : Type) : Type := {
  data : T;
  responseStatus : Z;
  statusText : string;
  headers : list (string * string)
}.
Arguments data {T} _.
Arguments responseStatus {T} _.
Arguments statusText {T} _.
Arguments headers {T} _.

Module MixpostClient.

Section WithHost.
Context {host : Host}.

Definition executeRequest {T : Type} (enableRetry : bool)
  (retryConfig : RetryConfig) (circuitBreakerConfig : CircuitBreakerConfig)
  (request : Operation (HttpResponse T)) (context : option ErrorContext)
  (cb : CircuitBreakerState) : M (Outcome T Thrown * CircuitBreakerState) :=
  if enableRetry then
    r <- ErrorHandler.executeWithRetry retryConfig circuitBreakerConfig
           request context cb ;;
    match r with
    | (Resolved response, cb') => ret (Resolved (data response), cb')
    | (Rejected e, cb') => ret (Rejected e, cb')
    end
  else
    r <- call request ;;
    match r with
    | Resolved response => ret (Resolved (data response), cb)
    | Rejected error =>
        e <- ErrorHandler.enhanceError error context None ;;
        match e with
        | Resolved enhanced => ret (Rejected (ThrownEnhanced enhanced), cb)
        | Rejected t => ret (Rejected t, cb)
        end
    end.

End WithHost.

End MixpostClient.

(** ** A reference host

    Decimal printing of integers, parsing of decimal integer literals (the
    empty string reads as 0, any other string as [NaN]) and upper-casing of
    ASCII letters: what the host primitives do on the inputs of the closed
    examples below. *)

Definition upperAscii (c : ascii) : ascii :=
  let n := nat_of_ascii c in
  if (97 <=? n)%nat && (n <=? 122)%nat then ascii_of_nat (n - 32) else c.

Fixpoint upperString (s : string) : string :=
  match s with
  | EmptyString => EmptyString
  | String c rest => String (upperAscii c) (upperString rest)
  end.

Definition refHost : Host :=
  {| NumberToString := fun n => NilZero.string_of_int (Z.to_int n);
     StringToNumber := fun s =>
       if String.eqb s "" then Some 0
       else option_map Z.of_int (NilZero.int_of_string s);
     toUpperCase := upperString |}.

(** A world whose clock starts at [t0] and advances by one millisecond per
    reading, and whose random draws are all [r]. *)
Definition worldAt (t0 : Z) (r : Q) : World :=
  {| clock := fun i => t0 + Z.of_nat i; ticks := 0;
     random := fun _ => r; draws := 0; calls := 0; slept := [] |}.

(** ** Reachable breaker states

    The states a breaker can be in at any point of any run, sequential or
    interleaved: from [init], by the steps that [execute] is made of (leaving
    OPEN for HALF_OPEN, accounting for a success, accounting for a failure,
    at any readings of the clock). *)
Inductive reachable (config : CircuitBreakerConfig)
  : CircuitBreakerState -> Prop :=
| reach_init : reachable config CircuitBreaker.init
| reach_halfOpen cb :
    reachable config cb -> state cb = OPEN ->
    reachable config (CircuitBreaker.halfOpen cb)
| reach_success cb :
    reachable config cb -> reachable config (CircuitBreaker.onSuccess cb)
| reach_failure cb w :
    reachable config cb ->
    reachable config (fst (CircuitBreaker.onFailure config cb w)).

(** ** Operations under retry *)

(** An operation whose every failure is classified and accepted by the
    policy's predicate, whatever the attempt and the instant. *)
Definition alwaysFailsRetryably {host : Host} {T : Type} (config : RetryConfig)
  (fn : Operation T) (ctx : option ErrorContext) : Prop :=
  forall k, exists error,
    fn k = Rejected error
    /\ forall rc w, exists en w',
         ErrorHandler.enhanceError error ctx rc w = (Resolved en, w')
         /\ ErrorHandler.shouldRetryCall config en = true.

(** The world [w] once the clock has been read [j] more times. *)
Definition afterReadings (w : World) (j : nat) : World :=
  {| clock := clock w; ticks := (ticks w + j)%nat; random := random w;
     draws := draws w; calls := calls w; slept := slept w |}.

(** Attempt [j] of the run that starts in [w] fails, and its failure is
    classified and, unless it is the last attempt the policy allows,
    accepted by the policy's predicate.  The failure is the one of the
    [j]-th invocation from [w] on; it is classified with retry count [j] at
    the instant the run reads for it, the clock having been read once for
    each earlier attempt; the predicate is consulted only while
    [j < maxRetries]. *)
Definition failsRetryablyAt {host : Host} {T : Type} (config : RetryConfig)
  (fn : Operation T) (ctx : option ErrorContext) (w : World) (j : nat)
  : Prop :=
  exists error en,
    fn (calls w + j)%nat = Rejected error
    /\ fst (ErrorHandler.enhanceError error ctx (Some j) (afterReadings w j))
       = Resolved en
    /\ (Z.of_nat j < maxRetries config ->
        ErrorHandler.shouldRetryCall config en = true).

(** ** Closed examples of breakers *)

(** The machine at a threshold of 2 and a reset timeout of 100 ms: an OPEN
    breaker read at 50 and at 150, a fresh HALF_OPEN one, a CLOSED one. *)
Definition demoConfig : CircuitBreakerConfig :=
  {| failureThreshold := 2; resetTimeout := 100; monitoringPeriod := 1000 |}.

Definition demoOpen : CircuitBreakerState :=
  {| state := OPEN; failures := 2; successCount := 0;
     lastFailureTime := Some 0; nextAttemptTime := Some (0 + 100) |}.

Definition demoFails : M (Outcome nat Thrown) :=
  fun w => (Rejected ThrownTypeError, w).

Definition demoSucceeds : M (Outcome nat Thrown) :=
  fun w => (Resolved 7%nat, w).

(** A breaker that opened on its second failure and was let through again. *)
Definition demoHalfOpen : CircuitBreakerState :=
  CircuitBreaker.halfOpen
    (fst (CircuitBreaker.onFailure demoConfig
            (fst (CircuitBreaker.onFailure demoConfig CircuitBreaker.init
                    (worldAt 0 0)))
            (worldAt 10 0))).


(** ** Closed examples of operations *)

(** A policy of two retries with the default predicate. *)
Definition demoRetryConfig : RetryConfig :=
  {| maxRetries := 2; baseDelay := 100; maxDelay := 1000;
     shouldRetry := shouldRetry (ErrorHandler.defaultRetryConfig (host := refHost)) |}.

(** A policy of five retries whose predicate accepts nothing. *)
Definition neverRetryConfig : RetryConfig :=
  {| maxRetries := 5; baseDelay := 100; maxDelay := 1000;
     shouldRetry := Some (fun _ => false) |}.

(** A policy of two retries whose predicate reads the retry count:
    [shouldRetry: (error) => error.context.retryCount < 5]. *)
Definition countingRetryConfig : RetryConfig :=
  {| maxRetries := 2; baseDelay := 100; maxDelay := 1000;
     shouldRetry :=
       Some (fun error =>
               match retryCount (context error) with
               | Some n => (n <? 5)%nat
               | None => false
               end) |}.

(** [() => { throw { status, message } }] *)
Definition alwaysThrows (status : Z) (message : string) : Operation nat :=
  fun _ => Rejected (JObj [("status", JNum status); ("message", JStr message)]).

(** [() => { throw { status: 400 } }]: a status on a failure that is not
    shaped like an [ApiError]. *)
Definition alwaysThrowsBare400 : Operation nat :=
  fun _ => Rejected (JObj [("status", JNum 400)]).

(** ** The specification's tables *)

(** Section 4.1, rule 5: the status to code table. *)
Definition codeTable : list (Z * ErrorCode) :=
  [ (400, BAD_REQUEST); (401, UNAUTHORIZED); (403, FORBIDDEN);
    (404, NOT_FOUND); (405, METHOD_NOT_ALLOWED); (409, CONFLICT);
    (422, UNPROCESSABLE_ENTITY); (429, TOO_MANY_REQUESTS);
    (500, INTERNAL_SERVER_ERROR); (502, BAD_GATEWAY);
    (503, SERVICE_UNAVAILABLE); (504, GATEWAY_TIMEOUT) ].

(** Section 4.1, retryability, as a function of the classified status and
    code: never for CIRCUIT_OPEN; among 4xx only 429 and 408; otherwise from
    500 up. *)
Definition retryableBy (status : Z) (code : ErrorCode) : bool :=
  match code with
  | CIRCUIT_OPEN => false
  | _ =>
      if (400 <=? status) && (status <? 500)
      then (status =? 429) || (status =? 408)
      else 500 <=? status
  end.

(** The two places a raw failure carries a status that the code reads: the
    response of an axios error, and the failure itself when it has the shape
    of an [ApiError]. *)
Definition responseStatus_of (error : JsValue) : JsValue :=
  if ErrorHandler.isAxiosError error
  then Js.optGet "status" (Js.get "response" error)
  else JUndefined.

Definition ownStatus_of (error : JsValue) : JsValue :=
  if ErrorHandler.isApiErrorLike error then Js.get "status" error
  else JUndefined.


(** Rules 1 to 4 of section 4.1: a transport code, the circuit-open marker,
    or a bare "Network Error" without a response. *)
Definition matchesEarlierRule (error : JsValue) : bool :=
  Js.isStr (ErrorHandler.rawCode error) "ECONNABORTED"
  || Js.isStr (ErrorHandler.rawCode error) "ECONNREFUSED"
  || Js.isStr (ErrorHandler.rawCode error) "CIRCUIT_OPEN"
  || (negb (ErrorHandler.hasResponse error)
      && match ErrorHandler.extractPlainMessage error with
         | Some m => String.eqb m "Network Error"
         | None => false
         end).

(** ** Closed examples of raw failures *)

(** An axios error for a response with the given status. *)
Definition axiosFailure (status : Z) : JsValue :=
  JObj [ ("isAxiosError", JBool true);
         ("message", JStr "Request failed");
         ("response", JObj [("status", JNum status)]) ].

(** [{ status: 404 }] and [{ response: { status: 404 } }]: a status on a
    failure that is neither an axios error nor shaped like an [ApiError]. *)
Definition bareStatus404 : JsValue := JObj [("status", JNum 404)].

Definition unflaggedResponse404 : JsValue :=
  JObj [("response", JObj [("status", JNum 404)])].

(** [{ code: 'ECONNABORTED', message: 'Request timeout' }], the timeout of
    the handler's own test, and an aborted request that carries a 504. *)
Definition timeoutError : JsValue :=
  JObj [("code", JStr "ECONNABORTED"); ("message", JStr "Request timeout")].

Definition timeout504 : JsValue :=
  JObj [ ("isAxiosError", JBool true); ("code", JStr "ECONNABORTED");
         ("message", JStr "timeout of 30000ms exceeded");
         ("response", JObj [("status", JNum 504)]) ].

(** Two failures classified alike: [{ status: 503, message }] and an axios
    error for a 503 response whose own [status] says 404. *)
Definition plain503 : JsValue :=
  JObj [("status", JNum 503); ("message", JStr "Service unavailable")].



(** ** Validation maps *)

(** What one field of a validation map becomes: the strings of an array's
    entries, the string of a scalar, nothing for [null] and [undefined]. *)
Definition normalizeField {host : Host} (value : JsValue)
  : option (list string) :=
  match value with
  | JArr items => Some (map Js.stringOf items)
  | JUndefined | JNull => None
  | scalar => Some [Js.stringOf scalar]
  end.

Fixpoint normalizeFields {host : Host} (fields : list (string * JsValue))
  : list (string * list string) :=
  match fields with
  | [] => []
  | (key, value) :: rest =>
      match normalizeField value with
      | Some strings => (key, strings) :: normalizeFields rest
      | None => normalizeFields rest
      end
  end.

(** [{ status: 422, message, errors }] *)
Definition validationFailure (errors : JsValue) : JsValue :=
  JObj [ ("status", JNum 422); ("message", JStr "The given data was invalid.");
         ("errors", errors) ].

(** ** The method and the body that [enhanceError] reads *)

(** [context?.method ?? axiosError?.config?.method] *)
Definition methodSource (ctx : option ErrorContext) (error : JsValue)
  : JsValue :=
  Js.coalesce
    (match ctx with Some c => optStr (ctx_method c) | None => JUndefined end)
    (Js.optGet "method"
       (Js.optGet "config"
          (if ErrorHandler.isAxiosError error then error else JUndefined))).

(** [axiosError?.response?.data] *)
Definition responseBody (error : JsValue) : JsValue :=
  Js.optGet "data"
    (Js.optGet "response"
       (if ErrorHandler.isAxiosError error then error else JUndefined)).

(** Every value of a validation map has a primitive value. *)
Definition convertibleFields {host : Host} (errors : JsValue) : bool :=
  forallb (fun entry => negb (Js.unconvertible (snd entry)))
    (Js.entries errors).

(** None of the values that [enhanceError] converts, that is the response
    status of an axios error and the values of the [errors] map of the
    failure and of its response body, is without a primitive value. *)
Definition convertible {host : Host} (error : JsValue) : bool :=
  negb (Js.unconvertible (responseStatus_of error))
  && convertibleFields (Js.get "errors" error)
  && convertibleFields (Js.get "errors" (responseBody error)).




Definition numericMethod : JsValue :=
  JObj [ ("isAxiosError", JBool true); ("message", JStr "Network Error");
         ("config", JObj [("url", JStr "/posts"); ("method", JNum 5)]) ].

(** ** Responses as values *)

(** The object an [HttpResponse] is. *)
Definition responseObject (response : HttpResponse JsValue) : JsValue :=
  JObj [ ("data", data response);
         ("status", JNum (responseStatus response));
         ("statusText", JStr (statusText response));
         ("headers",
           JObj (map (fun h => (fst h, JStr (snd h))) (headers response))) ].

(** A call site of the API methods. *)
Definition listAccountsContext : ErrorContext :=
  {| ctx_endpoint := Some "/accounts"; ctx_method := Some "GET" |}.

Definition okResponse : HttpResponse JsValue :=
  {| data := JArr [JStr "account"]; responseStatus := 200;
     statusText := "OK"; headers := [] |}.

(** ** Runs of several calls *)


(** Calls made one after the other on the same breaker, each one awaited
    and its outcome kept:
    [for (const fn of fns) { try { await breaker.execute(fn) } catch {} }]. *)
Fixpoint executeAll {host : Host} {T : Type} (config : CircuitBreakerConfig)
  (fns : list (M (Outcome T Thrown))) (cb : CircuitBreakerState) (w : World)
  : list (Outcome T Thrown) * CircuitBreakerState * World :=
  match fns with
  | [] => ([], cb, w)
  | fn :: rest =>
      let '(r, cb1, w1) := CircuitBreaker.execute config fn cb w in
      let '(rs, cb2, w2) := executeAll config rest cb1 w1 in
      (r :: rs, cb2, w2)
  end.

(** [() => { if (++attempts <= k) throw { status: 503, message }; return
    value }], the operation of the handler's own retry tests. *)
Definition failsThenSucceeds (k : nat) (value : nat) : Operation nat :=
  fun i =>
    if (i <? k)%nat
    then Rejected (JObj [ ("status", JNum 503);
                          ("message", JStr "Service unavailable") ])
    else Resolved value.

(** ** The breaker's fields *)

(** What holds of the fields of a breaker in every state of every run. *)
Definition breakerInvariant (config : CircuitBreakerConfig)
  (cb : CircuitBreakerState) : Prop :=
  0 <= failures cb
  /\ 0 <= successCount cb
  /\ (state cb = CLOSED -> failures cb < failureThreshold config)
  /\ (state cb <> CLOSED ->
      failureThreshold config <= failures cb
      /\ exists t, nextAttemptTime cb = Some t)
  /\ (state cb = HALF_OPEN -> successCount cb < 3).

(** ** Classifying an enhanced error again *)

(** The code that classifying an enhanced error gives, from its code, its
    message and its status: only the circuit-open marker and the bare
    "Network Error" are recognised before the status is looked up. *)
Definition reclassifiedCode {host : Host} (code : ErrorCode)
  (message : string) (status : Z) : Outcome ErrorCode Thrown :=
  match code with
  | CIRCUIT_OPEN => Resolved CIRCUIT_OPEN
  | _ =>
      if String.eqb message "Network Error" then Resolved NETWORK_ERROR
      else ErrorHandler.switchStatus (JNum status)
  end.

(** [{ status: 404, message: 'Network Error' }] *)
Definition networkError404 : JsValue :=
  JObj [("status", JNum 404); ("message", JStr "Network Error")].

(** The enhanced error of a timeout, as the HTTP interceptor throws it. *)
Definition enhancedTimeout : EnhancedApiError :=
  {| message := "timeout of 30000ms exceeded";
     status := JNum 500;
     code := TIMEOUT;
     retryable := true;
     suggestion :=
       "Request timed out. The server may be slow or unresponsive. Try again later";
     errors := None;
     context := {| endpoint := JStr "/accounts"; method := Some "GET";
                   timestamp := 0; requestId := None; retryCount := None |} |}.

(** ** HTTP interceptors *)

(** [a || b] *)
Definition jsOr (a b : JsValue) : JsValue :=
  if Js.truthy a then a else b.

(** The response axios hands to a response interceptor: the status is a
    number, the URL and the method of the request configuration are strings
    when present, the body is any value. *)
Record AxiosResponse : Type := {
  ax_data : JsValue;
  ax_status : Z;
  ax_url : option string;
  ax_method : option string
}.

Definition axiosResponseJs (response : AxiosResponse) : JsValue :=
  JObj [ ("data", ax_data response);
         ("status", JNum (ax_status response));
         ("config", JObj [ ("url", optStr (ax_url response));
                           ("method", optStr (ax_method response)) ]) ].

Module ClientInterceptors.

Section WithHost.
Context {host : Host}.

(** The object the response interceptor of [MixpostClient] classifies:
    [{ message: response.data?.message || `Request failed with status
       ${response.status}`, status, errors: response.data?.errors,
       response }]. *)
Definition responseFailure (response : AxiosResponse) : JsValue :=
  JObj [ ("message",
           jsOr (Js.optGet "message" (ax_data response))
                (JStr ("Request failed with status "
                       ++ NumberToString (ax_status response))));
         ("status", JNum (ax_status response));
         ("errors", Js.optGet "errors" (ax_data response));
         ("response", axiosResponseJs response) ].

(** The response interceptor that the constructor of [MixpostClient]
    installs. *)
Definition onResponse (response : AxiosResponse)
  : M (Outcome AxiosResponse Thrown) :=
  if 400 <=? ax_status response then
    e <- ErrorHandler.enhanceError (responseFailure response)
           (Some {| ctx_endpoint := ax_url response;
                    ctx_method := ax_method response |})
           None ;;
    match e with
    | Resolved error => ret (Rejected (ThrownEnhanced error))
    | Rejected t => ret (Rejected t)
    end
  else ret (Resolved response).

(** [validateStatus: (status) => status < 500] *)
Definition validateStatus (status : Z) : bool := status <? 500.

End WithHost.

End ClientInterceptors.

(** ** The interceptors of the client without error handler *)

(** What these interceptors throw: an [ApiError] object literal, or the
    [TypeError] of reading a property of [undefined] or [null]. *)
Inductive LegacyThrown : Type :=
| LegacyApiError (object : JsValue)
| LegacyTypeError.

Module LegacyClient.

Section WithHost.
Context {host : Host}.

Definition onResponse (response : AxiosResponse)
  : Outcome AxiosResponse LegacyThrown :=
  if 400 <=? ax_status response then
    Rejected
      (LegacyApiError
         (JObj [ ("message",
                   jsOr (Js.optGet "message" (ax_data response))
                        (JStr ("Request failed with status "
                               ++ NumberToString (ax_status response))));
                 ("status", JNum (ax_status response));
                 ("errors", Js.optGet "errors" (ax_data response)) ]))
  else Resolved response.

End WithHost.

(** The rejection interceptor; it always throws. *)
Definition onError (error : JsValue) : LegacyThrown :=
  if Js.nullish error then LegacyTypeError
  else if Js.isStr (Js.get "code" error) "ECONNABORTED" then
    LegacyApiError
      (JObj [ ("message",
                JStr "Request timeout - the server took too long to respond");
              ("status", JNum 408) ])
  else
    let body := Js.optGet "data" (Js.optGet "response" error) in
    LegacyApiError
      (JObj [ ("message",
                jsOr (jsOr (Js.optGet "message" body) (Js.get "message" error))
                     (JStr "An unexpected error occurred"));
              ("status",
                jsOr (Js.optGet "status" (Js.optGet "response" error))
                     (JNum 500));
              ("errors", Js.optGet "errors" body) ]).

End LegacyClient.

(** ** Closed examples of responses and transport failures *)

(** A 404 response to [GET /posts/abc] whose body carries a message. *)
Definition notFoundResponse : AxiosResponse :=
  {| ax_data := JObj [("message", JStr "Post not found")];
     ax_status := 404;
     ax_url := Some "/posts/abc";
     ax_method := Some "get" |}.

(** A 422 response one of whose validation errors is [{ toString: 1 }]. *)
Definition unprintableResponse : AxiosResponse :=
  {| ax_data := JObj [ ("message", JStr "The given data was invalid.");
                       ("errors", JObj [("a", JObj [("toString", JNum 1)])]) ];
     ax_status := 422;
     ax_url := Some "/posts";
     ax_method := Some "post" |}.

(** An aborted request that nevertheless carries a 504 response. *)
Definition abortedWithResponse : JsValue :=
  JObj [ ("code", JStr "ECONNABORTED");
         ("message", JStr "timeout of 30000ms exceeded");
         ("response", JObj [ ("status", JNum 504);
                             ("data", JObj [("message", JStr "Gateway")]) ]) ].

(** A refused connection: no response, an empty message. *)
Definition refusedConnection : JsValue :=
  JObj [ ("code", JStr "ECONNREFUSED"); ("message", JStr "") ].

(** * Properties *)

(** ** Backoff delay *)


Lemma calculateBackoffDelay_eq (config : RetryConfig) (n : nat) (w : World) :
  fst (ErrorHandler.calculateBackoffDelay config n w)
  = Qmin (baseDelay config * inject_Z (2 ^ Z.of_nat n)
          * ((1 # 2) + random w (draws w) * (1 # 2)))
         (maxDelay config).
Proof. reflexivity. Qed.




(** ** Circuit breaker *)

Section BreakerProperties.
Context {host : Host}.
Variable config : CircuitBreakerConfig.

Lemma onFailure_failures cb w :
  failures (fst (CircuitBreaker.onFailure config cb w)) = failures cb + 1.
Proof.
  unfold CircuitBreaker.onFailure, bind, Date_now, ret. cbn.
  destruct (failureThreshold config <=? failures cb + 1); reflexivity.
Qed.

Lemma onFailure_opens cb w :
  failureThreshold config <= failures cb + 1 ->
  state (fst (CircuitBreaker.onFailure config cb w)) = OPEN
  /\ nextAttemptTime (fst (CircuitBreaker.onFailure config cb w))
     = Some (clock w (S (ticks w)) + resetTimeout config).
Proof.
  intro H. unfold CircuitBreaker.onFailure, bind, Date_now, ret. cbn.
  destruct (Z.leb_spec (failureThreshold config) (failures cb + 1));
    [split; reflexivity | lia].
Qed.

Lemma onFailure_below cb w :
  failures cb + 1 < failureThreshold config ->
  state (fst (CircuitBreaker.onFailure config cb w)) = state cb
  /\ nextAttemptTime (fst (CircuitBreaker.onFailure config cb w))
     = nextAttemptTime cb.
Proof.
  intro H. unfold CircuitBreaker.onFailure, bind, Date_now, ret. cbn.
  destruct (Z.leb_spec (failureThreshold config) (failures cb + 1));
    [lia | split; reflexivity].
Qed.

Lemma onFailure_calls cb w :
  calls (snd (CircuitBreaker.onFailure config cb w)) = calls w.
Proof.
  unfold CircuitBreaker.onFailure, bind, Date_now, ret. cbn.
  destruct (failureThreshold config <=? failures cb + 1); reflexivity.
Qed.

(** What [execute] does when the call is let through. *)
Lemma attempt_run {T : Type} (fn : M (Outcome T Thrown)) cb w :
  CircuitBreaker.attempt config fn cb w
  = match fn w with
    | (Resolved v, w1) => (Resolved v, CircuitBreaker.onSuccess cb, w1)
    | (Rejected e, w1) =>
        (Rejected e, fst (CircuitBreaker.onFailure config cb w1),
         snd (CircuitBreaker.onFailure config cb w1))
    end.
Proof.
  unfold CircuitBreaker.attempt, bind, ret.
  destruct (fn w) as [[v | e] w1]; [reflexivity |].
  destruct (CircuitBreaker.onFailure config cb w1); reflexivity.
Qed.

Lemma execute_not_open {T : Type} (fn : M (Outcome T Thrown)) cb w :
  state cb <> OPEN ->
  CircuitBreaker.execute config fn cb w = CircuitBreaker.attempt config fn cb w.
Proof.
  intro H. unfold CircuitBreaker.execute.
  destruct (state cb); [reflexivity | contradiction | reflexivity].
Qed.

Lemma execute_open_elapsed {T : Type} (fn : M (Outcome T Thrown)) cb w t :
  state cb = OPEN -> nextAttemptTime cb = Some t -> t <= clock w (ticks w) ->
  CircuitBreaker.execute config fn cb w
  = CircuitBreaker.attempt config fn (CircuitBreaker.halfOpen cb)
      (snd (Date_now w)).
Proof.
  intros Hs Ht Hle. unfold CircuitBreaker.execute. rewrite Hs, Ht.
  unfold bind at 1. cbn [Date_now fst snd].
  destruct (Z.ltb_spec (clock w (ticks w)) t); [lia | reflexivity].
Qed.

Lemma execute_open_blocked {T : Type} (fn : M (Outcome T Thrown)) cb w t :
  state cb = OPEN -> nextAttemptTime cb = Some t -> clock w (ticks w) < t ->
  CircuitBreaker.execute config fn cb w
  = (Rejected (ThrownEnhanced
                 (fst (CircuitBreaker.createCircuitOpenError cb
                         (snd (Date_now w))))),
     cb,
     snd (CircuitBreaker.createCircuitOpenError cb (snd (Date_now w)))).
Proof.
  intros Hs Ht Hlt. unfold CircuitBreaker.execute. rewrite Hs, Ht.
  unfold bind at 1. cbn [Date_now fst snd].
  destruct (Z.ltb_spec (clock w (ticks w)) t); [| lia].
  unfold bind, ret.
  destruct (CircuitBreaker.createCircuitOpenError cb _); reflexivity.
Qed.

Lemma createCircuitOpenError_fields cb w t :
  nextAttemptTime cb = Some t ->
  let e := fst (CircuitBreaker.createCircuitOpenError cb w) in
  let w' := snd (CircuitBreaker.createCircuitOpenError cb w) in
  code e = CIRCUIT_OPEN /\ status e = JNum 503 /\ retryable e = false
  /\ message e = CircuitBreaker.circuitOpenMessage
  /\ suggestion e
     = CircuitBreaker.circuitOpenSuggestion (t - clock w (ticks w))
  /\ calls w' = calls w /\ slept w' = slept w.
Proof.
  intro Ht. unfold CircuitBreaker.createCircuitOpenError. rewrite Ht.
  cbn. repeat split; reflexivity.
Qed.

Lemma onSuccess_half_open cb :
  state cb = HALF_OPEN ->
  successCount (CircuitBreaker.onSuccess cb) = successCount cb + 1
  /\ (successCount cb + 1 < 3 ->
      state (CircuitBreaker.onSuccess cb) = HALF_OPEN
      /\ failures (CircuitBreaker.onSuccess cb) = failures cb)
  /\ (3 <= successCount cb + 1 ->
      state (CircuitBreaker.onSuccess cb) = CLOSED
      /\ failures (CircuitBreaker.onSuccess cb) = 0).
Proof.
  intro Hs. unfold CircuitBreaker.onSuccess. rewrite Hs.
  destruct (Z.leb_spec 3 (successCount cb + 1)); cbn;
    repeat split; intros; try reflexivity; lia.
Qed.

Lemma onSuccess_closed cb :
  state cb = CLOSED ->
  state (CircuitBreaker.onSuccess cb) = CLOSED
  /\ failures (CircuitBreaker.onSuccess cb) = Z.max 0 (failures cb - 1).
Proof.
  intro Hs. unfold CircuitBreaker.onSuccess. rewrite Hs. split; reflexivity.
Qed.

Lemma three_successes_close cb :
  state cb = HALF_OPEN -> successCount cb = 0 ->
  state (CircuitBreaker.onSuccess cb) = HALF_OPEN
  /\ state (CircuitBreaker.onSuccess (CircuitBreaker.onSuccess cb)) = HALF_OPEN
  /\ state (CircuitBreaker.onSuccess
              (CircuitBreaker.onSuccess (CircuitBreaker.onSuccess cb)))
     = CLOSED
  /\ failures (CircuitBreaker.onSuccess
                 (CircuitBreaker.onSuccess (CircuitBreaker.onSuccess cb)))
     = 0.
Proof.
  intros Hs Hc. unfold CircuitBreaker.onSuccess. rewrite Hs, Hc. cbn.
  repeat split; reflexivity.
Qed.

(** Every reachable state that is not CLOSED has its failure counter at the
    threshold or above: the counter is reset only on the way to CLOSED. *)
Lemma reachable_counter cb :
  reachable config cb ->
  state cb <> CLOSED -> failureThreshold config <= failures cb.
Proof.
  induction 1 as [| cb Hr IH Hopen | cb Hr IH | cb w Hr IH]; intro Hne.
  - cbn in Hne. contradiction.
  - cbn. apply IH. rewrite Hopen. discriminate.
  - unfold CircuitBreaker.onSuccess in *.
    destruct (state cb) eqn:Hs.
    + cbn in Hne. contradiction.
    + apply IH. discriminate.
    + destruct (3 <=? successCount cb + 1); cbn in *;
        [contradiction | apply IH; discriminate].
  - rewrite onFailure_failures.
    destruct (Z.le_gt_cases (failureThreshold config) (failures cb + 1)) as [Hge | Hlt];
      [exact Hge |].
    destruct (onFailure_below cb w) as [Hst _]; [lia |].
    rewrite Hst in Hne. specialize (IH Hne). lia.
Qed.

(** [execute] stays within the reachable states. *)
Lemma execute_reachable {T : Type} (fn : M (Outcome T Thrown)) cb w :
  reachable config cb ->
  reachable config (snd (fst (CircuitBreaker.execute config fn cb w))).
Proof.
  intro Hr.
  assert (Hatt : forall cb0 w0, reachable config cb0 ->
            reachable config
              (snd (fst (CircuitBreaker.attempt config fn cb0 w0)))).
  { intros cb0 w0 Hr0. rewrite attempt_run.
    destruct (fn w0) as [[v | e] w1]; cbn.
    - apply reach_success. exact Hr0.
    - apply reach_failure. exact Hr0. }
  unfold CircuitBreaker.execute.
  destruct (state cb) eqn:Hs; try (apply Hatt; exact Hr).
  unfold bind at 1. cbn [Date_now fst snd].
  destruct (_ <? _).
  - unfold bind, ret.
    destruct (CircuitBreaker.createCircuitOpenError cb _). cbn. exact Hr.
  - apply Hatt. apply reach_halfOpen; assumption.
Qed.

End BreakerProperties.

(** [ceilSeconds] is the ceiling of the thousandth: the least number of whole
    seconds that covers the milliseconds. *)
Lemma ceilSeconds_spec (ms : Z) :
  1000 * (CircuitBreaker.ceilSeconds ms - 1) < ms
  <= 1000 * CircuitBreaker.ceilSeconds ms.
Proof.
  unfold CircuitBreaker.ceilSeconds.
  pose proof (Z.div_mod (- ms) 1000) as Hdiv.
  pose proof (Z.mod_pos_bound (- ms) 1000) as Hmod.
  lia.
Qed.

Section BreakerClaims.
Context {host : Host}.

(** C1.  The circuit breaker is the three-state machine of the
    specification.  A new breaker is CLOSED with no failures.  Every failure
    adds one to the failure counter and, when the counter reaches
    [failureThreshold], moves to OPEN and records the opening time (as
    [nextAttemptTime], the opening time plus [resetTimeout]); a call that is
    let through and fails is accounted for in this way.  While OPEN and
    before the reset time, [execute] throws an error with code CIRCUIT_OPEN
    and status 503 whose suggestion names the remaining
    [ceil ((openedAt + resetTimeout - now) / 1000)] seconds, that is the
    number [n] with [1000 (n - 1) < openedAt + resetTimeout - now <= 1000 n]
    for the instant [now] read when the error is made, leaves the breaker as
    it is and does not depend on the wrapped operation, which is not
    invoked.  Once the reset time is reached the next call moves to
    HALF_OPEN with the success counter at 0 and runs the operation.  A call
    that is let through and succeeds is accounted for by [onSuccess]: three
    successes in a row from a fresh HALF_OPEN state lead to CLOSED with the
    failure counter at 0, and a success in CLOSED takes one off the failure
    counter, not below 0. *)
Theorem circuit_breaker_state_machine {T : Type}
  (config : CircuitBreakerConfig) (fn : M (Outcome T Thrown))
  (cb : CircuitBreakerState) (w : World) :
  (state CircuitBreaker.init = CLOSED /\ failures CircuitBreaker.init = 0)
  /\ failures (fst (CircuitBreaker.onFailure config cb w)) = failures cb + 1
  /\ (failureThreshold config <= failures cb + 1 ->
      state (fst (CircuitBreaker.onFailure config cb w)) = OPEN
      /\ nextAttemptTime (fst (CircuitBreaker.onFailure config cb w))
         = Some (clock w (S (ticks w)) + resetTimeout config))
  /\ (failures cb + 1 < failureThreshold config ->
      state (fst (CircuitBreaker.onFailure config cb w)) = state cb)
  /\ (forall e w1,
        state cb <> OPEN -> fn w = (Rejected e, w1) ->
        CircuitBreaker.execute config fn cb w
        = (Rejected e, fst (CircuitBreaker.onFailure config cb w1),
           snd (CircuitBreaker.onFailure config cb w1)))
  /\ (forall openedAt,
        state cb = OPEN ->
        nextAttemptTime cb = Some (openedAt + resetTimeout config) ->
        clock w (ticks w) < openedAt + resetTimeout config ->
        exists e w',
          CircuitBreaker.execute config fn cb w
          = (Rejected (ThrownEnhanced e), cb, w')
          /\ code e = CIRCUIT_OPEN /\ status e = JNum 503
          /\ retryable e = false
          /\ suggestion e
             = "Service is experiencing issues. Circuit will reset in "
               ++ NumberToString
                    (CircuitBreaker.ceilSeconds
                       (openedAt + resetTimeout config - clock w (S (ticks w))))
               ++ " seconds"
          /\ 1000 * (CircuitBreaker.ceilSeconds
                       (openedAt + resetTimeout config
                        - clock w (S (ticks w))) - 1)
             < openedAt + resetTimeout config - clock w (S (ticks w))
             <= 1000 * CircuitBreaker.ceilSeconds
                         (openedAt + resetTimeout config
                          - clock w (S (ticks w)))
          /\ calls w' = calls w
          /\ forall fn' : M (Outcome T Thrown),
               CircuitBreaker.execute config fn' cb w
               = CircuitBreaker.execute config fn cb w)
  /\ (forall openedAt,
        state cb = OPEN ->
        nextAttemptTime cb = Some (openedAt + resetTimeout config) ->
        openedAt + resetTimeout config <= clock w (ticks w) ->
        state (CircuitBreaker.halfOpen cb) = HALF_OPEN
        /\ successCount (CircuitBreaker.halfOpen cb) = 0
        /\ failures (CircuitBreaker.halfOpen cb) = failures cb
        /\ CircuitBreaker.execute config fn cb w
           = CircuitBreaker.attempt config fn (CircuitBreaker.halfOpen cb)
               (snd (Date_now w))
        /\ fst (fst (CircuitBreaker.execute config fn cb w))
           = fst (fn (snd (Date_now w))))
  /\ (forall v w1,
        state cb <> OPEN -> fn w = (Resolved v, w1) ->
        CircuitBreaker.execute config fn cb w
        = (Resolved v, CircuitBreaker.onSuccess cb, w1))
  /\ (state cb = HALF_OPEN -> successCount cb = 0 ->
      state (CircuitBreaker.onSuccess cb) = HALF_OPEN
      /\ state (CircuitBreaker.onSuccess (CircuitBreaker.onSuccess cb))
         = HALF_OPEN
      /\ state (CircuitBreaker.onSuccess
                  (CircuitBreaker.onSuccess (CircuitBreaker.onSuccess cb)))
         = CLOSED
      /\ failures (CircuitBreaker.onSuccess
                     (CircuitBreaker.onSuccess (CircuitBreaker.onSuccess cb)))
         = 0)
  /\ (state cb = CLOSED ->
      state (CircuitBreaker.onSuccess cb) = CLOSED
      /\ failures (CircuitBreaker.onSuccess cb) = Z.max 0 (failures cb - 1)).
Proof.
  split; [split; reflexivity |].
  split; [apply onFailure_failures |].
  split; [apply onFailure_opens |].
  split; [intro H; apply (onFailure_below config cb w H) |].
  split.
  { intros e w1 Hs Hfn. rewrite execute_not_open by exact Hs.
    rewrite attempt_run, Hfn. reflexivity. }
  split.
  { intros openedAt Hs Ht Hlt.
    pose proof (createCircuitOpenError_fields cb (snd (Date_now w)) _ Ht) as F.
    cbv zeta in F. destruct F as (Fc & Fs & Fr & _ & Fg & Fcalls & _).
    eexists. eexists. split; [apply (execute_open_blocked config fn cb w _ Hs Ht Hlt) |].
    repeat split; try assumption; try apply ceilSeconds_spec.
    intro fn'.
    rewrite (execute_open_blocked config fn' cb w _ Hs Ht Hlt).
    rewrite (execute_open_blocked config fn cb w _ Hs Ht Hlt). reflexivity. }
  split.
  { intros openedAt Hs Ht Hle.
    repeat split; try reflexivity.
    - apply (execute_open_elapsed config fn cb w _ Hs Ht Hle).
    - rewrite (execute_open_elapsed config fn cb w _ Hs Ht Hle), attempt_run.
      destruct (fn (snd (Date_now w))) as [[v | e] w1]; reflexivity. }
  split.
  { intros v w1 Hs Hfn. rewrite execute_not_open by exact Hs.
    rewrite attempt_run, Hfn. reflexivity. }
  split; [apply three_successes_close | apply onSuccess_closed].
Qed.

(** C10.  In every reachable HALF_OPEN state the failure counter is at
    [failureThreshold] or above (leaving OPEN for HALF_OPEN keeps the
    counter), so one failure there re-opens the circuit at once: [onFailure]
    ends in OPEN, and so does every [execute] whose operation fails.  This
    holds for every configuration, in particular for every
    [failureThreshold >= 1]. *)
Theorem half_open_failure_reopens (config : CircuitBreakerConfig)
  (cb : CircuitBreakerState) :
  reachable config cb ->
  state cb = HALF_OPEN ->
  failureThreshold config <= failures cb
  /\ (forall cb0 w,
        failures (CircuitBreaker.halfOpen cb0) = failures cb0
        /\ failures (fst (CircuitBreaker.onFailure config cb0 w))
           = failures cb0 + 1)
  /\ (forall w, state (fst (CircuitBreaker.onFailure config cb w)) = OPEN)
  /\ (forall (T : Type) (fn : M (Outcome T Thrown)) w e w1,
        fn w = (Rejected e, w1) ->
        state (snd (fst (CircuitBreaker.execute config fn cb w))) = OPEN).
Proof.
  intros Hr Hs.
  assert (Hc : failureThreshold config <= failures cb).
  { apply (reachable_counter config cb Hr). rewrite Hs. discriminate. }
  split; [exact Hc |].
  split; [intros cb0 w; split; [reflexivity | apply onFailure_failures] |].
  assert (Hopen : forall w, state (fst (CircuitBreaker.onFailure config cb w)) = OPEN).
  { intro w. apply (onFailure_opens config cb w). lia. }
  split; [exact Hopen |].
  intros T fn w e w1 Hfn.
  rewrite execute_not_open by (rewrite Hs; discriminate).
  rewrite attempt_run, Hfn. cbn. apply Hopen.
Qed.

End BreakerClaims.

Lemma circuit_breaker_state_machine_witness :
  (exists e w',
      CircuitBreaker.execute (host := refHost) demoConfig demoFails demoOpen
        (worldAt 50 0)
      = (Rejected (ThrownEnhanced e), demoOpen, w')
      /\ code e = CIRCUIT_OPEN /\ status e = JNum 503
      /\ suggestion e
         = "Service is experiencing issues. Circuit will reset in 1 seconds")
  /\ state (CircuitBreaker.halfOpen demoOpen) = HALF_OPEN
  /\ state (fst (CircuitBreaker.onFailure demoConfig
                   (CircuitBreaker.halfOpen demoOpen) (worldAt 150 0)))
     = OPEN
  /\ state (fst (CircuitBreaker.onFailure demoConfig CircuitBreaker.init
                   (worldAt 0 0)))
     = CLOSED
  /\ state (snd (fst (CircuitBreaker.execute (host := refHost) demoConfig
                        demoFails CircuitBreaker.init (worldAt 0 0))))
     = CLOSED
  /\ CircuitBreaker.execute (host := refHost) demoConfig demoSucceeds
       CircuitBreaker.init (worldAt 0 0)
     = (Resolved 7%nat, CircuitBreaker.onSuccess CircuitBreaker.init,
        worldAt 0 0)
  /\ state (CircuitBreaker.onSuccess
              (CircuitBreaker.onSuccess
                 (CircuitBreaker.onSuccess (CircuitBreaker.halfOpen demoOpen))))
     = CLOSED
  /\ failures (CircuitBreaker.onSuccess CircuitBreaker.init) = 0.
Proof.
  split.
  { destruct (circuit_breaker_state_machine (host := refHost) demoConfig
                demoFails demoOpen (worldAt 50 0))
      as (_ & _ & _ & _ & _ & Hblocked & _).
    destruct (Hblocked 0) as (e & w' & He & Hc & Hs & _ & Hg & _);
      [reflexivity | reflexivity | vm_compute; reflexivity |].
    exists e, w'. split; [exact He |]. split; [exact Hc |].
    split; [exact Hs | exact Hg]. }
  split.
  { destruct (circuit_breaker_state_machine (host := refHost) demoConfig
                demoFails demoOpen (worldAt 150 0))
      as (_ & _ & _ & _ & _ & _ & Helapsed & _).
    destruct (Helapsed 0) as (Hs & _);
      [reflexivity | reflexivity | vm_compute; discriminate |].
    exact Hs. }
  split.
  { destruct (circuit_breaker_state_machine (host := refHost) demoConfig
                demoFails (CircuitBreaker.halfOpen demoOpen) (worldAt 150 0))
      as (_ & _ & Hopens & _).
    apply Hopens. vm_compute. discriminate. }
  split.
  { destruct (circuit_breaker_state_machine (host := refHost) demoConfig
                demoFails CircuitBreaker.init (worldAt 0 0))
      as (_ & _ & _ & Hbelow & _).
    apply Hbelow. vm_compute. reflexivity. }
  split.
  { destruct (circuit_breaker_state_machine (host := refHost) demoConfig
                demoFails CircuitBreaker.init (worldAt 0 0))
      as (_ & _ & _ & _ & Hfailed & _).
    rewrite (Hfailed ThrownTypeError (worldAt 0 0));
      [reflexivity | discriminate | reflexivity]. }
  split.
  { destruct (circuit_breaker_state_machine (host := refHost) demoConfig
                demoSucceeds CircuitBreaker.init (worldAt 0 0))
      as (_ & _ & _ & _ & _ & _ & _ & Hresolved & _).
    apply Hresolved; [discriminate | reflexivity]. }
  split.
  { destruct (circuit_breaker_state_machine (host := refHost) demoConfig
                demoFails (CircuitBreaker.halfOpen demoOpen) (worldAt 150 0))
      as (_ & _ & _ & _ & _ & _ & _ & _ & Hthree & _).
    apply Hthree; reflexivity. }
  { destruct (circuit_breaker_state_machine (host := refHost) demoConfig
                demoFails CircuitBreaker.init (worldAt 0 0))
      as (_ & _ & _ & _ & _ & _ & _ & _ & _ & Hclosed).
    destruct Hclosed as [_ Hf]; [reflexivity | exact Hf]. }
Defined.

Lemma half_open_failure_reopens_witness :
  failureThreshold demoConfig <= failures demoHalfOpen
  /\ state (fst (CircuitBreaker.onFailure demoConfig demoHalfOpen
                   (worldAt 200 0))) = OPEN
  /\ state (snd (fst (CircuitBreaker.execute (host := refHost) demoConfig
                        demoFails demoHalfOpen (worldAt 200 0)))) = OPEN.
Proof.
  destruct (half_open_failure_reopens (host := refHost) demoConfig
              demoHalfOpen) as (Hc & _ & Hopen & Hexec).
  - unfold demoHalfOpen. apply reach_halfOpen; [| reflexivity].
    apply reach_failure. apply reach_failure. apply reach_init.
  - reflexivity.
  - split; [exact Hc |]. split; [apply Hopen |].
    apply (Hexec nat demoFails (worldAt 200 0) ThrownTypeError (worldAt 200 0)).
    reflexivity.
Defined.

(** ** What [enhanceError] does *)

Section EnhanceRuns.
Context {host : Host}.

Import Js.

(** Every conversion that throws throws a [TypeError]. *)
Lemma ToString_throws v t : ToString v = Rejected t -> t = ThrownTypeError.
Proof.
  unfold ToString. destruct (unconvertible v); congruence.
Qed.

Lemma ToString_returns v s : ToString v = Resolved s -> s = stringOf v.
Proof.
  unfold ToString. destruct (unconvertible v); congruence.
Qed.

Lemma mapToString_throws items t :
  mapToString items = Rejected t -> t = ThrownTypeError.
Proof.
  induction items as [| x rest IH]; cbn; [discriminate |].
  destruct (ToString x) as [s | t0] eqn:Hx; cbn.
  - destruct (mapToString rest) as [l | t1]; cbn; [discriminate |].
    intro H. inversion H. subst. apply IH. reflexivity.
  - intro H. inversion H. subst. exact (ToString_throws _ _ Hx).
Qed.

Lemma mapToString_returns items strings :
  mapToString items = Resolved strings -> strings = map stringOf items.
Proof.
  revert strings. induction items as [| x rest IH]; cbn; intros strings H.
  - inversion H. reflexivity.
  - destruct (ToString x) as [s | t0] eqn:Hx; cbn in H; [| discriminate].
    destruct (mapToString rest) as [l | t1]; cbn in H; [| discriminate].
    inversion H. rewrite (ToString_returns _ _ Hx), (IH l eq_refl).
    reflexivity.
Qed.

Lemma ToNumber_throws v t : ToNumber v = Rejected t -> t = ThrownTypeError.
Proof.
  destruct v; cbn; try discriminate;
    match goal with
    | |- context [ToString ?x] => destruct (ToString x) eqn:Hx
    end; cbn; try discriminate;
    intro H; inversion H; subst; exact (ToString_throws _ _ Hx).
Qed.

Lemma ge_throws v n t : ge v n = Rejected t -> t = ThrownTypeError.
Proof.
  unfold ge. destruct (ToNumber v) eqn:Hv; cbn; [discriminate |].
  intro H. inversion H. subst. exact (ToNumber_throws _ _ Hv).
Qed.

Lemma lt_throws v n t : lt v n = Rejected t -> t = ThrownTypeError.
Proof.
  unfold lt. destruct (ToNumber v) eqn:Hv; cbn; [discriminate |].
  intro H. inversion H. subst. exact (ToNumber_throws _ _ Hv).
Qed.

(** A number is compared as it is. *)
Lemma ge_number s n : ge (JNum s) n = Resolved (n <=? s).
Proof. reflexivity. Qed.

Lemma lt_number s n : lt (JNum s) n = Resolved (s <? n).
Proof. reflexivity. Qed.

Lemma switchStatus_throws s t :
  ErrorHandler.switchStatus s = Rejected t -> t = ThrownTypeError.
Proof.
  unfold ErrorHandler.switchStatus.
  repeat match goal with
         | |- context [if isNum ?a ?b then _ else _] => destruct (isNum a b)
         end; try discriminate.
  destruct (ge s 500) eqn:Hge; cbn; [discriminate |].
  intro H. inversion H. subst. exact (ge_throws _ _ _ Hge).
Qed.

Lemma getErrorCode_throws s error t :
  ErrorHandler.getErrorCode s error = Rejected t -> t = ThrownTypeError.
Proof.
  unfold ErrorHandler.getErrorCode.
  repeat match goal with
         | |- context [if ?b then _ else _] => destruct b
         end; try discriminate; apply switchStatus_throws.
Qed.

Lemma isRetryable_throws error t :
  ErrorHandler.isRetryable error = Rejected t -> t = ThrownTypeError.
Proof.
  unfold ErrorHandler.isRetryable.
  destruct (isStr _ _); [discriminate |].
  set (status := coalesce _ _).
  destruct (truthy status).
  - destruct (ge status 400) as [[|] | t0] eqn:H400; cbn.
    + destruct (lt status 500) as [[|] | t1] eqn:H500; cbn.
      * discriminate.
      * destruct (isUndefined status); [discriminate |]. apply ge_throws.
      * intro H. inversion H. subst. exact (lt_throws _ _ _ H500).
    + destruct (isUndefined status); [discriminate |]. apply ge_throws.
    + intro H. inversion H. subst. exact (ge_throws _ _ _ H400).
  - cbn. destruct (isUndefined status); [discriminate |]. apply ge_throws.
Qed.

Lemma collectField_throws result entry t :
  ErrorHandler.collectField result entry = Rejected t -> t = ThrownTypeError.
Proof.
  unfold ErrorHandler.collectField.
  destruct (snd entry) as [| | b | n | s | items | props] eqn:Hv;
    try discriminate;
    try (destruct (ToString _) eqn:Hx; cbn; [discriminate |];
         intro H; inversion H; subst; exact (ToString_throws _ _ Hx)).
  destruct (mapToString items) eqn:Hx; cbn; [discriminate |].
  intro H. inversion H. subst. exact (mapToString_throws _ _ Hx).
Qed.

Lemma collectFields_throws fields result t :
  ErrorHandler.collectFields fields result = Rejected t ->
  t = ThrownTypeError.
Proof.
  revert result. induction fields as [| entry rest IH]; cbn; intro result;
    [discriminate |].
  destruct (ErrorHandler.collectField result entry) as [r | t0] eqn:Hf; cbn.
  - apply IH.
  - intro H. inversion H. subst. exact (collectField_throws _ _ _ Hf).
Qed.

Lemma collectErrors_throws errors t :
  ErrorHandler.collectErrors errors = Rejected t -> t = ThrownTypeError.
Proof.
  unfold ErrorHandler.collectErrors.
  destruct (ErrorHandler.collectFields _ _) eqn:Hf; cbn; [discriminate |].
  intro H. inversion H. subst. exact (collectFields_throws _ _ _ Hf).
Qed.

Lemma extractValidationErrors_throws error axiosError t :
  ErrorHandler.extractValidationErrors error axiosError = Rejected t ->
  t = ThrownTypeError.
Proof.
  unfold ErrorHandler.extractValidationErrors.
  repeat match goal with
         | |- context [if ?b then _ else _] => destruct b
         end; try discriminate; apply collectErrors_throws.
Qed.

Lemma upperMethod_throws ctx axiosError t :
  ErrorHandler.upperMethod ctx axiosError = Rejected t ->
  t = ThrownTypeError.
Proof.
  unfold ErrorHandler.upperMethod.
  destruct (coalesce _ _); intro H; inversion H; reflexivity.
Qed.

(** What [enhanceError] returns when it returns: every field, and the world
    after the one reading of the clock. *)
Lemma enhanceError_resolved error ctx rc w en w' :
  ErrorHandler.enhanceError error ctx rc w = (Resolved en, w') ->
  let axiosError :=
    if ErrorHandler.isAxiosError error then error else JUndefined in
  w' = snd (Date_now w)
  /\ status en
     = coalesce
         (coalesce (optGet "status" (optGet "response" axiosError))
            (optGet "status"
               (if ErrorHandler.isApiErrorLike error then error
                else JUndefined)))
         (JNum 500)
  /\ ErrorHandler.getErrorCode (status en) error = Resolved (code en)
  /\ message en = ErrorHandler.getErrorMessage error
  /\ ErrorHandler.isRetryable error = Resolved (retryable en)
  /\ suggestion en = ErrorHandler.getErrorSuggestion (code en) error
  /\ ErrorHandler.extractValidationErrors error axiosError
     = Resolved (errors en)
  /\ ErrorHandler.upperMethod ctx axiosError = Resolved (method (context en))
  /\ endpoint (context en)
     = coalesce (match ctx with
                 | Some c => optStr (ctx_endpoint c)
                 | None => JUndefined
                 end)
                (optGet "url" (optGet "config" axiosError))
  /\ timestamp (context en) = clock w (ticks w)
  /\ requestId (context en) = ErrorHandler.extractRequestId axiosError
  /\ retryCount (context en) = rc.
Proof.
  unfold ErrorHandler.enhanceError.
  destruct (ErrorHandler.getErrorCode _ error) as [c | t] eqn:Hc;
    cbn [andThen]; [| unfold ret; congruence].
  destruct (ErrorHandler.isRetryable error) as [r | t] eqn:Hr;
    cbn [andThen]; [| unfold ret; congruence].
  destruct (ErrorHandler.extractValidationErrors error _) as [e | t] eqn:He;
    cbn [andThen]; [| unfold ret; congruence].
  destruct (ErrorHandler.upperMethod ctx _) as [m | t] eqn:Hm;
    cbn [andThen]; [| unfold ret; congruence].
  unfold ret, bind, Date_now. intro H. inversion H. subst. cbn.
  repeat split; try reflexivity; assumption.
Qed.

(** When [enhanceError] throws, it throws a [TypeError] and nothing has
    happened. *)
Lemma enhanceError_rejected error ctx rc w t w' :
  ErrorHandler.enhanceError error ctx rc w = (Rejected t, w') ->
  t = ThrownTypeError /\ w' = w.
Proof.
  unfold ErrorHandler.enhanceError.
  destruct (ErrorHandler.getErrorCode _ error) as [c | t0] eqn:Hc;
    cbn [andThen];
    [| unfold ret; intro H; inversion H; subst;
       split; [exact (getErrorCode_throws _ _ _ Hc) | reflexivity]].
  destruct (ErrorHandler.isRetryable error) as [r | t0] eqn:Hr;
    cbn [andThen];
    [| unfold ret; intro H; inversion H; subst;
       split; [exact (isRetryable_throws _ _ Hr) | reflexivity]].
  destruct (ErrorHandler.extractValidationErrors error _) as [e | t0] eqn:He;
    cbn [andThen];
    [| unfold ret; intro H; inversion H; subst;
       split; [exact (extractValidationErrors_throws _ _ _ He) | reflexivity]].
  destruct (ErrorHandler.upperMethod ctx _) as [m | t0] eqn:Hm;
    cbn [andThen];
    [| unfold ret; intro H; inversion H; subst;
       split; [exact (upperMethod_throws _ _ _ Hm) | reflexivity]].
  unfold ret, bind, Date_now. discriminate.
Qed.

(** [enhanceError] returns exactly when its four evaluations that can throw
    all return. *)
Lemma enhanceError_returns_when error ctx rc w c r e m :
  let axiosError :=
    if ErrorHandler.isAxiosError error then error else JUndefined in
  ErrorHandler.getErrorCode
    (coalesce
       (coalesce (optGet "status" (optGet "response" axiosError))
          (optGet "status"
             (if ErrorHandler.isApiErrorLike error then error
              else JUndefined)))
       (JNum 500)) error = Resolved c ->
  ErrorHandler.isRetryable error = Resolved r ->
  ErrorHandler.extractValidationErrors error axiosError = Resolved e ->
  ErrorHandler.upperMethod ctx axiosError = Resolved m ->
  exists en,
    ErrorHandler.enhanceError error ctx rc w = (Resolved en, snd (Date_now w)).
Proof.
  intros axiosError Hc Hr He Hm. subst axiosError.
  unfold ErrorHandler.enhanceError.
  rewrite Hc, Hr, He, Hm. cbn [andThen]. unfold ret, bind, Date_now.
  eexists. reflexivity.
Qed.

End EnhanceRuns.

(** ** Retry orchestration *)

Section RetryProperties.
Context {host : Host}.

Lemma retryOperation_unfold {T : Type} (config : RetryConfig)
  (fn : Operation T) (context : option ErrorContext) (retryCount : nat)
  (w : World) :
  ErrorHandler.retryOperation config fn context retryCount w
  = match call fn w with
    | (Resolved v, w1) => (Resolved v, w1)
    | (Rejected error, w1) =>
        match ErrorHandler.enhanceError error context (Some retryCount) w1 with
        | (Rejected t, w2) => (Rejected t, w2)
        | (Resolved enhancedError, w2) =>
            if (Z.of_nat retryCount <? maxRetries config)
               && ErrorHandler.shouldRetryCall config enhancedError
            then
              let (delay, w3) :=
                ErrorHandler.calculateBackoffDelay config retryCount w2 in
              let (_, w4) := sleep delay w3 in
              ErrorHandler.retryOperation config fn context (S retryCount) w4
            else (Rejected (ThrownEnhanced enhancedError), w2)
        end
    end.
Proof.
  simp retryOperation.
  destruct (call fn w) as [[v | error] w1]; simp retryOperation; [reflexivity |].
  destruct (ErrorHandler.enhanceError error context (Some retryCount) w1)
    as [[enhancedError | t] w2]; simp retryOperation; [| reflexivity].
  destruct (Z_lt_dec (Z.of_nat retryCount) (maxRetries config)) as [Hlt | Hge];
    simp retryOperation.
  - destruct (Z.ltb_spec (Z.of_nat retryCount) (maxRetries config)); [| lia].
    cbn [andb].
    destruct (ErrorHandler.shouldRetryCall config enhancedError);
      simp retryOperation; reflexivity.
  - destruct (Z.ltb_spec (Z.of_nat retryCount) (maxRetries config)); [lia |].
    reflexivity.
Qed.

Lemma enhanceError_world (error : JsValue) (context : option ErrorContext)
  (rc : option nat) (w : World) :
  calls (snd (ErrorHandler.enhanceError error context rc w)) = calls w
  /\ slept (snd (ErrorHandler.enhanceError error context rc w)) = slept w.
Proof.
  destruct (ErrorHandler.enhanceError error context rc w) as [[en | t] w']
    eqn:H.
  - destruct (enhanceError_resolved _ _ _ _ _ _ H) as (-> & _).
    split; reflexivity.
  - destruct (enhanceError_rejected _ _ _ _ _ _ H) as (_ & ->).
    split; reflexivity.
Qed.

Lemma enhanceError_retryCount (error : JsValue) (ctx : option ErrorContext)
  (rc : option nat) (w w' : World) (en : EnhancedApiError) :
  ErrorHandler.enhanceError error ctx rc w = (Resolved en, w') ->
  retryCount (context en) = rc.
Proof.
  intro H. apply (enhanceError_resolved _ _ _ _ _ _ H).
Qed.

(** The enhanced error depends on the world through one reading of the
    clock only. *)
Lemma enhanceError_instant (error : JsValue) (ctx : option ErrorContext)
  (rc : option nat) (w1 w2 w1' : World) (en : EnhancedApiError) :
  clock w1 (ticks w1) = clock w2 (ticks w2) ->
  ErrorHandler.enhanceError error ctx rc w1 = (Resolved en, w1') ->
  ErrorHandler.enhanceError error ctx rc w2 = (Resolved en, snd (Date_now w2)).
Proof.
  intros Hclock H.
  destruct (enhanceError_resolved _ _ _ _ _ _ H)
    as (_ & Hst & Hco & Hmsg & Hre & Hsu & Her & Hme & Hep & Hts & Hid & Hrc).
  rewrite Hst in Hco.
  destruct (enhanceError_returns_when error ctx rc w2 _ _ _ _ Hco Hre Her Hme)
    as (en2 & H2).
  rewrite H2. f_equal. f_equal.
  destruct (enhanceError_resolved _ _ _ _ _ _ H2)
    as (_ & Hst2 & Hco2 & Hmsg2 & Hre2 & Hsu2 & Her2 & Hme2 & Hep2 & Hts2
        & Hid2 & Hrc2).
  destruct en as [m st c r sg er [ep me ts id k]].
  destruct en2 as [m2 st2 c2 r2 sg2 er2 [ep2 me2 ts2 id2 k2]].
  cbn in *. subst.
  rewrite Hco in Hco2. rewrite Hre in Hre2. rewrite Her in Her2.
  rewrite Hme in Hme2.
  inversion Hco2. inversion Hre2. inversion Her2. inversion Hme2.
  subst. rewrite Hclock. reflexivity.
Qed.

Lemma backoff_sleep_world (config : RetryConfig) (rc : nat) (w : World) :
  let w3 := snd (ErrorHandler.calculateBackoffDelay config rc w) in
  let delay := fst (ErrorHandler.calculateBackoffDelay config rc w) in
  calls (snd (sleep delay w3)) = calls w
  /\ slept (snd (sleep delay w3)) = (slept w ++ [delay])%list.
Proof. split; reflexivity. Qed.

(** One pass through [retryOperation] that retries. *)
Lemma retryOperation_retry {T : Type} (config : RetryConfig)
  (fn : Operation T) (ctx : option ErrorContext) (rc : nat) (w : World)
  (error : JsValue) (en : EnhancedApiError) (w2 : World) :
  fn (calls w) = Rejected error ->
  ErrorHandler.enhanceError error ctx (Some rc) (snd (call fn w))
  = (Resolved en, w2) ->
  Z.of_nat rc < maxRetries config ->
  ErrorHandler.shouldRetryCall config en = true ->
  exists w4,
    ErrorHandler.retryOperation config fn ctx rc w
    = ErrorHandler.retryOperation config fn ctx (S rc) w4
    /\ calls w4 = S (calls w)
    /\ length (slept w4) = S (length (slept w)).
Proof.
  intros Hfn Hen Hlt Hp.
  rewrite retryOperation_unfold.
  unfold call at 1. rewrite Hfn.
  change (snd (call fn w)) with
    {| clock := clock w; ticks := ticks w; random := random w;
       draws := draws w; calls := S (calls w); slept := slept w |} in Hen.
  rewrite Hen, Hp.
  destruct (Z.ltb_spec (Z.of_nat rc) (maxRetries config)); [| lia].
  cbn [andb].
  destruct (enhanceError_world error ctx (Some rc)
              {| clock := clock w; ticks := ticks w; random := random w;
                 draws := draws w; calls := S (calls w); slept := slept w |})
    as [Hc Hs].
  rewrite Hen in Hc, Hs. cbn [snd calls slept] in Hc, Hs.
  destruct (backoff_sleep_world config rc w2) as [Hc' Hs'].
  destruct (ErrorHandler.calculateBackoffDelay config rc w2) as [delay w3].
  cbn [fst snd] in Hc', Hs'.
  destruct (sleep delay w3) as [u w4]. cbn [snd] in Hc', Hs'.
  exists w4. split; [reflexivity |]. split; [congruence |].
  rewrite Hs', length_app, Hs. cbn. lia.
Qed.

(** One pass through [retryOperation] that gives up. *)
Lemma retryOperation_stop {T : Type} (config : RetryConfig)
  (fn : Operation T) (ctx : option ErrorContext) (rc : nat) (w : World)
  (error : JsValue) (en : EnhancedApiError) (w2 : World) :
  fn (calls w) = Rejected error ->
  ErrorHandler.enhanceError error ctx (Some rc) (snd (call fn w))
  = (Resolved en, w2) ->
  maxRetries config <= Z.of_nat rc
  \/ ErrorHandler.shouldRetryCall config en = false ->
  ErrorHandler.retryOperation config fn ctx rc w
  = (Rejected (ThrownEnhanced en), w2)
  /\ calls w2 = S (calls w)
  /\ slept w2 = slept w.
Proof.
  intros Hfn Hen Hstop.
  rewrite retryOperation_unfold.
  unfold call at 1. rewrite Hfn.
  change (snd (call fn w)) with
    {| clock := clock w; ticks := ticks w; random := random w;
       draws := draws w; calls := S (calls w); slept := slept w |} in Hen.
  destruct (enhanceError_world error ctx (Some rc)
              {| clock := clock w; ticks := ticks w; random := random w;
                 draws := draws w; calls := S (calls w); slept := slept w |})
    as [Hc Hs].
  rewrite Hen in *. cbn [snd calls slept] in Hc, Hs.
  assert (E : (Z.of_nat rc <? maxRetries config)
              && ErrorHandler.shouldRetryCall config en = false).
  { destruct Hstop as [Hge | Hp].
    - destruct (Z.ltb_spec (Z.of_nat rc) (maxRetries config)); [lia | reflexivity].
    - rewrite Hp. apply andb_false_r. }
  rewrite E. repeat split; assumption.
Qed.

Lemma retry_exhausts {T : Type} (config : RetryConfig) (fn : Operation T)
  (ctx : option ErrorContext) :
  alwaysFailsRetryably config fn ctx ->
  forall (n rc : nat) (w : World),
    Z.of_nat rc + Z.of_nat n = maxRetries config ->
    let run := ErrorHandler.retryOperation config fn ctx rc w in
    calls (snd run) = (calls w + n + 1)%nat
    /\ length (slept (snd run)) = (length (slept w) + n)%nat
    /\ exists en,
         fst run = Rejected (ThrownEnhanced en)
         /\ retryCount (context en) = Some (rc + n)%nat.
Proof.
  intros Hall n. induction n as [| n IH]; intros rc w Hn run; subst run.
  - destruct (Hall (calls w)) as (error & Hfn & Henh).
    destruct (Henh (Some rc) (snd (call fn w))) as (en & w2 & Hen & Hp).
    destruct (retryOperation_stop config fn ctx rc w error en w2 Hfn Hen)
      as (Hrun & Hc & Hs); [left; lia |].
    rewrite Hrun. cbn [fst snd]. split; [lia |]. split; [rewrite Hs; lia |].
    exists en. split; [reflexivity |].
    rewrite (enhanceError_retryCount _ _ _ _ _ _ Hen). f_equal. lia.
  - destruct (Hall (calls w)) as (error & Hfn & Henh).
    destruct (Henh (Some rc) (snd (call fn w))) as (en & w2 & Hen & Hp).
    destruct (retryOperation_retry config fn ctx rc w error en w2 Hfn Hen)
      as (w4 & Hrun & Hc & Hs); [lia | exact Hp |].
    rewrite Hrun.
    destruct (IH (S rc) w4) as (Hc' & Hs' & en' & Hr' & Hrc'); [lia |].
    split; [lia |]. split; [lia |].
    exists en'. split; [exact Hr' |]. rewrite Hrc'. f_equal. lia.
Qed.

(** [maxRetries] is a ceiling for every operation and every policy. *)
Lemma retry_ceiling {T : Type} (config : RetryConfig) (fn : Operation T)
  (ctx : option ErrorContext) :
  forall (n rc : nat) (w : World),
    maxRetries config - Z.of_nat rc <= Z.of_nat n ->
    let run := ErrorHandler.retryOperation config fn ctx rc w in
    (calls w + 1 <= calls (snd run) <= calls w + 1 + n)%nat.
Proof.
  assert (Hstep : forall (rc : nat) (w : World) (bound : nat),
            (forall w4, calls w4 = S (calls w) ->
               Z.of_nat rc < maxRetries config ->
               (calls w4 + 1
                <= calls (snd (ErrorHandler.retryOperation config fn ctx (S rc) w4))
                <= calls w4 + bound)%nat) ->
            (calls w + 1
             <= calls (snd (ErrorHandler.retryOperation config fn ctx rc w))
             <= calls w + 1 + bound)%nat).
  { intros rc w bound Hrec.
    rewrite retryOperation_unfold. unfold call.
    destruct (fn (calls w)) as [v | error]; [cbn; lia |].
    destruct (enhanceError_world error ctx (Some rc)
                {| clock := clock w; ticks := ticks w; random := random w;
                   draws := draws w; calls := S (calls w); slept := slept w |})
      as [Hc _].
    destruct (ErrorHandler.enhanceError error ctx (Some rc) _)
      as [[en | t] w2]; cbn [snd calls] in Hc; [| cbn; lia].
    destruct (Z.ltb_spec (Z.of_nat rc) (maxRetries config)) as [Hlt | Hge];
      [| cbn; lia].
    destruct (ErrorHandler.shouldRetryCall config en); [| cbn; lia].
    cbn [andb].
    destruct (backoff_sleep_world config rc w2) as [Hc' _].
    destruct (ErrorHandler.calculateBackoffDelay config rc w2) as [delay w3].
    cbn [fst snd] in Hc'.
    destruct (sleep delay w3) as [u w4]. cbn [snd] in Hc'.
    specialize (Hrec w4 ltac:(congruence) Hlt). lia. }
  induction n as [| n IH]; intros rc w Hn run; subst run.
  - replace (calls w + 1 + 0)%nat with (calls w + 1 + 0)%nat by reflexivity.
    apply Hstep. intros w4 _ Hlt. lia.
  - replace (calls w + 1 + S n)%nat with (calls w + 1 + (1 + n))%nat by lia.
    apply Hstep. intros w4 _ Hlt.
    replace (calls w4 + (1 + n))%nat with (calls w4 + 1 + n)%nat by lia.
    apply IH. lia.
Qed.

(** One pass through [retryOperation] that retries, with what it leaves of
    the world. *)
Lemma retryOperation_step {T : Type} (config : RetryConfig)
  (fn : Operation T) (ctx : option ErrorContext) (rc : nat) (w : World)
  (error : JsValue) (en : EnhancedApiError) (w2 : World) :
  fn (calls w) = Rejected error ->
  ErrorHandler.enhanceError error ctx (Some rc) (snd (call fn w))
  = (Resolved en, w2) ->
  Z.of_nat rc < maxRetries config ->
  ErrorHandler.shouldRetryCall config en = true ->
  exists w4,
    ErrorHandler.retryOperation config fn ctx rc w
    = ErrorHandler.retryOperation config fn ctx (S rc) w4
    /\ calls w4 = S (calls w)
    /\ length (slept w4) = S (length (slept w))
    /\ clock w4 = clock w
    /\ ticks w4 = S (ticks w).
Proof.
  intros Hfn Hen Hlt Hp.
  destruct (enhanceError_resolved _ _ _ _ _ _ Hen) as (Hw2 & _).
  rewrite retryOperation_unfold.
  unfold call at 1. rewrite Hfn.
  change (snd (call fn w)) with
    {| clock := clock w; ticks := ticks w; random := random w;
       draws := draws w; calls := S (calls w); slept := slept w |} in Hen, Hw2.
  rewrite Hen, Hp.
  destruct (Z.ltb_spec (Z.of_nat rc) (maxRetries config)); [| lia].
  cbn [andb].
  unfold ErrorHandler.calculateBackoffDelay, bind, Math_random, ret, sleep.
  eexists. split; [reflexivity |].
  subst w2. cbn. rewrite length_app. cbn. repeat split; lia.
Qed.

(** The classification that [failsRetryablyAt] speaks of is the one the run
    makes at that attempt. *)
Lemma failsRetryablyAt_run {T : Type} (config : RetryConfig)
  (fn : Operation T) (ctx : option ErrorContext) (w0 w : World) (rc : nat) :
  failsRetryablyAt config fn ctx w0 rc ->
  clock w = clock w0 ->
  ticks w = (ticks w0 + rc)%nat ->
  calls w = (calls w0 + rc)%nat ->
  exists error en w2,
    fn (calls w) = Rejected error
    /\ ErrorHandler.enhanceError error ctx (Some rc) (snd (call fn w))
       = (Resolved en, w2)
    /\ (Z.of_nat rc < maxRetries config ->
        ErrorHandler.shouldRetryCall config en = true).
Proof.
  intros (error & en & Hfn & Hen & Hp) Hclock Hticks Hcalls.
  destruct (ErrorHandler.enhanceError error ctx (Some rc)
              (afterReadings w0 rc)) as [o w1] eqn:H.
  cbn [fst] in Hen. subst o.
  exists error, en, (snd (Date_now (snd (call fn w)))).
  split; [rewrite Hcalls; exact Hfn |]. split; [| exact Hp].
  apply (enhanceError_instant error ctx (Some rc) (afterReadings w0 rc)
           (snd (call fn w)) w1 en); [| exact H].
  cbn. rewrite Hclock, Hticks. reflexivity.
Qed.

(** An operation that fails at every attempt of the run, each failure but
    the last being accepted, is invoked until [maxRetries] is reached. *)
Lemma retry_run_exhausts {T : Type} (config : RetryConfig) (fn : Operation T)
  (ctx : option ErrorContext) (w0 : World) :
  (forall j, Z.of_nat j <= maxRetries config ->
     failsRetryablyAt config fn ctx w0 j) ->
  forall (n rc : nat) (w : World),
    Z.of_nat rc + Z.of_nat n = maxRetries config ->
    clock w = clock w0 ->
    ticks w = (ticks w0 + rc)%nat ->
    calls w = (calls w0 + rc)%nat ->
    let run := ErrorHandler.retryOperation config fn ctx rc w in
    calls (snd run) = (calls w + n + 1)%nat
    /\ length (slept (snd run)) = (length (slept w) + n)%nat
    /\ exists en,
         fst run = Rejected (ThrownEnhanced en)
         /\ retryCount (context en) = Some (rc + n)%nat.
Proof.
  intros Hall n.
  induction n as [| n IH]; intros rc w Hn Hclock Hticks Hcalls run;
    subst run.
  - destruct (failsRetryablyAt_run config fn ctx w0 w rc)
      as (error & en & w2 & Hfn & Hen & _);
      [apply Hall; lia | exact Hclock | exact Hticks | exact Hcalls |].
    destruct (retryOperation_stop config fn ctx rc w error en w2 Hfn Hen)
      as (Hrun & Hc & Hs); [left; lia |].
    rewrite Hrun. cbn [fst snd]. split; [lia |]. split; [rewrite Hs; lia |].
    exists en. split; [reflexivity |].
    rewrite (enhanceError_retryCount _ _ _ _ _ _ Hen). f_equal. lia.
  - destruct (failsRetryablyAt_run config fn ctx w0 w rc)
      as (error & en & w2 & Hfn & Hen & Hp);
      [apply Hall; lia | exact Hclock | exact Hticks | exact Hcalls |].
    destruct (retryOperation_step config fn ctx rc w error en w2 Hfn Hen)
      as (w4 & Hrun & Hc & Hs & Hk & Ht); [lia | apply Hp; lia |].
    rewrite Hrun.
    destruct (IH (S rc) w4) as (Hc' & Hs' & en' & Hr' & Hrc');
      [lia | congruence | lia | lia |].
    split; [lia |]. split; [lia |].
    exists en'. split; [exact Hr' |]. rewrite Hrc'. f_equal. lia.
Qed.

(** The default predicate reads the classified status and code. *)
Lemma default_predicate_rejects_400 (en : EnhancedApiError) :
  status en = JNum 400 ->
  ErrorHandler.isRetryable (toJs en) = Resolved false.
Proof.
  destruct en as [m s c r sg er cx]. cbn [status]. intro Hs. subst s.
  destruct c; reflexivity.
Qed.

(** The status an enhanced error gets from a raw failure that carries one
    where [enhanceError] reads it. *)
Lemma enhanceError_carried_status error ctx rc w en w' s :
  ErrorHandler.enhanceError error ctx rc w = (Resolved en, w') ->
  responseStatus_of error = JNum s
  \/ (Js.nullish (responseStatus_of error) = true
      /\ ownStatus_of error = JNum s) ->
  status en = JNum s.
Proof.
  intros H Hcar.
  destruct (enhanceError_resolved _ _ _ _ _ _ H) as (_ & Hst & _).
  rewrite Hst. clear Hst.
  assert (Hr : Js.optGet "status"
                 (Js.optGet "response"
                    (if ErrorHandler.isAxiosError error then error
                     else JUndefined))
               = responseStatus_of error).
  { unfold responseStatus_of.
    destruct (ErrorHandler.isAxiosError error) eqn:Ha; [| reflexivity].
    unfold ErrorHandler.isAxiosError in Ha.
    destruct error; cbn in Ha; try discriminate. reflexivity. }
  assert (Ho : Js.optGet "status"
                 (if ErrorHandler.isApiErrorLike error then error
                  else JUndefined)
               = ownStatus_of error).
  { unfold ownStatus_of.
    destruct (ErrorHandler.isApiErrorLike error) eqn:Hl; [| reflexivity].
    unfold ErrorHandler.isApiErrorLike in Hl.
    destruct error; cbn in Hl; try discriminate; reflexivity. }
  rewrite Hr, Ho.
  destruct Hcar as [-> | [Hn ->]]; [reflexivity |].
  unfold Js.coalesce at 2. rewrite Hn. reflexivity.
Qed.

(** C3 (as amended).  Run from attempt 0, [retryOperation] invokes an
    operation that fails at every attempt of the run, each failure being
    classified and accepted by the predicate where the predicate is
    consulted, exactly [maxRetries + 1] times (for [maxRetries >= 0]) and
    then throws one enhanced error, that of the last attempt.  When the
    predicate rejects the first failure it invokes the operation exactly
    once and throws that failure's enhanced error, whatever [maxRetries] is.
    Under the default predicate a failure that carries status 400 where the
    classifier reads it, that is in the response of an axios error or, in
    its absence, on a failure shaped like an [ApiError], is invoked exactly
    once.  For every operation and every policy the recursion ends after at
    least one and at most [maxRetries + 1] invocations (one when
    [maxRetries] is negative). *)
Theorem retry_attempt_count {T : Type} (config : RetryConfig)
  (fn : Operation T) (ctx : option ErrorContext) (w : World) :
  let run := ErrorHandler.retryOperation config fn ctx 0 w in
  (0 <= maxRetries config ->
   (forall j, Z.of_nat j <= maxRetries config ->
      failsRetryablyAt config fn ctx w j) ->
   Z.of_nat (calls (snd run)) = Z.of_nat (calls w) + (maxRetries config + 1)
   /\ exists en,
        fst run = Rejected (ThrownEnhanced en)
        /\ retryCount (context en) = Some (Z.to_nat (maxRetries config)))
  /\ (forall error en w2,
        fn (calls w) = Rejected error ->
        ErrorHandler.enhanceError error ctx (Some 0%nat) (snd (call fn w))
        = (Resolved en, w2) ->
        ErrorHandler.shouldRetryCall config en = false ->
        run = (Rejected (ThrownEnhanced en), w2)
        /\ calls w2 = (calls w + 1)%nat)
  /\ (forall error,
        shouldRetry config = shouldRetry ErrorHandler.defaultRetryConfig ->
        fn (calls w) = Rejected error ->
        responseStatus_of error = JNum 400
        \/ (Js.nullish (responseStatus_of error) = true
            /\ ownStatus_of error = JNum 400) ->
        calls (snd run) = (calls w + 1)%nat
        /\ run
           = (match fst (ErrorHandler.enhanceError error ctx (Some 0%nat)
                           (snd (call fn w))) with
              | Resolved en => Rejected (ThrownEnhanced en)
              | Rejected t => Rejected t
              end,
              snd (ErrorHandler.enhanceError error ctx (Some 0%nat)
                     (snd (call fn w)))))
  /\ (calls w + 1 <= calls (snd run)
      <= calls w + 1 + Z.to_nat (maxRetries config))%nat.
Proof.
  intro run. subst run.
  assert (Hstop : forall error en w2,
            fn (calls w) = Rejected error ->
            ErrorHandler.enhanceError error ctx (Some 0%nat) (snd (call fn w))
            = (Resolved en, w2) ->
            ErrorHandler.shouldRetryCall config en = false ->
            ErrorHandler.retryOperation config fn ctx 0 w
            = (Rejected (ThrownEnhanced en), w2)
            /\ calls w2 = (calls w + 1)%nat).
  { intros error en w2 Hfn Hen Hp.
    destruct (retryOperation_stop config fn ctx 0 w error en w2 Hfn Hen)
      as (Hrun & Hc & _); [right; exact Hp |].
    split; [exact Hrun | lia]. }
  split.
  { intros Hmax Hall.
    destruct (retry_run_exhausts config fn ctx w Hall
                (Z.to_nat (maxRetries config)) 0%nat w)
      as (Hc & _ & en & Hr & Hrc); try lia; try reflexivity.
    split; [lia |]. exists en. split; [exact Hr | exact Hrc]. }
  split; [exact Hstop |].
  split.
  { intros error Hdef Hfn Hcar.
    destruct (ErrorHandler.enhanceError error ctx (Some 0%nat)
                (snd (call fn w))) as [[en | t] w2] eqn:Hen; cbn [fst snd].
    - destruct (Hstop error en w2 Hfn Hen) as [Hrun Hc].
      + unfold ErrorHandler.shouldRetryCall. rewrite Hdef. cbn.
        rewrite default_predicate_rejects_400; [reflexivity |].
        exact (enhanceError_carried_status _ _ _ _ _ _ _ Hen Hcar).
      + rewrite Hrun. split; [exact Hc | reflexivity].
    - destruct (enhanceError_rejected _ _ _ _ _ _ Hen) as [_ Hw].
      assert (Hrun : ErrorHandler.retryOperation config fn ctx 0 w
                     = (Rejected t, w2)).
      { rewrite retryOperation_unfold. unfold call. rewrite Hfn.
        change (snd (call fn w)) with
          {| clock := clock w; ticks := ticks w; random := random w;
             draws := draws w; calls := S (calls w); slept := slept w |}
          in Hen.
        rewrite Hen. reflexivity. }
      rewrite Hrun. subst w2. cbn. split; [lia | reflexivity]. }
  apply retry_ceiling. lia.
Qed.

End RetryProperties.

(** Two retries, default predicate: a request that always fails with status
    500 is attempted three times, one that fails with status 400 once; and
    once under a predicate that accepts nothing.  Under a predicate that
    accepts the first five retries a request that always fails is attempted
    three times. *)
Lemma retry_attempt_count_witness :
  (let run := ErrorHandler.retryOperation (host := refHost) demoRetryConfig
                (alwaysThrows 500 "Server error") None 0 (worldAt 0 0) in
   Z.of_nat (calls (snd run)) = 3
   /\ exists en, fst run = Rejected (ThrownEnhanced en)
                 /\ retryCount (context en) = Some 2%nat)
  /\ (let run := ErrorHandler.retryOperation (host := refHost)
                   countingRetryConfig (alwaysThrows 400 "Bad request") None
                   0 (worldAt 0 0) in
      Z.of_nat (calls (snd run)) = 3)
  /\ (let run := ErrorHandler.retryOperation (host := refHost) demoRetryConfig
                   (alwaysThrows 400 "Bad request") None 0 (worldAt 0 0) in
      calls (snd run) = 1%nat)
  /\ (let run := ErrorHandler.retryOperation (host := refHost)
                   neverRetryConfig (alwaysThrows 500 "Server error") None 0
                   (worldAt 0 0) in
      exists en w2,
        run = (Rejected (ThrownEnhanced en), w2) /\ calls w2 = 1%nat).
Proof.
  split; [| split; [| split]].
  - destruct (retry_attempt_count (host := refHost) demoRetryConfig
                (alwaysThrows 500 "Server error") None (worldAt 0 0))
      as (Hall & _).
    apply Hall.
    + vm_compute. discriminate.
    + intros j Hj. eexists. eexists. split; [reflexivity |].
      split; reflexivity.
  - destruct (retry_attempt_count (host := refHost) countingRetryConfig
                (alwaysThrows 400 "Bad request") None (worldAt 0 0))
      as (Hall & _).
    destruct Hall as [Hcalls _]; [| | exact Hcalls].
    + vm_compute. discriminate.
    + intros j Hj. eexists. eexists. split; [reflexivity |].
      split; [reflexivity |].
      intros _. unfold ErrorHandler.shouldRetryCall.
      cbn [countingRetryConfig shouldRetry context retryCount].
      apply Nat.ltb_lt. cbn in Hj. lia.
  - destruct (retry_attempt_count (host := refHost) demoRetryConfig
                (alwaysThrows 400 "Bad request") None (worldAt 0 0))
      as (_ & _ & H400 & _).
    destruct (H400 (JObj [("status", JNum 400); ("message", JStr "Bad request")]))
      as [Hcalls _];
      [reflexivity | reflexivity | right; split; reflexivity | exact Hcalls].
  - destruct (retry_attempt_count (host := refHost) neverRetryConfig
                (alwaysThrows 500 "Server error") None (worldAt 0 0))
      as (_ & Hreject & _).
    eexists. eexists. eapply Hreject; reflexivity.
Defined.

(** C3 (as stated) fails for a failure that carries status 400 where the
    classifier does not read it: the bare [{ status: 400 }] is classified
    500 and, under the default predicate and two retries, invoked three
    times. *)
Lemma bare_status_400_retried :
  let run := ErrorHandler.retryOperation (host := refHost) demoRetryConfig
               alwaysThrowsBare400 None 0 (worldAt 0 0) in
  calls (snd run) = 3%nat
  /\ calls (snd run) <> 1%nat
  /\ exists en,
       fst run = Rejected (ThrownEnhanced en)
       /\ retryCount (context en) = Some 2%nat.
Proof.
  destruct (retry_run_exhausts (host := refHost) demoRetryConfig
              alwaysThrowsBare400 None (worldAt 0 0))
    with (n := 2%nat) (rc := 0%nat) (w := worldAt 0 0)
    as (Hcalls & _ & en & Hrun & Hrc); try reflexivity.
  - intros j Hj. eexists. eexists. split; [reflexivity |].
    split; reflexivity.
  - split; [exact Hcalls |].
    split; [cbv zeta; rewrite Hcalls; discriminate |].
    exists en. split; [exact Hrun | exact Hrc].
Qed.

(** ** Error classification *)

Section ClassifierProperties.
Context {host : Host}.

Import Js.

Lemma isAxiosError_object error :
  ErrorHandler.isAxiosError error = true -> nullish error = false.
Proof.
  unfold ErrorHandler.isAxiosError. destruct error; cbn; congruence.
Qed.

Lemma isApiErrorLike_number error :
  ErrorHandler.isApiErrorLike error = true ->
  nullish error = false /\ exists n, get "status" error = JNum n.
Proof.
  unfold ErrorHandler.isApiErrorLike.
  destruct error as [| | b | n | s | items | props]; cbn;
    rewrite ?orb_true_r; try congruence.
  destruct (match lookup "status" props with Some x => x | None => JUndefined end);
    cbn; try congruence.
  intros _. split; [reflexivity | eexists; reflexivity].
Qed.

Lemma status_sources error :
  optGet "status"
    (optGet "response"
       (if ErrorHandler.isAxiosError error then error else JUndefined))
  = responseStatus_of error
  /\ optGet "status"
       (if ErrorHandler.isApiErrorLike error then error else JUndefined)
     = ownStatus_of error.
Proof.
  unfold responseStatus_of, ownStatus_of. split.
  - destruct (ErrorHandler.isAxiosError error) eqn:Ha; [| reflexivity].
    unfold optGet at 2. rewrite (isAxiosError_object _ Ha). reflexivity.
  - destruct (ErrorHandler.isApiErrorLike error) eqn:Hl; [| reflexivity].
    unfold optGet. destruct (isApiErrorLike_number _ Hl) as [-> _].
    reflexivity.
Qed.

(** What [enhanceError] returns when it returns. *)
Lemma enhanceError_fields error ctx rc w en w' :
  ErrorHandler.enhanceError error ctx rc w = (Resolved en, w') ->
  status en
  = coalesce (coalesce (responseStatus_of error) (ownStatus_of error))
      (JNum 500)
  /\ ErrorHandler.getErrorCode (status en) error = Resolved (code en)
  /\ message en = ErrorHandler.getErrorMessage error
  /\ ErrorHandler.isRetryable error = Resolved (retryable en)
  /\ ErrorHandler.extractValidationErrors error
       (if ErrorHandler.isAxiosError error then error else JUndefined)
     = Resolved (errors en).
Proof.
  intro H.
  destruct (enhanceError_resolved _ _ _ _ _ _ H)
    as (_ & Hst & Hco & Hmsg & Hre & _ & Her & _).
  destruct (status_sources error) as [Hr Ho]. rewrite Hr, Ho in Hst.
  repeat split; assumption.
Qed.

Lemma isRetryable_status error :
  ErrorHandler.isRetryable error
  = if isStr (ErrorHandler.rawCode error) "CIRCUIT_OPEN" then Resolved false
    else
      let status := coalesce (ownStatus_of error) (responseStatus_of error) in
      client <~ (if truthy status then
                   above <~ ge status 400 ;;
                   if above then lt status 500 else Resolved false
                 else Resolved false) ;;
      if client then Resolved (isNum status 429 || isNum status 408)
      else if isUndefined status then Resolved true
      else ge status 500.
Proof. reflexivity. Qed.

Lemma switchStatus_not_circuit_open s :
  ErrorHandler.switchStatus s <> Resolved CIRCUIT_OPEN.
Proof.
  unfold ErrorHandler.switchStatus.
  repeat match goal with
         | |- context [if isNum ?a ?b then _ else _] => destruct (isNum a b)
         end; try discriminate.
  destruct (ge s 500) as [[|] | t]; discriminate.
Qed.


Lemma getErrorCode_later_rules s error :
  matchesEarlierRule error = false ->
  ErrorHandler.getErrorCode s error = ErrorHandler.switchStatus s.
Proof.
  unfold matchesEarlierRule, ErrorHandler.getErrorCode. cbn [codeString].
  intro H.
  apply orb_false_elim in H. destruct H as [H H4].
  apply orb_false_elim in H. destruct H as [H H3].
  apply orb_false_elim in H. destruct H as [H1 H2].
  rewrite H1, H2, H3, H4. reflexivity.
Qed.

Lemma switchStatus_table s :
  (forall c, In (s, c) codeTable ->
     ErrorHandler.switchStatus (JNum s) = Resolved c)
  /\ ((forall c, ~ In (s, c) codeTable) -> 500 <= s ->
      ErrorHandler.switchStatus (JNum s) = Resolved INTERNAL_SERVER_ERROR)
  /\ ((forall c, ~ In (s, c) codeTable) -> s < 500 ->
      ErrorHandler.switchStatus (JNum s) = Resolved BAD_REQUEST).
Proof.
  split.
  { intros c Hin. unfold codeTable in Hin. cbn [In] in Hin.
    repeat (destruct Hin as [Hin | Hin];
            [inversion Hin; subst; reflexivity |]).
    contradiction. }
  assert (Hother : (forall c, ~ In (s, c) codeTable) ->
            ErrorHandler.switchStatus (JNum s)
            = Resolved (if 500 <=? s then INTERNAL_SERVER_ERROR
                        else BAD_REQUEST)).
  { intro Hout. unfold ErrorHandler.switchStatus, isNum.
    repeat match goal with
           | |- context [(s =? ?k)] =>
               destruct (Z.eqb_spec s k) as [-> | _];
               [exfalso; eapply Hout; unfold codeTable; cbn [In]; tauto |]
           end.
    reflexivity. }
  split; intros Hout Hs; rewrite (Hother Hout).
  - destruct (Z.leb_spec 500 s); [reflexivity | lia].
  - destruct (Z.leb_spec 500 s); [lia | reflexivity].
Qed.

(** The code of a numeric status is never a thrown error. *)
Lemma switchStatus_number s :
  exists c, ErrorHandler.switchStatus (JNum s) = Resolved c.
Proof.
  unfold ErrorHandler.switchStatus.
  repeat match goal with
         | |- context [if isNum ?a ?b then _ else _] => destruct (isNum a b)
         end; eexists; reflexivity.
Qed.

Lemma rawCode_of_code error c :
  get "code" error = JStr c -> ErrorHandler.rawCode error = JStr c.
Proof.
  intro H. unfold ErrorHandler.rawCode.
  destruct (ErrorHandler.isApiErrorLike error); [rewrite H; reflexivity |].
  destruct error as [| | b | n | s | items | props]; cbn in H;
    try discriminate.
  cbn. destruct (lookup "code" props); [| discriminate].
  cbn. rewrite H. reflexivity.
Qed.

Lemma status_rule s :
  (client <~ (if truthy (JNum s) then
                above <~ ge (JNum s) 400 ;;
                if above then lt (JNum s) 500 else Resolved false
              else Resolved false) ;;
   if client then Resolved (isNum (JNum s) 429 || isNum (JNum s) 408)
   else if isUndefined (JNum s) then Resolved true
   else ge (JNum s) 500)
  = Resolved (if (400 <=? s) && (s <? 500) then (s =? 429) || (s =? 408)
              else 500 <=? s).
Proof.
  cbn [truthy isNum isUndefined]. rewrite !ge_number, !lt_number.
  destruct (Z.eqb_spec s 0) as [-> | _]; cbn [negb andThen]; [reflexivity |].
  destruct (400 <=? s); cbn [andThen andb]; [| reflexivity].
  destruct (s <? 500); reflexivity.
Qed.

(** The default predicate, [isRetryable] applied to the enhanced error. *)
Lemma default_predicate_rule (en : EnhancedApiError) (s : Z) :
  status en = JNum s ->
  ErrorHandler.isRetryable (toJs en) = Resolved (retryableBy s (code en)).
Proof.
  destruct en as [m st c r sg er cx]. cbn [status code]. intro Hst. subst st.
  destruct c;
    try (change (ErrorHandler.isRetryable (toJs _))
           with (client <~ (if truthy (JNum s) then
                              above <~ ge (JNum s) 400 ;;
                              if above then lt (JNum s) 500
                              else Resolved false
                            else Resolved false) ;;
                 if client
                 then Resolved (isNum (JNum s) 429 || isNum (JNum s) 408)
                 else if isUndefined (JNum s) then Resolved true
                 else ge (JNum s) 500);
         rewrite status_rule; reflexivity).
  reflexivity.
Qed.

(** The default predicate returns on every enhanced error: the status it
    converts is a number. *)
Lemma default_predicate_returns (en : EnhancedApiError) :
  exists retry, ErrorHandler.isRetryable (toJs en) = Resolved retry.
Proof.
  rewrite isRetryable_status.
  destruct (isStr _ _); [eexists; reflexivity |].
  assert (Hr : responseStatus_of (toJs en) = JUndefined) by reflexivity.
  rewrite Hr. cbv zeta.
  unfold ownStatus_of.
  destruct (ErrorHandler.isApiErrorLike (toJs en)) eqn:Hl.
  - destruct (isApiErrorLike_number _ Hl) as [_ [n Hn]]. rewrite Hn.
    cbn [coalesce nullish]. rewrite status_rule. eexists. reflexivity.
  - eexists. reflexivity.
Qed.

(** C4 (as amended).  When [enhanceError] returns, the status it reads from
    the raw failure, that is the response status of an axios error or, in
    its absence, the own status of a failure shaped like an [ApiError], is
    the output's status; unless an earlier rule matches (transport code,
    circuit-open marker, bare "Network Error"), the code is the one the
    table gives for that status, INTERNAL_SERVER_ERROR for any other status
    from 500 up and BAD_REQUEST for any other status below 500.  A status
    carried anywhere else is not read and the output status is 500. *)
Theorem status_code_mapping error ctx rc w en w' :
  ErrorHandler.enhanceError error ctx rc w = (Resolved en, w') ->
  (forall s,
     responseStatus_of error = JNum s
     \/ (nullish (responseStatus_of error) = true
         /\ ownStatus_of error = JNum s) ->
     status en = JNum s
     /\ (matchesEarlierRule error = false ->
         (forall c, In (s, c) codeTable -> code en = c)
         /\ ((forall c, ~ In (s, c) codeTable) -> 500 <= s ->
             code en = INTERNAL_SERVER_ERROR)
         /\ ((forall c, ~ In (s, c) codeTable) -> s < 500 ->
             code en = BAD_REQUEST)))
  /\ (nullish (responseStatus_of error) = true ->
      ownStatus_of error = JUndefined ->
      status en = JNum 500).
Proof.
  intro H. destruct (enhanceError_fields _ _ _ _ _ _ H) as (Hs & Hc & _).
  split.
  - intros s Hcar.
    assert (Hst : status en = JNum s).
    { rewrite Hs. destruct Hcar as [-> | [Hn ->]]; [reflexivity |].
      unfold coalesce at 2. rewrite Hn. reflexivity. }
    split; [exact Hst |].
    intro Hrule.
    rewrite Hst, (getErrorCode_later_rules _ _ Hrule) in Hc.
    destruct (switchStatus_table s) as (Htab & Hhigh & Hlow).
    split; [| split].
    + intros c Hin. rewrite (Htab c Hin) in Hc. congruence.
    + intros Hout H500. rewrite (Hhigh Hout H500) in Hc. congruence.
    + intros Hout H500. rewrite (Hlow Hout H500) in Hc. congruence.
  - intros Hn Ho. rewrite Hs, Ho. unfold coalesce at 2. rewrite Hn.
    reflexivity.
Qed.

(** C5 (as amended).  A raw failure whose [code] is 'ECONNABORTED' is
    classified with code TIMEOUT whatever status it carries; its status is
    resolved as for any other failure (response status, else own status,
    else 500), so it is 408 exactly when the failure itself carries 408. *)
Theorem timeout_classification error ctx rc w en w' :
  get "code" error = JStr "ECONNABORTED" ->
  ErrorHandler.enhanceError error ctx rc w = (Resolved en, w') ->
  code en = TIMEOUT
  /\ status en
     = coalesce (coalesce (responseStatus_of error) (ownStatus_of error))
         (JNum 500)
  /\ (status en = JNum 408
      <-> coalesce (responseStatus_of error) (ownStatus_of error) = JNum 408).
Proof.
  intros Hcode H.
  destruct (enhanceError_fields _ _ _ _ _ _ H) as (Hs & Hc & _).
  split.
  { unfold ErrorHandler.getErrorCode in Hc.
    rewrite (rawCode_of_code _ _ Hcode) in Hc. cbn in Hc. congruence. }
  split; [exact Hs |].
  rewrite Hs.
  destruct (coalesce (responseStatus_of error) (ownStatus_of error));
    cbn; split; congruence.
Qed.


End ClassifierProperties.

(** The mapping on axios errors for a 404, a 418 and a 507 response, and
    the default on a status that is not read. *)
Lemma status_code_mapping_witness :
  (exists en w',
      ErrorHandler.enhanceError (host := refHost) (axiosFailure 404) None None
        (worldAt 0 0) = (Resolved en, w')
      /\ status en = JNum 404 /\ code en = NOT_FOUND)
  /\ (exists en w',
        ErrorHandler.enhanceError (host := refHost) (axiosFailure 418) None
          None (worldAt 0 0) = (Resolved en, w')
        /\ status en = JNum 418 /\ code en = BAD_REQUEST)
  /\ (exists en w',
        ErrorHandler.enhanceError (host := refHost) (axiosFailure 507) None
          None (worldAt 0 0) = (Resolved en, w')
        /\ status en = JNum 507 /\ code en = INTERNAL_SERVER_ERROR)
  /\ (exists en w',
        ErrorHandler.enhanceError (host := refHost) bareStatus404 None None
          (worldAt 0 0) = (Resolved en, w')
        /\ status en = JNum 500).
Proof.
  assert (Hout : forall s, s = 418 \/ s = 507 ->
            forall c, ~ In (s, c) codeTable).
  { intros s Hs c Hin. unfold codeTable in Hin. cbn [In] in Hin.
    repeat (destruct Hin as [Hin | Hin];
            [inversion Hin; subst; destruct Hs; discriminate |]).
    exact Hin. }
  split; [| split; [| split]]; eexists; eexists; (split; [reflexivity |]).
  - destruct (status_code_mapping (host := refHost) (axiosFailure 404) None
                None (worldAt 0 0) _ _ eq_refl) as [Hcarried _].
    destruct (Hcarried 404) as [Hs Hcode]; [left; reflexivity |].
    split; [exact Hs |].
    destruct Hcode as [Htable _]; [reflexivity |].
    apply Htable. cbn. tauto.
  - destruct (status_code_mapping (host := refHost) (axiosFailure 418) None
                None (worldAt 0 0) _ _ eq_refl) as [Hcarried _].
    destruct (Hcarried 418) as [Hs Hcode]; [left; reflexivity |].
    split; [exact Hs |].
    destruct Hcode as (_ & _ & Hlow); [reflexivity |].
    apply Hlow; [apply Hout; left; reflexivity | vm_compute; reflexivity].
  - destruct (status_code_mapping (host := refHost) (axiosFailure 507) None
                None (worldAt 0 0) _ _ eq_refl) as [Hcarried _].
    destruct (Hcarried 507) as [Hs Hcode]; [left; reflexivity |].
    split; [exact Hs |].
    destruct Hcode as (_ & Hhigh & _); [reflexivity |].
    apply Hhigh; [apply Hout; right; reflexivity | vm_compute; discriminate].
  - destruct (status_code_mapping (host := refHost) bareStatus404 None
                None (worldAt 0 0) _ _ eq_refl) as [_ Hnone].
    apply Hnone; reflexivity.
Defined.

(** C4 (as stated) fails: [{ status: 404 }] matches none of the earlier rules
    and is classified with status 500 and code INTERNAL_SERVER_ERROR, not 404
    and NOT_FOUND; so is [{ response: { status: 404 } }], which [hasResponse]
    takes for a failure with a response. *)
Lemma status_code_mapping_counterexample :
  (matchesEarlierRule bareStatus404 = false
   /\ exists en w',
        ErrorHandler.enhanceError (host := refHost) bareStatus404 None None
          (worldAt 0 0) = (Resolved en, w')
        /\ status en = JNum 500 /\ code en = INTERNAL_SERVER_ERROR
        /\ status en <> JNum 404 /\ code en <> NOT_FOUND)
  /\ (matchesEarlierRule unflaggedResponse404 = false
      /\ ErrorHandler.hasResponse unflaggedResponse404 = true
      /\ exists en w',
           ErrorHandler.enhanceError (host := refHost) unflaggedResponse404
             None None (worldAt 0 0) = (Resolved en, w')
           /\ status en = JNum 500 /\ code en = INTERNAL_SERVER_ERROR
           /\ status en <> JNum 404 /\ code en <> NOT_FOUND).
Proof.
  split.
  - split; [reflexivity |]. eexists. eexists.
    split; [reflexivity |]. cbn. repeat split; discriminate.
  - split; [reflexivity |]. split; [reflexivity |]. eexists. eexists.
    split; [reflexivity |]. cbn. repeat split; discriminate.
Qed.

(** The timeout of the handler's own test: TIMEOUT, with status 500. *)
Lemma timeout_classification_witness :
  exists en w',
    ErrorHandler.enhanceError (host := refHost) timeoutError None None
      (worldAt 0 0) = (Resolved en, w')
    /\ code en = TIMEOUT
    /\ (status en = JNum 408 <-> JUndefined = JNum 408).
Proof.
  eexists. eexists. split; [reflexivity |].
  destruct (timeout_classification (host := refHost) timeoutError None None
              (worldAt 0 0) _ _ eq_refl eq_refl) as (Hc & _ & H408).
  split; [exact Hc | exact H408].
Defined.

(** C5 (as stated) fails: the aborted request of the handler's own test is
    classified TIMEOUT with status 500, and one that carries a 504 response
    keeps status 504; neither has status 408. *)
Lemma timeout_status_counterexample :
  (Js.get "code" timeoutError = JStr "ECONNABORTED"
   /\ exists en w',
        ErrorHandler.enhanceError (host := refHost) timeoutError None None
          (worldAt 0 0) = (Resolved en, w')
        /\ code en = TIMEOUT /\ status en = JNum 500
        /\ status en <> JNum 408)
  /\ (Js.get "code" timeout504 = JStr "ECONNABORTED"
      /\ exists en w',
           ErrorHandler.enhanceError (host := refHost) timeout504 None None
             (worldAt 0 0) = (Resolved en, w')
           /\ code en = TIMEOUT /\ status en = JNum 504
           /\ status en <> JNum 408).
Proof.
  split; (split; [reflexivity |]); eexists; eexists;
    (split; [reflexivity |]); cbn; repeat split; discriminate.
Qed.



(** ** Validation errors *)

Section ValidationProperties.
Context {host : Host}.

Import Js.

Lemma assign_fresh {A : Type} (key : string) (value : A)
  (result : list (string * A)) :
  ~ In key (map fst result) ->
  ErrorHandler.assign key value result = (result ++ [(key, value)])%list.
Proof.
  induction result as [| [k v] rest IH]; intro Hfresh; [reflexivity |].
  cbn in *. destruct (String.eqb_spec key k) as [-> | _].
  - exfalso. apply Hfresh. left. reflexivity.
  - rewrite IH; [reflexivity |]. intro Hin. apply Hfresh. right. exact Hin.
Qed.

Lemma collectField_normalize result key value result' :
  ErrorHandler.collectField result (key, value) = Resolved result' ->
  result' = match normalizeField value with
            | Some strings => ErrorHandler.setProp key strings result
            | None => result
            end.
Proof.
  unfold ErrorHandler.collectField. cbn [fst snd].
  destruct value as [| | b | n | s | items | props]; cbn [normalizeField];
    try (intro H; inversion H; reflexivity);
    try (destruct (ToString _) as [s0 | t] eqn:Hs; cbn [andThen];
         [| discriminate];
         intro H; inversion H; rewrite (ToString_returns _ _ Hs);
         reflexivity).
  destruct (mapToString items) as [strings | t] eqn:Hs; cbn [andThen];
    [| discriminate].
  intro H. inversion H. rewrite (mapToString_returns _ _ Hs). reflexivity.
Qed.

Lemma collect_fields fields :
  forall result result',
    ErrorHandler.collectFields fields result = Resolved result' ->
    NoDup (map fst fields) ->
    ~ In "__proto__" (map fst fields) ->
    (forall key, In key (map fst fields) -> ~ In key (map fst result)) ->
    result' = (result ++ normalizeFields fields)%list.
Proof.
  induction fields as [| [key value] rest IH];
    intros result result' Hrun Hnd Hproto Hdisj.
  - cbn in *. inversion Hrun. rewrite app_nil_r. reflexivity.
  - cbn [ErrorHandler.collectFields normalizeFields] in *.
    destruct (ErrorHandler.collectField result (key, value)) as [r1 | t]
      eqn:Hfield; cbn [andThen] in Hrun; [| discriminate].
    apply collectField_normalize in Hfield.
    cbn [map fst] in *. inversion Hnd as [| k l Hnotin Hnd']. subst.
    assert (Hproto' : ~ In "__proto__" (map fst rest))
      by (intro Hin; apply Hproto; right; exact Hin).
    destruct (normalizeField value) as [strings |].
    + unfold ErrorHandler.setProp in Hrun.
      destruct (String.eqb_spec key "__proto__") as [-> | _];
        [exfalso; apply Hproto; left; reflexivity |].
      rewrite assign_fresh in Hrun by (apply Hdisj; left; reflexivity).
      rewrite (IH _ _ Hrun); try assumption.
      * rewrite <- app_assoc. reflexivity.
      * intros k Hk. rewrite map_app, in_app_iff. cbn.
        intros [Hin | [-> | []]].
        -- exact (Hdisj k (or_intror Hk) Hin).
        -- exact (Hnotin Hk).
    + apply (IH _ _ Hrun); try assumption.
      intros k Hk. apply Hdisj. right. exact Hk.
Qed.

Lemma collectErrors_object fields collected :
  ErrorHandler.collectErrors (JObj fields) = Resolved collected ->
  NoDup (map fst fields) ->
  ~ In "__proto__" (map fst fields) ->
  collected
  = match normalizeFields fields with
    | [] => None
    | kept => Some kept
    end.
Proof.
  unfold ErrorHandler.collectErrors. cbn [entries].
  destruct (ErrorHandler.collectFields fields []) as [result | t] eqn:Hrun;
    cbn [andThen]; [| discriminate].
  intros H Hnd Hproto. inversion H.
  rewrite (collect_fields _ _ _ Hrun); try assumption; [| intros k _ []].
  cbn [app]. destruct (normalizeFields fields); reflexivity.
Qed.

(** C7 (as amended).  For a raw failure whose validation map
    [enhanceError] reads, that is the [errors] object of a failure shaped
    like an [ApiError] or else the [errors] object in the response body of
    an axios error, with distinct field names other than "__proto__": every
    field whose value is an array becomes the list of the strings of its
    entries (an empty array becomes an empty list and is kept), every field
    with another value that is not [null] or [undefined] becomes the
    one-element list of its string, a field whose value is [null] or
    [undefined] is omitted, and the map itself is omitted when no field is
    left. *)
Theorem validation_errors_normalized error ctx rc w en w' fields :
  ErrorHandler.enhanceError error ctx rc w = (Resolved en, w') ->
  (ErrorHandler.isApiErrorLike error = true
   /\ get "errors" error = JObj fields)
  \/ (ErrorHandler.isApiErrorLike error
      && truthy (get "errors" error) && typeofObject (get "errors" error)
      = false
      /\ get "errors" (responseBody error) = JObj fields) ->
  NoDup (map fst fields) ->
  ~ In "__proto__" (map fst fields) ->
  errors en
  = match normalizeFields fields with
    | [] => None
    | kept => Some kept
    end.
Proof.
  intros H Hmap Hnd Hproto.
  destruct (enhanceError_fields _ _ _ _ _ _ H) as (_ & _ & _ & _ & He).
  unfold ErrorHandler.extractValidationErrors in He.
  destruct Hmap as [[Hl Hown] | [Hnot Hbody]].
  - rewrite Hl, Hown in He. cbn [truthy typeofObject andb] in He.
    apply (collectErrors_object _ _ He); assumption.
  - rewrite Hnot in He. fold (responseBody error) in He.
    destruct (responseBody error) as [| | b | n | s | items | props];
      try discriminate Hbody.
    cbn [truthy typeofObject andb] in He.
    assert (Hhas : has "errors" (JObj props) = true).
    { cbn in *. destruct (lookup "errors" props); [reflexivity | discriminate]. }
    rewrite Hhas, Hbody in He. cbn [truthy typeofObject andb] in He.
    apply (collectErrors_object _ _ He); assumption.
Qed.

End ValidationProperties.

(** The round trip of the specification:
    [{ a: ["x"], b: "y" }] gives [{ a: ["x"], b: ["y"] }]. *)
Lemma validation_errors_normalized_witness :
  exists en w',
    ErrorHandler.enhanceError (host := refHost)
      (validationFailure
         (JObj [("a", JArr [JStr "x"]); ("b", JStr "y")]))
      None None (worldAt 0 0) = (Resolved en, w')
    /\ errors en = Some [("a", ["x"]); ("b", ["y"])].
Proof.
  eexists. eexists. split; [reflexivity |].
  apply (validation_errors_normalized (host := refHost)
           (validationFailure (JObj [("a", JArr [JStr "x"]); ("b", JStr "y")]))
           None None (worldAt 0 0) _ _
           [("a", JArr [JStr "x"]); ("b", JStr "y")] eq_refl).
  - left. split; reflexivity.
  - repeat constructor; cbn; intuition discriminate.
  - cbn. intuition discriminate.
Defined.

(** C7 (as stated) fails: a field whose value is the empty array is kept
    with an empty list, so neither the field nor the map is omitted. *)
Lemma empty_field_counterexample :
  exists en w',
    ErrorHandler.enhanceError (host := refHost)
      (validationFailure (JObj [("a", JArr [])]))
      None None (worldAt 0 0) = (Resolved en, w')
    /\ errors en = Some [("a", [])]
    /\ errors en <> None.
Proof.
  eexists. eexists. split; [reflexivity |]. cbn.
  split; [reflexivity | discriminate].
Qed.

(** ** Totality of the classifier *)

Section TotalityProperties.
Context {host : Host}.

Import Js.

Lemma upperMethod_source ctx error :
  ErrorHandler.upperMethod ctx
    (if ErrorHandler.isAxiosError error then error else JUndefined)
  = match methodSource ctx error with
    | JUndefined | JNull => Resolved None
    | JStr m => Resolved (Some (toUpperCase m))
    | _ => Rejected ThrownTypeError
    end.
Proof. reflexivity. Qed.

(** Comparisons and conversions of a value that has a primitive value
    return. *)
Lemma ToString_convertible v :
  unconvertible v = false -> ToString v = Resolved (stringOf v).
Proof. unfold ToString. intros ->. reflexivity. Qed.

Lemma ge_returns v n :
  unconvertible v = false -> exists b, ge v n = Resolved b.
Proof.
  intro H. unfold ge, ToNumber.
  destruct v; try (eexists; reflexivity);
    rewrite (ToString_convertible _ H); eexists; reflexivity.
Qed.

Lemma lt_returns v n :
  unconvertible v = false -> exists b, lt v n = Resolved b.
Proof.
  intro H. unfold lt, ToNumber.
  destruct v; try (eexists; reflexivity);
    rewrite (ToString_convertible _ H); eexists; reflexivity.
Qed.

Lemma switchStatus_returns s :
  unconvertible s = false ->
  exists c, ErrorHandler.switchStatus s = Resolved c.
Proof.
  intro H. unfold ErrorHandler.switchStatus.
  repeat match goal with
         | |- context [if isNum ?a ?b then _ else _] => destruct (isNum a b)
         end; try (eexists; reflexivity).
  destruct (ge_returns s 500 H) as [b ->]. eexists. reflexivity.
Qed.

Lemma getErrorCode_returns s error :
  unconvertible s = false ->
  exists c, ErrorHandler.getErrorCode s error = Resolved c.
Proof.
  intro H. unfold ErrorHandler.getErrorCode.
  repeat match goal with
         | |- context [if ?b then _ else _] => destruct b
         end; try (eexists; reflexivity).
  apply switchStatus_returns. exact H.
Qed.

Lemma ownStatus_number error :
  ownStatus_of error = JUndefined \/ exists n, ownStatus_of error = JNum n.
Proof.
  unfold ownStatus_of.
  destruct (ErrorHandler.isApiErrorLike error) eqn:Hl; [| left; reflexivity].
  right. exact (proj2 (isApiErrorLike_number _ Hl)).
Qed.

Lemma isRetryable_returns error :
  unconvertible (responseStatus_of error) = false ->
  exists r, ErrorHandler.isRetryable error = Resolved r.
Proof.
  intro H. rewrite isRetryable_status.
  destruct (isStr _ _); [eexists; reflexivity |]. cbv zeta.
  assert (Hs : unconvertible
                 (coalesce (ownStatus_of error) (responseStatus_of error))
               = false).
  { destruct (ownStatus_number error) as [-> | [n ->]];
      [exact H | reflexivity]. }
  set (status := coalesce _ _) in *.
  destruct (ge_returns status 400 Hs) as [b1 ->].
  destruct (lt_returns status 500 Hs) as [b2 ->].
  destruct (ge_returns status 500 Hs) as [b3 ->].
  destruct (truthy status), b1, b2, (isUndefined status); cbn;
    eexists; reflexivity.
Qed.

Lemma mapToString_convertible items :
  unconvertible (JArr items) = false ->
  mapToString items = Resolved (map stringOf items).
Proof.
  cbn [unconvertible]. induction items as [| x rest IH]; cbn [existsb];
    [reflexivity |].
  intro H. apply orb_false_elim in H. destruct H as [Hx Hrest].
  assert (Hconv : unconvertible x = false) by (destruct x; auto).
  cbn [mapToString map]. rewrite (ToString_convertible _ Hconv), (IH Hrest).
  reflexivity.
Qed.

Lemma collectField_returns result entry :
  unconvertible (snd entry) = false ->
  exists result', ErrorHandler.collectField result entry = Resolved result'.
Proof.
  intro H. unfold ErrorHandler.collectField.
  destruct (snd entry) as [| | b | n | s | items | props] eqn:Hv;
    try (eexists; reflexivity).
  - rewrite (mapToString_convertible _ H). eexists. reflexivity.
  - rewrite (ToString_convertible _ H). eexists. reflexivity.
Qed.

Lemma collectFields_returns fields :
  forallb (fun entry => negb (unconvertible (snd entry))) fields = true ->
  forall result,
    exists result', ErrorHandler.collectFields fields result = Resolved result'.
Proof.
  induction fields as [| entry rest IH]; cbn [forallb]; intros H result.
  - eexists. reflexivity.
  - apply andb_prop in H. destruct H as [Hentry Hrest].
    apply negb_true_iff in Hentry.
    destruct (collectField_returns result entry Hentry) as [r Hr].
    cbn [ErrorHandler.collectFields]. rewrite Hr. cbn [andThen].
    apply (IH Hrest).
Qed.

Lemma collectErrors_returns errors :
  convertibleFields errors = true ->
  exists collected, ErrorHandler.collectErrors errors = Resolved collected.
Proof.
  intro H. unfold ErrorHandler.collectErrors.
  destruct (collectFields_returns _ H []) as [r ->]. eexists. reflexivity.
Qed.

Lemma extractValidationErrors_returns error :
  convertibleFields (get "errors" error) = true ->
  convertibleFields (get "errors" (responseBody error)) = true ->
  exists collected,
    ErrorHandler.extractValidationErrors error
      (if ErrorHandler.isAxiosError error then error else JUndefined)
    = Resolved collected.
Proof.
  intros Hown Hbody. unfold ErrorHandler.extractValidationErrors.
  fold (responseBody error).
  repeat match goal with
         | |- context [if ?b then _ else _] => destruct b
         end; try (eexists; reflexivity);
    apply collectErrors_returns; assumption.
Qed.

(** The conversion of a value without primitive value throws. *)
Lemma mapToString_unconvertible items :
  unconvertible (JArr items) = true ->
  mapToString items = Rejected ThrownTypeError.
Proof.
  cbn [unconvertible]. induction items as [| x rest IH]; cbn [existsb];
    [discriminate |].
  intro H. cbn [mapToString].
  destruct (ToString x) as [s | t] eqn:Hx; cbn [andThen].
  - assert (Hrest : mapToString rest = Rejected ThrownTypeError).
    { apply IH. apply orb_true_iff in H. destruct H as [H | H]; [| exact H].
      unfold ToString in Hx.
      destruct x; try discriminate H; rewrite H in Hx; discriminate Hx. }
    rewrite Hrest. reflexivity.
  - rewrite (ToString_throws _ _ Hx). reflexivity.
Qed.

Lemma collectField_unconvertible result entry :
  unconvertible (snd entry) = true ->
  ErrorHandler.collectField result entry = Rejected ThrownTypeError.
Proof.
  intro H. unfold ErrorHandler.collectField.
  destruct (snd entry) as [| | b | n | s | items | props] eqn:Hv;
    try discriminate H.
  - rewrite (mapToString_unconvertible _ H). reflexivity.
  - unfold ToString. rewrite H. reflexivity.
Qed.

Lemma collectFields_unconvertible fields :
  existsb (fun entry => unconvertible (snd entry)) fields = true ->
  forall result,
    ErrorHandler.collectFields fields result = Rejected ThrownTypeError.
Proof.
  induction fields as [| entry rest IH]; cbn [existsb]; [discriminate |].
  intros H result. cbn [ErrorHandler.collectFields].
  destruct (ErrorHandler.collectField result entry) as [r | t] eqn:Hf;
    cbn [andThen].
  - apply IH. apply orb_true_iff in H. destruct H as [H | H]; [| exact H].
    rewrite (collectField_unconvertible result entry H) in Hf.
    discriminate Hf.
  - rewrite (collectField_throws _ _ _ Hf). reflexivity.
Qed.

(** A field of the failure's own validation map that is an object with an
    own [toString] property makes [enhanceError] throw. *)
Lemma enhanceError_unprintable error ctx rc w fields key props v :
  ErrorHandler.isApiErrorLike error = true ->
  get "errors" error = JObj fields ->
  In (key, JObj props) fields ->
  lookup "toString" props = Some v ->
  ErrorHandler.enhanceError error ctx rc w = (Rejected ThrownTypeError, w).
Proof.
  intros Hl Hmap Hin Hown.
  assert (Hbad : existsb (fun entry => unconvertible (snd entry)) fields
                 = true).
  { apply existsb_exists. exists (key, JObj props).
    split; [exact Hin |]. cbn. rewrite Hown. reflexivity. }
  destruct (ErrorHandler.enhanceError error ctx rc w) as [[en | t] w'] eqn:H.
  - destruct (enhanceError_resolved _ _ _ _ _ _ H)
      as (_ & _ & _ & _ & _ & _ & He & _).
    unfold ErrorHandler.extractValidationErrors in He.
    rewrite Hl, Hmap in He. cbn [truthy typeofObject andb] in He.
    unfold ErrorHandler.collectErrors in He. cbn [entries] in He.
    rewrite (collectFields_unconvertible _ Hbad) in He. discriminate He.
  - destruct (enhanceError_rejected _ _ _ _ _ _ H) as [-> ->]. reflexivity.
Qed.

Lemma enhanceError_returns error ctx rc w :
  convertible error = true ->
  nullish (methodSource ctx error) || typeofString (methodSource ctx error)
  = true ->
  exists en,
    ErrorHandler.enhanceError error ctx rc w = (Resolved en, snd (Date_now w))
    /\ message en = ErrorHandler.getErrorMessage error.
Proof.
  intros Hconv Hm. unfold convertible in Hconv.
  apply andb_prop in Hconv. destruct Hconv as [Hconv Hbody].
  apply andb_prop in Hconv. destruct Hconv as [Hstatus Hown].
  apply negb_true_iff in Hstatus.
  assert (Hs : unconvertible
                 (coalesce
                    (coalesce (responseStatus_of error) (ownStatus_of error))
                    (JNum 500)) = false).
  { destruct (responseStatus_of error); try exact Hstatus;
      destruct (ownStatus_number error) as [-> | [n ->]]; reflexivity. }
  destruct (status_sources error) as [Hr Ho]. rewrite <- Hr, <- Ho in Hs.
  destruct (getErrorCode_returns _ error Hs) as [c Hc].
  destruct (isRetryable_returns error Hstatus) as [r Hre].
  destruct (extractValidationErrors_returns error Hown Hbody) as [e He].
  assert (Hme : exists m,
             ErrorHandler.upperMethod ctx
               (if ErrorHandler.isAxiosError error then error else JUndefined)
             = Resolved m).
  { rewrite upperMethod_source.
    destruct (methodSource ctx error); try discriminate Hm;
      eexists; reflexivity. }
  destruct Hme as [m Hme].
  destruct (enhanceError_returns_when error ctx rc w c r e m Hc Hre He Hme)
    as [en Hen].
  exists en. split; [exact Hen |].
  apply (enhanceError_resolved _ _ _ _ _ _ Hen).
Qed.


Lemma methodSource_not_axios ctx error :
  ErrorHandler.isAxiosError error = false ->
  nullish (methodSource ctx error) || typeofString (methodSource ctx error)
  = true.
Proof.
  intro Ha. unfold methodSource. rewrite Ha.
  destruct ctx as [[e [m |]] |]; reflexivity.
Qed.




End TotalityProperties.



(** ** Requests without retry *)

Section ClientProperties.
Context {host : Host}.

(** C9 (as amended).  With [enableRetry] false, [executeRequest] invokes the
    request exactly once, sleeps never and leaves the circuit breaker as it
    is; when the request fails, what it throws is what [enhanceError] makes
    of the raw failure and the context (without a retry count); when the
    request succeeds, it returns the [data] of the response. *)
Theorem executeRequest_without_retry {T : Type} (retryConfig : RetryConfig)
  (circuitBreakerConfig : CircuitBreakerConfig)
  (request : Operation (HttpResponse T)) (ctx : option ErrorContext)
  (cb : CircuitBreakerState) (w : World) :
  let run := MixpostClient.executeRequest false retryConfig
               circuitBreakerConfig request ctx cb w in
  calls (snd run) = S (calls w)
  /\ slept (snd run) = slept w
  /\ snd (fst run) = cb
  /\ (forall response,
        request (calls w) = Resolved response ->
        run = (Resolved (data response), cb, snd (call request w)))
  /\ (forall error en w2,
        request (calls w) = Rejected error ->
        ErrorHandler.enhanceError error ctx None (snd (call request w))
        = (Resolved en, w2) ->
        run = (Rejected (ThrownEnhanced en), cb, w2))
  /\ (forall error t w2,
        request (calls w) = Rejected error ->
        ErrorHandler.enhanceError error ctx None (snd (call request w))
        = (Rejected t, w2) ->
        run = (Rejected t, cb, w2)).
Proof.
  intro run. subst run.
  unfold MixpostClient.executeRequest, bind, ret.
  change (call request w) with
    (request (calls w),
     {| clock := clock w; ticks := ticks w; random := random w;
        draws := draws w; calls := S (calls w); slept := slept w |}).
  cbn [fst snd].
  destruct (request (calls w)) as [response | error].
  - cbn. repeat split; try reflexivity; intros; try discriminate.
    congruence.
  - set (w1 := {| clock := clock w; ticks := ticks w; random := random w;
                  draws := draws w; calls := S (calls w); slept := slept w |}).
    destruct (enhanceError_world error ctx None w1) as [Hc Hs].
    destruct (ErrorHandler.enhanceError error ctx None w1)
      as [[en | t] w2] eqn:Hen;
      cbn in Hc, Hs |- *;
      (split; [exact Hc |]); (split; [exact Hs |]); (split; [reflexivity |]);
      (split; [intros; discriminate |]);
      split; intros error' x w' Hreq Hrun; inversion Hreq; subst error';
      rewrite Hen in Hrun; inversion Hrun; reflexivity.
Qed.

End ClientProperties.

(** Without retry: a request that fails with a 503, one that resolves, and
    one whose failure the classifier cannot upper-case the method of. *)
Lemma executeRequest_without_retry_witness :
  (exists en w2,
      MixpostClient.executeRequest (host := refHost) (T := JsValue) false
        demoRetryConfig demoConfig (fun _ => Rejected plain503) None
        CircuitBreaker.init (worldAt 0 0)
      = (Rejected (ThrownEnhanced en), CircuitBreaker.init, w2))
  /\ MixpostClient.executeRequest (host := refHost) false demoRetryConfig
       demoConfig (fun _ => Resolved okResponse) None CircuitBreaker.init
       (worldAt 0 0)
     = (Resolved (JArr [JStr "account"]), CircuitBreaker.init,
        snd (call (fun _ => Resolved okResponse) (worldAt 0 0)))
  /\ (exists w2,
        MixpostClient.executeRequest (host := refHost) (T := JsValue) false
          demoRetryConfig demoConfig (fun _ => Rejected numericMethod) None
          CircuitBreaker.init (worldAt 0 0)
        = (Rejected ThrownTypeError, CircuitBreaker.init, w2)).
Proof.
  split; [| split].
  - eexists. eexists.
    destruct (executeRequest_without_retry (host := refHost) (T := JsValue)
                demoRetryConfig demoConfig (fun _ => Rejected plain503) None
                CircuitBreaker.init (worldAt 0 0))
      as (_ & _ & _ & _ & Hfail & _).
    eapply Hfail; reflexivity.
  - destruct (executeRequest_without_retry (host := refHost)
                demoRetryConfig demoConfig (fun _ => Resolved okResponse) None
                CircuitBreaker.init (worldAt 0 0))
      as (_ & _ & _ & Hok & _).
    apply (Hok okResponse). reflexivity.
  - eexists.
    destruct (executeRequest_without_retry (host := refHost) (T := JsValue)
                demoRetryConfig demoConfig (fun _ => Rejected numericMethod)
                None CircuitBreaker.init (worldAt 0 0))
      as (_ & _ & _ & _ & _ & Hthrow).
    eapply Hthrow; reflexivity.
Defined.

(** C9 (as stated) fails on success: the value returned is the [data] of the
    response, not the response the operation resolved with. *)
Lemma executeRequest_result_counterexample :
  fst (fst (MixpostClient.executeRequest (host := refHost) false
              demoRetryConfig demoConfig (fun _ => Resolved okResponse) None
              CircuitBreaker.init (worldAt 0 0)))
  = Resolved (JArr [JStr "account"])
  /\ JArr [JStr "account"] <> responseObject okResponse.
Proof. split; [reflexivity | discriminate]. Qed.

(** * Further properties *)

(** ** Retry runs *)

Section RetryRuns.
Context {host : Host}.

(** The shape of every run of [retryOperation]: the delays it sleeps, the
    invocations it makes and the retry count it reports. *)
Lemma retry_run_shape {T : Type} (config : RetryConfig) (fn : Operation T)
  (ctx : option ErrorContext) :
  forall (n rc : nat) (w : World),
    maxRetries config - Z.of_nat rc <= Z.of_nat n ->
    let run := ErrorHandler.retryOperation config fn ctx rc w in
    exists delays,
      slept (snd run) = (slept w ++ delays)%list
      /\ calls (snd run) = (calls w + length delays + 1)%nat
      /\ (length delays <= n)%nat
      /\ Forall (fun d => (d <= maxDelay config)%Q) delays
      /\ (forall en, fst run = Rejected (ThrownEnhanced en) ->
          retryCount (context en) = Some (rc + length delays)%nat).
Proof.
  assert (Hstep : forall (rc : nat) (w : World) (bound : nat),
            (Z.of_nat rc < maxRetries config ->
             forall w4,
               exists delays,
                 slept (snd (ErrorHandler.retryOperation config fn ctx (S rc) w4))
                 = (slept w4 ++ delays)%list
                 /\ calls (snd (ErrorHandler.retryOperation config fn ctx (S rc) w4))
                    = (calls w4 + length delays + 1)%nat
                 /\ (length delays + 1 <= bound)%nat
                 /\ Forall (fun d => (d <= maxDelay config)%Q) delays
                 /\ (forall en,
                       fst (ErrorHandler.retryOperation config fn ctx (S rc) w4)
                       = Rejected (ThrownEnhanced en) ->
                       retryCount (context en)
                       = Some (S rc + length delays)%nat)) ->
            exists delays,
              slept (snd (ErrorHandler.retryOperation config fn ctx rc w))
              = (slept w ++ delays)%list
              /\ calls (snd (ErrorHandler.retryOperation config fn ctx rc w))
                 = (calls w + length delays + 1)%nat
              /\ (length delays <= bound)%nat
              /\ Forall (fun d => (d <= maxDelay config)%Q) delays
              /\ (forall en,
                    fst (ErrorHandler.retryOperation config fn ctx rc w)
                    = Rejected (ThrownEnhanced en) ->
                    retryCount (context en) = Some (rc + length delays)%nat)).
  { intros rc w bound Hrec.
    rewrite retryOperation_unfold. unfold call.
    set (w1 := {| clock := clock w; ticks := ticks w; random := random w;
                  draws := draws w; calls := S (calls w); slept := slept w |}).
    assert (Hnone : forall (r : Outcome T Thrown) w2,
              calls w2 = S (calls w) -> slept w2 = slept w ->
              (forall en, r = Rejected (ThrownEnhanced en) ->
                 retryCount (context en) = Some rc) ->
              exists delays,
                slept (snd (r, w2)) = (slept w ++ delays)%list
                /\ calls (snd (r, w2)) = (calls w + length delays + 1)%nat
                /\ (length delays <= bound)%nat
                /\ Forall (fun d => (d <= maxDelay config)%Q) delays
                /\ (forall en, fst (r, w2) = Rejected (ThrownEnhanced en) ->
                    retryCount (context en) = Some (rc + length delays)%nat)).
    { intros r w2 Hc Hs Hrc. exists []. cbn [fst snd length].
      rewrite app_nil_r.
      split; [exact Hs |]. split; [lia |]. split; [lia |].
      split; [constructor |].
      intros en H. rewrite (Hrc en H). f_equal. lia. }
    destruct (fn (calls w)) as [v | error].
    { apply Hnone; try reflexivity. intros en H. discriminate H. }
    destruct (enhanceError_world error ctx (Some rc) w1) as [Hc Hs].
    destruct (ErrorHandler.enhanceError error ctx (Some rc) w1)
      as [[en | t] w2] eqn:Hen; cbn [snd] in Hc, Hs.
    - destruct ((Z.of_nat rc <? maxRetries config)
                && ErrorHandler.shouldRetryCall config en) eqn:Hgo.
      + apply andb_true_iff in Hgo. destruct Hgo as [Hlt _].
        apply Z.ltb_lt in Hlt.
        destruct (backoff_sleep_world config rc w2) as [Hc' Hs'].
        pose proof (calculateBackoffDelay_eq config rc w2) as Hd.
        destruct (ErrorHandler.calculateBackoffDelay config rc w2)
          as [delay w3].
        cbn [fst snd] in Hc', Hs', Hd.
        destruct (sleep delay w3) as [u w4]. cbn [snd] in Hc', Hs'.
        destruct (Hrec Hlt w4) as (delays & Hsl & Hca & Hlen & Hall & Hrc).
        exists (delay :: delays).
        rewrite Hsl, Hca, Hs', Hc', Hs, Hc. subst w1. cbn [calls slept length].
        rewrite <- app_assoc. cbn [app].
        split; [reflexivity |]. split; [lia |]. split; [lia |].
        split.
        * constructor; [| exact Hall]. rewrite Hd. apply Q.le_min_r.
        * intros en' H'. rewrite (Hrc en' H'). f_equal. lia.
      + apply Hnone; try assumption.
        intros en' H'. inversion H'. subst en'.
        apply (enhanceError_retryCount _ _ _ _ _ _ Hen).
    - apply Hnone; try assumption.
      destruct (enhanceError_rejected _ _ _ _ _ _ Hen) as [-> _].
      intros en' H'. discriminate H'. }
  induction n as [| n IH]; intros rc w Hn run; subst run.
  - apply Hstep. intro Hlt. lia.
  - apply Hstep. intros Hlt w4.
    destruct (IH (S rc) w4) as (delays & Hsl & Hca & Hlen & Hall & Hrc);
      [lia |].
    exists delays.
    split; [exact Hsl |]. split; [exact Hca |]. split; [lia |].
    split; [exact Hall | exact Hrc].
Qed.


Lemma retry_recovers_from {T : Type} (config : RetryConfig)
  (fn : Operation T) (ctx : option ErrorContext) (v : T) (w0 : World) :
  forall (k rc : nat) (w : World),
    Z.of_nat rc + Z.of_nat k <= maxRetries config ->
    clock w = clock w0 ->
    ticks w = (ticks w0 + rc)%nat ->
    calls w = (calls w0 + rc)%nat ->
    (forall j, (rc <= j < rc + k)%nat ->
       failsRetryablyAt config fn ctx w0 j) ->
    fn (calls w0 + rc + k)%nat = Resolved v ->
    let run := ErrorHandler.retryOperation config fn ctx rc w in
    fst run = Resolved v
    /\ calls (snd run) = (calls w + k + 1)%nat
    /\ length (slept (snd run)) = (length (slept w) + k)%nat.
Proof.
  induction k as [| k IH];
    intros rc w Hk Hclock Hticks Hcalls Hfail Hok run; subst run.
  - rewrite retryOperation_unfold. unfold call.
    rewrite Nat.add_0_r, <- Hcalls in Hok. rewrite Hok. cbn.
    repeat split; lia.
  - destruct (failsRetryablyAt_run config fn ctx w0 w rc)
      as (error & en & w2 & Hfn & Hen & Hp);
      [apply Hfail; lia | exact Hclock | exact Hticks | exact Hcalls |].
    destruct (retryOperation_step config fn ctx rc w error en w2 Hfn Hen)
      as (w4 & Hrun & Hc & Hs & Hclock4 & Hticks4); [lia | apply Hp; lia |].
    rewrite Hrun.
    destruct (IH (S rc) w4) as (Hr & Hc' & Hs').
    + lia.
    + congruence.
    + lia.
    + lia.
    + intros j Hj. apply Hfail. lia.
    + rewrite <- Hok. f_equal. lia.
    + split; [exact Hr |]. split; lia.
Qed.

(** X1.  An operation that fails at the first [k] attempts of a run, each
    failure being classified and accepted by the predicate at its attempt
    (with the retry count and at the instant of that attempt), and succeeds
    at the next is run to its success when [k <= maxRetries]:
    [retryOperation] returns the operation's result after exactly [k + 1]
    invocations and [k] sleeps. *)
Theorem retry_recovers {T : Type} (config : RetryConfig) (fn : Operation T)
  (ctx : option ErrorContext) (k : nat) (v : T) (w : World) :
  Z.of_nat k <= maxRetries config ->
  (forall j, (j < k)%nat -> failsRetryablyAt config fn ctx w j) ->
  fn (calls w + k)%nat = Resolved v ->
  let run := ErrorHandler.retryOperation config fn ctx 0 w in
  fst run = Resolved v
  /\ calls (snd run) = (calls w + k + 1)%nat
  /\ length (slept (snd run)) = (length (slept w) + k)%nat.
Proof.
  intros Hk Hfail Hok.
  apply (retry_recovers_from config fn ctx v w k 0%nat w);
    try reflexivity; try lia.
  - intros j Hj. apply Hfail. lia.
  - rewrite Nat.add_0_r. exact Hok.
Qed.


(** X3.  When [retryOperation] throws an enhanced error, the retry count
    stamped in its context is the number of retries the run made, that is
    the number of invocations less one. *)
Theorem reported_retry_count {T : Type} (config : RetryConfig)
  (fn : Operation T) (ctx : option ErrorContext) (w : World)
  (en : EnhancedApiError) :
  let run := ErrorHandler.retryOperation config fn ctx 0 w in
  fst run = Rejected (ThrownEnhanced en) ->
  retryCount (context en) = Some (calls (snd run) - calls w - 1)%nat.
Proof.
  intros run Hrun. subst run.
  destruct (retry_run_shape config fn ctx (Z.to_nat (maxRetries config)) 0 w)
    as (delays & _ & Hca & _ & _ & Hrc); [lia |].
  rewrite (Hrc en Hrun), Hca. f_equal. lia.
Qed.


End RetryRuns.

(** Two failures with status 503, then a success, under two retries. *)
Lemma retry_recovers_witness :
  let run := ErrorHandler.retryOperation (host := refHost) demoRetryConfig
               (failsThenSucceeds 2 42) None 0 (worldAt 0 0) in
  fst run = Resolved 42%nat
  /\ calls (snd run) = 3%nat
  /\ length (slept (snd run)) = 2%nat.
Proof.
  apply (retry_recovers (host := refHost) demoRetryConfig
           (failsThenSucceeds 2 42) None 2 42%nat (worldAt 0 0)).
  - vm_compute. discriminate.
  - intros j Hj. unfold failsRetryablyAt, failsThenSucceeds.
    cbn [calls worldAt Nat.add].
    destruct (Nat.ltb_spec j 2) as [_ | Hge]; [| lia].
    eexists. eexists. split; [reflexivity |]. split; reflexivity.
  - reflexivity.
Defined.


Lemma reported_retry_count_witness :
  let run := ErrorHandler.retryOperation (host := refHost) demoRetryConfig
               (alwaysThrows 500 "Server error") None 0 (worldAt 0 0) in
  exists en,
    fst run = Rejected (ThrownEnhanced en)
    /\ retryCount (context en)
       = Some (calls (snd run) - calls (worldAt 0 0) - 1)%nat.
Proof.
  destruct (retry_exhausts (host := refHost) demoRetryConfig
              (alwaysThrows 500 "Server error") None)
    with (n := 2%nat) (rc := 0%nat) (w := worldAt 0 0)
    as (_ & _ & en & Hen & _).
  - intro k. eexists. split; [reflexivity |].
    intros rc w. eexists. eexists. split; reflexivity.
  - reflexivity.
  - exists en. split; [exact Hen |].
    apply (reported_retry_count (host := refHost) demoRetryConfig
             (alwaysThrows 500 "Server error") None (worldAt 0 0) en).
    exact Hen.
Defined.


(** ** Breaker runs *)

Section BreakerRuns.
Context {host : Host}.
Variable config : CircuitBreakerConfig.

(** X5.  For [failureThreshold >= 1], in every reachable state of the
    breaker: the failure and success counters are not negative; a CLOSED
    breaker has fewer failures than the threshold; a breaker that is not
    CLOSED has at least [failureThreshold] failures and a reset time, so the
    fallbacks [nextAttemptTime || 0] and [nextAttemptTime ?? Date.now()] are
    never taken; and a HALF_OPEN breaker has counted fewer than three
    successes. *)
Theorem breaker_invariant (cb : CircuitBreakerState) :
  1 <= failureThreshold config ->
  reachable config cb ->
  breakerInvariant config cb.
Proof.
  intros Hth Hr. unfold breakerInvariant.
  induction Hr as [| cb Hr IH Hopen | cb Hr IH | cb w Hr IH].
  - cbn. repeat split; intros; try lia; try discriminate; contradiction.
  - destruct IH as (Hf & Hsc & Hcl & Hno & Hho). cbn.
    repeat split; intros; try lia; try discriminate.
    + apply Hno. rewrite Hopen. discriminate.
    + apply Hno. rewrite Hopen. discriminate.
  - destruct IH as (Hf & Hsc & Hcl & Hno & Hho).
    unfold CircuitBreaker.onSuccess.
    destruct (state cb) eqn:Hs.
    + cbn. repeat split; intros; try lia; try discriminate; try contradiction.
      specialize (Hcl eq_refl). lia.
    + rewrite Hs. repeat split; intros; try lia; try discriminate;
        apply Hno; discriminate.
    + destruct (Z.leb_spec 3 (successCount cb + 1)); cbn.
      * repeat split; intros; try lia; try discriminate; contradiction.
      * repeat split; intros; try lia; try discriminate;
          apply Hno; discriminate.
  - destruct IH as (Hf & Hsc & Hcl & Hno & Hho).
    unfold CircuitBreaker.onFailure, bind, Date_now, ret. cbn.
    destruct (Z.leb_spec (failureThreshold config) (failures cb + 1)); cbn.
    + repeat split; intros; try lia; try discriminate.
      eexists. reflexivity.
    + assert (Hclosed : state cb = CLOSED).
      { destruct (state cb) eqn:Hs; [reflexivity | |];
          (destruct Hno as [Hge _]; [discriminate | lia]). }
      rewrite Hclosed.
      repeat split; intros; try lia; try discriminate; contradiction.
Qed.

Lemma retryOperation_calls {T : Type} (retryConfig : RetryConfig)
  (fn : Operation T) (ctx : option ErrorContext) (w : World) :
  (calls w + 1
   <= calls (snd (ErrorHandler.retryOperation retryConfig fn ctx 0 w))
   <= calls w + 1 + Z.to_nat (maxRetries retryConfig))%nat.
Proof. apply (retry_ceiling retryConfig fn ctx). lia. Qed.

(** X6.  A call of [executeWithRetry] on a breaker that is not OPEN is one
    event for the breaker, however many attempts the retries make: when it
    throws, the failure counter grows by exactly one; when it returns, the
    breaker accounts for one success; and the operation has been invoked at
    least once and at most [maxRetries + 1] times. *)
Theorem executeWithRetry_counts_once {T : Type} (retryConfig : RetryConfig)
  (fn : Operation T) (ctx : option ErrorContext)
  (cb : CircuitBreakerState) (w : World) :
  state cb <> OPEN ->
  let run := ErrorHandler.executeWithRetry retryConfig config fn ctx cb w in
  (forall e, fst (fst run) = Rejected e ->
     failures (snd (fst run)) = failures cb + 1)
  /\ (forall v, fst (fst run) = Resolved v ->
      snd (fst run) = CircuitBreaker.onSuccess cb)
  /\ (calls w + 1 <= calls (snd run)
      <= calls w + 1 + Z.to_nat (maxRetries retryConfig))%nat.
Proof.
  intros Hs run. subst run. unfold ErrorHandler.executeWithRetry.
  rewrite execute_not_open by exact Hs. rewrite attempt_run.
  pose proof (retryOperation_calls retryConfig fn ctx w) as Hcalls.
  destruct (ErrorHandler.retryOperation retryConfig fn ctx 0 w)
    as [[v | e] w1]; cbn [fst snd] in *.
  - split; [intros e H; discriminate H |]. split; [reflexivity | exact Hcalls].
  - split; [intros _ _; apply onFailure_failures |].
    split; [intros v H; discriminate H |].
    rewrite onFailure_calls. exact Hcalls.
Qed.

Lemma executeAll_failures {T : Type}
  (fns : list (M (Outcome T Thrown))) :
  (forall fn, In fn fns -> forall w0, exists e w1, fn w0 = (Rejected e, w1)) ->
  forall cb w,
    state cb = CLOSED ->
    failures cb + Z.of_nat (length fns) <= failureThreshold config ->
    failures cb < failureThreshold config ->
    failures (snd (fst (executeAll config fns cb w)))
    = failures cb + Z.of_nat (length fns)
    /\ (failures cb + Z.of_nat (length fns) < failureThreshold config ->
        state (snd (fst (executeAll config fns cb w))) = CLOSED)
    /\ (failures cb + Z.of_nat (length fns) = failureThreshold config ->
        state (snd (fst (executeAll config fns cb w))) = OPEN)
    /\ Forall2 (fun fn r => exists w0, r = fst (fn w0)) fns
         (fst (fst (executeAll config fns cb w))).
Proof.
  induction fns as [| fn rest IH]; intros Hall cb w Hs Hsum Hlt.
  - cbn. repeat split; intros; try lia; [assumption | constructor].
  - cbn [executeAll length] in *.
    rewrite execute_not_open by (rewrite Hs; discriminate).
    rewrite attempt_run.
    destruct (Hall fn (or_introl eq_refl) w) as (e & w1 & Hfn).
    rewrite Hfn.
    pose proof (onFailure_failures config cb w1) as Hf.
    destruct (CircuitBreaker.onFailure config cb w1) as [cb1 w2] eqn:Hon.
    cbn [fst snd] in Hf. cbn [fst snd].
    destruct (Z.lt_ge_cases (failures cb + 1) (failureThreshold config))
      as [Hbelow | Hreach].
    + destruct (onFailure_below config cb w1 Hbelow) as [Hst _].
      rewrite Hon in Hst. cbn [fst] in Hst.
      destruct (IH (fun f Hin => Hall f (or_intror Hin)) cb1 w2)
        as (Hf' & Hc' & Ho' & Hrs); [congruence | lia | lia |].
      destruct (executeAll config rest cb1 w2) as [[rs cb2] w3].
      cbn [fst snd] in *.
      split; [lia |].
      split; [intro H; apply Hc'; lia |].
      split; [intro H; apply Ho'; lia |].
      constructor; [exists w; rewrite Hfn; reflexivity | exact Hrs].
    + destruct rest as [| fn2 rest2]; [| cbn [length] in Hsum; lia].
      destruct (onFailure_opens config cb w1) as [Hst _]; [lia |].
      rewrite Hon in Hst. cbn [fst] in Hst.
      cbn [executeAll fst snd length].
      split; [lia |]. split; [intro H; lia |]. split; [intros _; exact Hst |].
      constructor; [exists w; rewrite Hfn; reflexivity | constructor].
Qed.

(** X7.  On a new breaker with [failureThreshold >= 1], calls whose
    operations all fail leave the circuit CLOSED as long as there are fewer
    of them than [failureThreshold], and the call that brings their number
    to [failureThreshold] opens it; up to there every operation is invoked
    and its own failure is what the caller gets. *)
Theorem consecutive_failures_open {T : Type}
  (fns : list (M (Outcome T Thrown))) (w : World) :
  1 <= failureThreshold config ->
  (forall fn, In fn fns -> forall w0, exists e w1, fn w0 = (Rejected e, w1)) ->
  Z.of_nat (length fns) <= failureThreshold config ->
  let run := executeAll config fns CircuitBreaker.init w in
  failures (snd (fst run)) = Z.of_nat (length fns)
  /\ (Z.of_nat (length fns) < failureThreshold config ->
      state (snd (fst run)) = CLOSED)
  /\ (Z.of_nat (length fns) = failureThreshold config ->
      state (snd (fst run)) = OPEN)
  /\ Forall2 (fun fn r => exists w0, r = fst (fn w0)) fns (fst (fst run)).
Proof.
  intros Hth Hall Hlen run. subst run.
  destruct (executeAll_failures fns Hall CircuitBreaker.init w)
    as (Hf & Hc & Ho & Hrs); cbn [failures CircuitBreaker.init]; try lia;
    [reflexivity |].
  cbn [failures CircuitBreaker.init] in *.
  split; [lia |].
  split; [intro H; apply Hc; lia |].
  split; [intro H; apply Ho; lia | exact Hrs].
Qed.

(** X8.  An OPEN breaker whose reset time is reached closes after three
    calls in a row whose operations succeed: each of the three is let
    through and returns its operation's result, the first two leave the
    breaker HALF_OPEN, and after the third it is CLOSED with no failures. *)
Theorem three_successful_calls_close {T : Type}
  (f1 f2 f3 : M (Outcome T Thrown)) (cb : CircuitBreakerState) (w : World)
  (t : Z) :
  state cb = OPEN ->
  nextAttemptTime cb = Some t ->
  t <= clock w (ticks w) ->
  (forall fn, In fn [f1; f2; f3] ->
     forall w0, exists v w1, fn w0 = (Resolved v, w1)) ->
  let run := executeAll config [f1; f2; f3] cb w in
  state (snd (fst (executeAll config [f1] cb w))) = HALF_OPEN
  /\ state (snd (fst (executeAll config [f1; f2] cb w))) = HALF_OPEN
  /\ state (snd (fst run)) = CLOSED
  /\ failures (snd (fst run)) = 0
  /\ exists v1 v2 v3, fst (fst run) = [Resolved v1; Resolved v2; Resolved v3].
Proof.
  intros Hs Ht Hle Hall run. subst run.
  cbn [executeAll].
  rewrite (execute_open_elapsed config f1 cb w t Hs Ht Hle), attempt_run.
  destruct (Hall f1 (or_introl eq_refl) (snd (Date_now w)))
    as (v1 & w1 & H1).
  rewrite H1.
  set (cb1 := CircuitBreaker.onSuccess (CircuitBreaker.halfOpen cb)).
  assert (Hcb1 : state cb1 = HALF_OPEN /\ successCount cb1 = 1)
    by (split; reflexivity).
  destruct Hcb1 as [Hs1 Hc1].
  rewrite (execute_not_open config f2 cb1 w1) by (rewrite Hs1; discriminate).
  rewrite attempt_run.
  destruct (Hall f2 (or_intror (or_introl eq_refl)) w1) as (v2 & w2 & H2).
  rewrite H2.
  set (cb2 := CircuitBreaker.onSuccess cb1).
  assert (Hcb2 : state cb2 = HALF_OPEN /\ successCount cb2 = 2)
    by (split; reflexivity).
  destruct Hcb2 as [Hs2 Hc2].
  rewrite (execute_not_open config f3 cb2 w2) by (rewrite Hs2; discriminate).
  rewrite attempt_run.
  destruct (Hall f3 (or_intror (or_intror (or_introl eq_refl))) w2)
    as (v3 & w3 & H3).
  rewrite H3. cbn [fst snd].
  split; [exact Hs1 |]. split; [exact Hs2 |].
  split; [reflexivity |]. split; [reflexivity |].
  exists v1, v2, v3. reflexivity.
Qed.

End BreakerRuns.

(** A breaker with a threshold of 2 that was opened, let through and failed
    again. *)
Lemma breaker_invariant_witness :
  breakerInvariant demoConfig
    (fst (CircuitBreaker.onFailure demoConfig demoHalfOpen (worldAt 200 0))).
Proof.
  apply (breaker_invariant demoConfig).
  - vm_compute. discriminate.
  - apply reach_failure. unfold demoHalfOpen.
    apply reach_halfOpen; [| reflexivity].
    apply reach_failure. apply reach_failure. apply reach_init.
Defined.

(** A request that always fails with status 500, under two retries, on a
    new breaker: three attempts, one failure counted. *)
Lemma executeWithRetry_counts_once_witness :
  let run := ErrorHandler.executeWithRetry (host := refHost) demoRetryConfig
               demoConfig (alwaysThrows 500 "Server error") None
               CircuitBreaker.init (worldAt 0 0) in
  failures (snd (fst run)) = 1
  /\ (1 <= calls (snd run) <= 3)%nat.
Proof.
  intro run.
  destruct (executeWithRetry_counts_once (host := refHost) demoConfig
              demoRetryConfig (alwaysThrows 500 "Server error") None
              CircuitBreaker.init (worldAt 0 0)) as (Hfail & _ & Hcalls).
  - discriminate.
  - split; [| exact Hcalls].
    destruct (retry_exhausts (host := refHost) demoRetryConfig
                (alwaysThrows 500 "Server error") None)
      with (n := 2%nat) (rc := 0%nat) (w := worldAt 0 0)
      as (_ & _ & en & Hen & _).
    + intro k. eexists. split; [reflexivity |].
      intros rc w. eexists. eexists. split; reflexivity.
    + reflexivity.
    + apply (Hfail (ThrownEnhanced en)).
      unfold ErrorHandler.executeWithRetry.
      rewrite execute_not_open by discriminate. rewrite attempt_run.
      destruct (ErrorHandler.retryOperation demoRetryConfig
                  (alwaysThrows 500 "Server error") None 0 (worldAt 0 0))
        as [[v | e] w1]; cbn [fst] in Hen |- *;
        [discriminate Hen | exact Hen].
Defined.

(** Two failing calls at a threshold of 2. *)
Lemma consecutive_failures_open_witness :
  state (snd (fst (executeAll (host := refHost) demoConfig
                     [demoFails; demoFails] CircuitBreaker.init
                     (worldAt 0 0)))) = OPEN
  /\ state (snd (fst (executeAll (host := refHost) demoConfig
                        [demoFails] CircuitBreaker.init (worldAt 0 0))))
     = CLOSED.
Proof.
  assert (Hfails : forall fns fn,
            In fn fns -> (forall f, In f fns -> f = demoFails) ->
            forall w0, exists e w1, fn w0 = (Rejected e, w1)).
  { intros fns fn Hin Hsame w0. rewrite (Hsame fn Hin).
    eexists. eexists. reflexivity. }
  split.
  - destruct (consecutive_failures_open (host := refHost) demoConfig
                [demoFails; demoFails] (worldAt 0 0))
      as (_ & _ & Hopen & _).
    + vm_compute. discriminate.
    + intros fn Hin. apply (Hfails [demoFails; demoFails] fn Hin).
      intros f [<- | [<- | []]]; reflexivity.
    + vm_compute. discriminate.
    + apply Hopen. reflexivity.
  - destruct (consecutive_failures_open (host := refHost) demoConfig
                [demoFails] (worldAt 0 0))
      as (_ & Hclosed & _).
    + vm_compute. discriminate.
    + intros fn Hin. apply (Hfails [demoFails] fn Hin).
      intros f [<- | []]; reflexivity.
    + vm_compute. discriminate.
    + apply Hclosed. vm_compute. reflexivity.
Defined.

(** The OPEN breaker of the examples, read at 150, and three successes. *)
Lemma three_successful_calls_close_witness :
  state (snd (fst (executeAll (host := refHost) demoConfig
                     [demoSucceeds; demoSucceeds; demoSucceeds] demoOpen
                     (worldAt 150 0)))) = CLOSED
  /\ failures (snd (fst (executeAll (host := refHost) demoConfig
                           [demoSucceeds; demoSucceeds; demoSucceeds]
                           demoOpen (worldAt 150 0)))) = 0.
Proof.
  destruct (three_successful_calls_close (host := refHost) demoConfig
              demoSucceeds demoSucceeds demoSucceeds demoOpen (worldAt 150 0)
              100) as (_ & _ & Hc & Hf & _).
  - reflexivity.
  - reflexivity.
  - vm_compute. discriminate.
  - intros fn Hin w0.
    assert (fn = demoSucceeds) as ->
      by (destruct Hin as [<- | [<- | [<- | []]]]; reflexivity).
    eexists. eexists. reflexivity.
  - split; [exact Hc | exact Hf].
Defined.

(** ** More on classification *)

Section ClassifierExtras.
Context {host : Host}.

Import Js.

Lemma isStr_eq v s : isStr v s = true <-> v = JStr s.
Proof.
  destruct v; cbn; try (split; [discriminate | intro H; discriminate H]).
  rewrite String.eqb_eq. split; [intros -> | intro H; inversion H];
    reflexivity.
Qed.

Lemma switchStatus_http s :
  ErrorHandler.switchStatus s <> Resolved TIMEOUT
  /\ ErrorHandler.switchStatus s <> Resolved CONNECTION_REFUSED
  /\ ErrorHandler.switchStatus s <> Resolved NETWORK_ERROR.
Proof.
  unfold ErrorHandler.switchStatus.
  repeat match goal with
         | |- context [if isNum ?a ?b then _ else _] => destruct (isNum a b)
         end; try (repeat split; discriminate).
  destruct (ge s 500) as [[|] | t]; repeat split; discriminate.
Qed.

(** X9.  The four codes that are not read off the status arise exactly from
    their own rule, whatever status the failure carries: TIMEOUT exactly for
    the code 'ECONNABORTED', CONNECTION_REFUSED exactly for 'ECONNREFUSED',
    CIRCUIT_OPEN exactly for the marker 'CIRCUIT_OPEN', and NETWORK_ERROR
    exactly for a failure with none of these codes, without a response and
    with the message "Network Error". *)
Theorem transport_codes_exact error ctx rc w en w' :
  ErrorHandler.enhanceError error ctx rc w = (Resolved en, w') ->
  (code en = TIMEOUT <-> ErrorHandler.rawCode error = JStr "ECONNABORTED")
  /\ (code en = CONNECTION_REFUSED
      <-> ErrorHandler.rawCode error = JStr "ECONNREFUSED")
  /\ (code en = CIRCUIT_OPEN
      <-> ErrorHandler.rawCode error = JStr "CIRCUIT_OPEN")
  /\ (code en = NETWORK_ERROR
      <-> ErrorHandler.rawCode error <> JStr "ECONNABORTED"
          /\ ErrorHandler.rawCode error <> JStr "ECONNREFUSED"
          /\ ErrorHandler.rawCode error <> JStr "CIRCUIT_OPEN"
          /\ ErrorHandler.hasResponse error = false
          /\ ErrorHandler.extractPlainMessage error = Some "Network Error").
Proof.
  intro H. destruct (enhanceError_fields _ _ _ _ _ _ H) as (_ & Hc & _).
  assert (Hiff : forall c,
            code en = c
            <-> ErrorHandler.getErrorCode (status en) error = Resolved c).
  { intro c. rewrite Hc.
    split; [intros ->; reflexivity | intro E; inversion E; reflexivity]. }
  rewrite !Hiff. clear Hiff Hc.
  unfold ErrorHandler.getErrorCode. cbn [codeString].
  destruct (switchStatus_http (status en)) as (Ht & Hr & Hn).
  pose proof (switchStatus_not_circuit_open (status en)) as Ho.
  destruct (isStr (ErrorHandler.rawCode error) "ECONNABORTED") eqn:E1.
  { apply isStr_eq in E1. rewrite E1.
    repeat split; try discriminate; try reflexivity;
      intros; try congruence; tauto. }
  destruct (isStr (ErrorHandler.rawCode error) "ECONNREFUSED") eqn:E2.
  { apply isStr_eq in E2. rewrite E2.
    repeat split; try discriminate; try reflexivity;
      intros; try congruence; tauto. }
  destruct (isStr (ErrorHandler.rawCode error) "CIRCUIT_OPEN") eqn:E3.
  { apply isStr_eq in E3. rewrite E3.
    repeat split; try discriminate; try reflexivity;
      intros; try congruence; tauto. }
  assert (N1 : ErrorHandler.rawCode error <> JStr "ECONNABORTED")
    by (intro A; apply isStr_eq in A; congruence).
  assert (N2 : ErrorHandler.rawCode error <> JStr "ECONNREFUSED")
    by (intro A; apply isStr_eq in A; congruence).
  assert (N3 : ErrorHandler.rawCode error <> JStr "CIRCUIT_OPEN")
    by (intro A; apply isStr_eq in A; congruence).
  destruct (ErrorHandler.hasResponse error) eqn:Hr'; cbn [negb andb].
  { repeat split; intros; try contradiction; try congruence;
      try tauto.
    destruct H0 as (_ & _ & _ & A & _). discriminate A. }
  destruct (ErrorHandler.extractPlainMessage error) as [m |] eqn:Hm.
  - destruct (String.eqb_spec m "Network Error") as [-> | Hne].
    + repeat split; intros; try discriminate; try contradiction;
        try congruence; try reflexivity.
    + repeat split; intros; try contradiction; try congruence.
      destruct H0 as (_ & _ & _ & _ & A). congruence.
  - repeat split; intros; try contradiction; try congruence.
    destruct H0 as (_ & _ & _ & _ & A). discriminate A.
Qed.

Lemma enhanceError_suggestion error ctx rc w en w' :
  ErrorHandler.enhanceError error ctx rc w = (Resolved en, w') ->
  suggestion en = ErrorHandler.getErrorSuggestion (code en) error.
Proof.
  intro H. apply (enhanceError_resolved _ _ _ _ _ _ H).
Qed.

(** X10.  The suggestion of an enhanced error is never the empty string,
    and for every code but CIRCUIT_OPEN it depends on the code alone. *)
Theorem suggestion_never_empty error ctx rc w en w' :
  ErrorHandler.enhanceError error ctx rc w = (Resolved en, w') ->
  suggestion en <> ""
  /\ (code en <> CIRCUIT_OPEN ->
      forall other,
        suggestion en = ErrorHandler.getErrorSuggestion (code en) other).
Proof.
  intro H. rewrite (enhanceError_suggestion _ _ _ _ _ _ H).
  split.
  - destruct (code en); cbn; try discriminate.
    destruct (ErrorHandler.isApiErrorLike error); [| discriminate].
    destruct (get "suggestion" error); try discriminate.
    destruct (String.eqb_spec s ""); cbn; [discriminate | assumption].
  - intros Hne other. destruct (code en); try reflexivity. contradiction.
Qed.

Lemma toJs_probes (en0 : EnhancedApiError) (s : Z) :
  status en0 = JNum s ->
  ErrorHandler.isApiErrorLike (toJs en0) = true
  /\ ErrorHandler.isAxiosError (toJs en0) = false
  /\ ErrorHandler.hasResponse (toJs en0) = false
  /\ ErrorHandler.rawCode (toJs en0) = JStr (codeString (code en0))
  /\ ErrorHandler.extractPlainMessage (toJs en0) = Some (message en0)
  /\ responseStatus_of (toJs en0) = JUndefined
  /\ ownStatus_of (toJs en0) = JNum s.
Proof.
  destruct en0 as [m st c r sg er cx]. cbn [status code message].
  intro Hs. subst st. repeat split; reflexivity.
Qed.

Lemma toJs_convertible (en0 : EnhancedApiError) (s : Z) :
  status en0 = JNum s -> convertible (toJs en0) = true.
Proof.
  destruct en0 as [m st c r sg er cx]. cbn [status]. intros ->.
  unfold convertible.
  change (responseStatus_of (toJs _)) with JUndefined.
  change (responseBody (toJs _)) with JUndefined.
  cbn [unconvertible negb andb get convertibleFields entries forallb].
  rewrite andb_true_r. unfold convertibleFields.
  cbn [toJs errors get lookup String.eqb Ascii.eqb Bool.eqb].
  destruct er as [fields |]; [| reflexivity].
  cbn [entries]. induction fields as [| [k strings] rest IH];
    [reflexivity |].
  cbn [map forallb fst snd]. rewrite IH, andb_true_r.
  apply negb_true_iff. cbn [unconvertible].
  clear. induction strings as [| x l IHl]; [reflexivity | exact IHl].
Qed.

Lemma reclassify (en0 : EnhancedApiError) (s : Z)
  (ctx : option ErrorContext) (rc : option nat) (w : World) :
  status en0 = JNum s ->
  message en0 <> "" ->
  exists en,
    ErrorHandler.enhanceError (toJs en0) ctx rc w
    = (Resolved en, snd (Date_now w))
    /\ status en = JNum s
    /\ message en = message en0
    /\ retryable en = retryableBy s (code en0)
    /\ reclassifiedCode (code en0) (message en0) s = Resolved (code en).
Proof.
  intros Hs Hm.
  destruct (toJs_probes en0 s Hs) as (Hl & Ha & Hr & Hc & Hp & Hrs & Hos).
  destruct (enhanceError_returns (toJs en0) ctx rc w
              (toJs_convertible en0 s Hs)
              (methodSource_not_axios ctx (toJs en0) Ha)) as (en & Hen & Hmsg).
  exists en. split; [exact Hen |].
  destruct (enhanceError_fields _ _ _ _ _ _ Hen) as (Hst & Hco & _ & Hre & _).
  assert (Hst' : status en = JNum s)
    by (rewrite Hst, Hrs, Hos; reflexivity).
  split; [exact Hst' |].
  split.
  { rewrite Hmsg. unfold ErrorHandler.getErrorMessage. rewrite Hp.
    destruct (String.eqb_spec (message en0) ""); [contradiction | reflexivity]. }
  split.
  { rewrite (default_predicate_rule en0 s Hs) in Hre. congruence. }
  rewrite Hst' in Hco. rewrite <- Hco. unfold ErrorHandler.getErrorCode.
  rewrite Hc, Hr, Hp. cbn [negb andb].
  unfold reclassifiedCode. destruct (code en0); reflexivity.
Qed.

Lemma reclassifiedCode_stable (c c' : ErrorCode) (m : string) (s : Z) :
  reclassifiedCode c m s = Resolved c' ->
  reclassifiedCode c' m s = Resolved c'
  /\ retryableBy s c' = retryableBy s c
  /\ c' <> TIMEOUT
  /\ c' <> CONNECTION_REFUSED.
Proof.
  destruct (switchStatus_http (JNum s)) as (Ht & Hr & Hn).
  pose proof (switchStatus_not_circuit_open (JNum s)) as Ho.
  unfold reclassifiedCode.
  destruct c;
    try (intro H; inversion H; subst;
         repeat split; try reflexivity; discriminate);
    (destruct (String.eqb m "Network Error") eqn:Hnet;
     [intro H; inversion H; subst; rewrite ?Hnet;
      repeat split; try reflexivity; discriminate |]);
    (intro E; destruct c'; rewrite ?Hnet;
     try contradiction; repeat split; try assumption; try reflexivity;
     discriminate).
Qed.

(** X11.  The error that an open circuit throws survives classification:
    whatever breaker state made it and whatever the context, classifying
    the thrown object again gives code CIRCUIT_OPEN, status 503, the same
    message and the same suggestion with the remaining seconds, no
    validation errors, and a [retryable] flag that is false. *)
Theorem circuit_open_error_reclassified (cb : CircuitBreakerState)
  (w : World) (ctx : option ErrorContext) (rc : option nat) (w0 : World) :
  exists en,
    ErrorHandler.enhanceError
      (toJs (fst (CircuitBreaker.createCircuitOpenError cb w))) ctx rc w0
    = (Resolved en, snd (Date_now w0))
    /\ code en = CIRCUIT_OPEN
    /\ status en = JNum 503
    /\ message en = CircuitBreaker.circuitOpenMessage
    /\ suggestion en
       = suggestion (fst (CircuitBreaker.createCircuitOpenError cb w))
    /\ retryable en = false
    /\ errors en = None.
Proof.
  set (e := fst (CircuitBreaker.createCircuitOpenError cb w)).
  assert (He : code e = CIRCUIT_OPEN /\ status e = JNum 503
               /\ message e = CircuitBreaker.circuitOpenMessage
               /\ errors e = None
               /\ exists n, suggestion e = CircuitBreaker.circuitOpenSuggestion n).
  { subst e. unfold CircuitBreaker.createCircuitOpenError.
    destruct (nextAttemptTime cb); cbn;
      repeat split; eexists; reflexivity. }
  destruct He as (Hc & Hs & Hm & Her & n & Hsg).
  destruct (reclassify e 503 ctx rc w0 Hs) as (en & Hen & Hst & Hmsg & Hre & Hco).
  { rewrite Hm. discriminate. }
  exists en. split; [exact Hen |].
  rewrite Hc in Hco, Hre. cbn in Hco, Hre.
  assert (Hco' : code en = CIRCUIT_OPEN) by congruence.
  split; [exact Hco' |]. split; [exact Hst |].
  split; [rewrite Hmsg; exact Hm |].
  split.
  { rewrite (enhanceError_suggestion _ _ _ _ _ _ Hen), Hco'.
    destruct e as [m st c r sg er cx]. cbn [suggestion status] in *.
    subst st sg. reflexivity. }
  split; [exact Hre |].
  destruct (enhanceError_fields _ _ _ _ _ _ Hen) as (_ & _ & _ & _ & Herr).
  destruct e as [m st c r sg er cx]. cbn [errors status] in *.
  subst st er. cbn in Herr. congruence.
Qed.

(** X12.  Classifying an enhanced error a second time, as happens when a
    failure enhanced by the HTTP interceptor is caught by the retry loop,
    keeps its numeric status and its non-empty message and gives the
    [retryable] flag of the specification's rule, but reads the code anew:
    CIRCUIT_OPEN is kept, a "Network Error" message gives NETWORK_ERROR, and
    otherwise the code is the one of the status, so TIMEOUT and
    CONNECTION_REFUSED are never kept.  From the second classification on
    nothing changes any more. *)
Theorem reclassification (en0 : EnhancedApiError) (s : Z)
  (ctx : option ErrorContext) (rc : option nat) (w : World) :
  status en0 = JNum s ->
  message en0 <> "" ->
  exists en,
    ErrorHandler.enhanceError (toJs en0) ctx rc w
    = (Resolved en, snd (Date_now w))
    /\ status en = JNum s
    /\ message en = message en0
    /\ retryable en = retryableBy s (code en0)
    /\ (code en0 = CIRCUIT_OPEN -> code en = CIRCUIT_OPEN)
    /\ (code en0 <> CIRCUIT_OPEN -> message en0 = "Network Error" ->
        code en = NETWORK_ERROR)
    /\ (code en0 <> CIRCUIT_OPEN -> message en0 <> "Network Error" ->
        ErrorHandler.switchStatus (JNum s) = Resolved (code en))
    /\ code en <> TIMEOUT /\ code en <> CONNECTION_REFUSED
    /\ (forall ctx' rc' w1, exists en2,
          ErrorHandler.enhanceError (toJs en) ctx' rc' w1
          = (Resolved en2, snd (Date_now w1))
          /\ code en2 = code en /\ status en2 = status en
          /\ message en2 = message en /\ retryable en2 = retryable en).
Proof.
  intros Hs Hm.
  destruct (reclassify en0 s ctx rc w Hs Hm)
    as (en & Hen & Hst & Hmsg & Hre & Hco).
  destruct (reclassifiedCode_stable (code en0) (code en) (message en0) s Hco)
    as (Hstable & Hflag & Hnt & Hnr).
  exists en. split; [exact Hen |]. split; [exact Hst |].
  split; [exact Hmsg |]. split; [exact Hre |].
  split.
  { intro Hc. rewrite Hc in Hco. cbn in Hco. congruence. }
  split.
  { intros Hc Hn. rewrite Hn in Hco. unfold reclassifiedCode in Hco.
    destruct (code en0); try contradiction; cbn in Hco; congruence. }
  split.
  { intros Hc Hn. unfold reclassifiedCode in Hco.
    destruct (String.eqb_spec (message en0) "Network Error");
      [contradiction |].
    destruct (code en0); try contradiction; exact Hco. }
  split; [exact Hnt |].
  split; [exact Hnr |].
  intros ctx' rc' w1.
  destruct (reclassify en s ctx' rc' w1 Hst) as (en2 & Hen2 & Hst2 & Hmsg2 & Hre2 & Hco2).
  { rewrite Hmsg. exact Hm. }
  exists en2. split; [exact Hen2 |].
  split; [rewrite Hmsg, Hstable in Hco2; congruence |].
  split; [congruence |]. split; [exact Hmsg2 |].
  rewrite Hre2, Hre. exact Hflag.
Qed.


Lemma assign_keys {A : Type} (key : string) (value : A)
  (result : list (string * A)) :
  map fst (ErrorHandler.assign key value result)
  = if existsb (String.eqb key) (map fst result) then map fst result
    else (map fst result ++ [key])%list.
Proof.
  induction result as [| [k v] rest IH]; [reflexivity |].
  cbn. destruct (String.eqb_spec key k) as [-> | Hne]; cbn.
  - reflexivity.
  - rewrite IH. destruct (existsb (String.eqb key) (map fst rest));
      reflexivity.
Qed.

Lemma setProp_keys {A : Type} (key : string) (value : A)
  (result : list (string * A)) :
  NoDup (map fst result) -> ~ In "__proto__" (map fst result) ->
  NoDup (map fst (ErrorHandler.setProp key value result))
  /\ ~ In "__proto__" (map fst (ErrorHandler.setProp key value result)).
Proof.
  intros Hnd Hp. unfold ErrorHandler.setProp.
  destruct (String.eqb_spec key "__proto__") as [-> | Hne];
    [split; assumption |].
  rewrite assign_keys.
  destruct (existsb (String.eqb key) (map fst result)) eqn:Hex;
    [split; assumption |].
  assert (Hnotin : ~ In key (map fst result)).
  { intro Hin.
    assert (existsb (String.eqb key) (map fst result) = true).
    { apply existsb_exists. exists key. split; [exact Hin |].
      apply String.eqb_refl. }
    congruence. }
  split.
  - apply NoDup_app; [exact Hnd | repeat constructor; intros [] |].
    intros x Hx [<- | []]. exact (Hnotin Hx).
  - rewrite in_app_iff. intros [Hin | [Heq | []]];
      [exact (Hp Hin) | congruence].
Qed.

Lemma collect_keys fields :
  forall result result',
    ErrorHandler.collectFields fields result = Resolved result' ->
    NoDup (map fst result) -> ~ In "__proto__" (map fst result) ->
    NoDup (map fst result') /\ ~ In "__proto__" (map fst result').
Proof.
  induction fields as [| [key value] rest IH];
    intros result result' Hrun Hnd Hp.
  - cbn in Hrun. inversion Hrun. subst. split; assumption.
  - cbn [ErrorHandler.collectFields] in Hrun.
    destruct (ErrorHandler.collectField result (key, value)) as [r1 | t]
      eqn:Hfield; cbn [andThen] in Hrun; [| discriminate].
    apply collectField_normalize in Hfield. subst r1.
    apply (IH _ _ Hrun);
      destruct (normalizeField value); try assumption;
      apply setProp_keys; assumption.
Qed.

(** X14.  For every raw failure, the validation errors of the enhanced
    error are either absent or a map with at least one field, with distinct
    field names, none of which is "__proto__". *)
Theorem validation_errors_shape error ctx rc w en w' fields :
  ErrorHandler.enhanceError error ctx rc w = (Resolved en, w') ->
  errors en = Some fields ->
  fields <> []
  /\ NoDup (map fst fields)
  /\ ~ In "__proto__" (map fst fields).
Proof.
  intros H Herr.
  destruct (enhanceError_fields _ _ _ _ _ _ H) as (_ & _ & _ & _ & He).
  rewrite Herr in He. clear Herr.
  assert (Hcollect : forall v,
            ErrorHandler.collectErrors v = Resolved (Some fields) ->
            fields <> [] /\ NoDup (map fst fields)
            /\ ~ In "__proto__" (map fst fields)).
  { intros v Hv. unfold ErrorHandler.collectErrors in Hv.
    destruct (ErrorHandler.collectFields (entries v) []) as [result | t]
      eqn:Hrun; cbn [andThen] in Hv; [| discriminate].
    destruct (collect_keys (entries v) [] result Hrun) as [Hnd Hp];
      [constructor | intros [] |].
    destruct result as [| f rest]; cbn in Hv; inversion Hv; subst.
    split; [discriminate | split; assumption]. }
  unfold ErrorHandler.extractValidationErrors in He.
  destruct (ErrorHandler.isApiErrorLike error
            && truthy (get "errors" error)
            && typeofObject (get "errors" error));
    [exact (Hcollect _ He) |].
  destruct (truthy _ && typeofObject _ && has "errors" _);
    [| discriminate He].
  destruct (truthy _ && typeofObject _); [| discriminate He].
  exact (Hcollect _ He).
Qed.

End ClassifierExtras.

(** "Network Error" on a failure that carries status 404. *)
Lemma transport_codes_exact_witness :
  exists en w',
    ErrorHandler.enhanceError (host := refHost) networkError404 None None
      (worldAt 0 0) = (Resolved en, w')
    /\ code en = NETWORK_ERROR /\ status en = JNum 404.
Proof.
  eexists. eexists. split; [reflexivity |].
  destruct (transport_codes_exact (host := refHost) networkError404 None None
              (worldAt 0 0) _ _ eq_refl) as (_ & _ & _ & Hnet).
  split; [| reflexivity].
  apply Hnet. repeat split; try discriminate; reflexivity.
Defined.

Lemma suggestion_never_empty_witness :
  exists en w',
    ErrorHandler.enhanceError (host := refHost) plain503 None None
      (worldAt 0 0) = (Resolved en, w')
    /\ suggestion en <> ""
    /\ suggestion en
       = ErrorHandler.getErrorSuggestion (code en) JNull.
Proof.
  eexists. eexists. split; [reflexivity |].
  destruct (suggestion_never_empty (host := refHost) plain503 None None
              (worldAt 0 0) _ _ eq_refl) as (Hne & Hcode).
  split; [exact Hne |]. apply Hcode. discriminate.
Defined.

(** A timeout enhanced by the interceptor and classified again by the retry
    loop: the status stays 500, the code becomes INTERNAL_SERVER_ERROR. *)
Lemma reclassification_witness :
  exists en,
    ErrorHandler.enhanceError (host := refHost) (toJs enhancedTimeout)
      (Some listAccountsContext) (Some 0%nat) (worldAt 0 0)
    = (Resolved en, snd (Date_now (worldAt 0 0)))
    /\ status en = JNum 500
    /\ code en = INTERNAL_SERVER_ERROR
    /\ retryable en = true.
Proof.
  destruct (reclassification (host := refHost) enhancedTimeout 500
              (Some listAccountsContext) (Some 0%nat) (worldAt 0 0))
    as (en & Hen & Hst & _ & Hre & _ & _ & Hco & _).
  - reflexivity.
  - discriminate.
  - exists en. split; [exact Hen |]. split; [exact Hst |].
    split; [| exact Hre].
    assert (E : ErrorHandler.switchStatus (host := refHost) (JNum 500)
                = Resolved (code en)) by (apply Hco; discriminate).
    cbn in E. congruence.
Defined.


Lemma validation_errors_shape_witness :
  exists en w' fields,
    ErrorHandler.enhanceError (host := refHost)
      (validationFailure (JObj [("a", JArr [JStr "x"]); ("b", JNull)]))
      None None (worldAt 0 0) = (Resolved en, w')
    /\ errors en = Some fields
    /\ fields <> [] /\ NoDup (map fst fields).
Proof.
  eexists. eexists. eexists. split; [reflexivity |]. split; [reflexivity |].
  destruct (validation_errors_shape (host := refHost)
              (validationFailure (JObj [("a", JArr [JStr "x"]); ("b", JNull)]))
              None None (worldAt 0 0) _ _ _ eq_refl eq_refl)
    as (Hne & Hnd & _).
  split; [exact Hne | exact Hnd].
Defined.

(** ** HTTP interceptors *)

Section InterceptorProperties.
Context {host : Host}.

Import Js.

Lemma responseFailure_probes (r : AxiosResponse) (m : string) :
  jsOr (optGet "message" (ax_data r))
       (JStr ("Request failed with status " ++ NumberToString (ax_status r)))
  = JStr m ->
  ErrorHandler.isAxiosError (ClientInterceptors.responseFailure r) = false
  /\ matchesEarlierRule (ClientInterceptors.responseFailure r) = false
  /\ responseStatus_of (ClientInterceptors.responseFailure r) = JUndefined
  /\ ownStatus_of (ClientInterceptors.responseFailure r)
     = JNum (ax_status r)
  /\ ErrorHandler.extractPlainMessage (ClientInterceptors.responseFailure r)
     = Some m.
Proof.
  intro Hm.
  unfold ClientInterceptors.responseFailure, matchesEarlierRule,
    responseStatus_of, ownStatus_of, ErrorHandler.extractPlainMessage,
    ErrorHandler.hasResponse, ErrorHandler.rawCode,
    ErrorHandler.isApiErrorLike, ErrorHandler.isAxiosError.
  rewrite Hm. cbn. repeat split; reflexivity.
Qed.

(** What the interceptor throws is what [enhanceError] makes of the
    response, with the URL and the method of the request. *)
Lemma onResponse_error (r : AxiosResponse) (w : World) :
  400 <= ax_status r ->
  ClientInterceptors.onResponse r w
  = (match fst (ErrorHandler.enhanceError
                  (ClientInterceptors.responseFailure r)
                  (Some {| ctx_endpoint := ax_url r;
                           ctx_method := ax_method r |}) None w) with
     | Resolved en => Rejected (ThrownEnhanced en)
     | Rejected t => Rejected t
     end,
     snd (ErrorHandler.enhanceError (ClientInterceptors.responseFailure r)
            (Some {| ctx_endpoint := ax_url r; ctx_method := ax_method r |})
            None w)).
Proof.
  intro Hs. unfold ClientInterceptors.onResponse.
  destruct (Z.leb_spec 400 (ax_status r)); [| lia].
  unfold bind.
  destruct (ErrorHandler.enhanceError _ _ _ w) as [[en | t] w']; reflexivity.
Qed.

Lemma onResponse_context (r : AxiosResponse) (w w' : World)
  (en : EnhancedApiError) :
  ErrorHandler.enhanceError (ClientInterceptors.responseFailure r)
    (Some {| ctx_endpoint := ax_url r; ctx_method := ax_method r |}) None w
  = (Resolved en, w') ->
  w' = snd (Date_now w)
  /\ endpoint (context en) = optStr (ax_url r)
  /\ method (context en) = option_map toUpperCase (ax_method r).
Proof.
  intro H.
  destruct (enhanceError_resolved _ _ _ _ _ _ H)
    as (Hw & _ & _ & _ & _ & _ & _ & Hm & Hep & _).
  split; [exact Hw |].
  assert (Ha : ErrorHandler.isAxiosError (ClientInterceptors.responseFailure r)
               = false) by reflexivity.
  rewrite Ha in Hm, Hep. split.
  - rewrite Hep. cbn [ctx_endpoint].
    destruct (ax_url r); reflexivity.
  - unfold ErrorHandler.upperMethod in Hm. cbn [ctx_method] in Hm.
    destruct (ax_method r); cbn in Hm; inversion Hm; reflexivity.
Qed.

(** X15.  The response interceptor of the client returns every response
    with a status below 400 as it is, and throws for every status from 400
    up.  When the body's [message] is absent, falsy or a string and every
    value of the body's [errors] map has a primitive value, it throws an
    enhanced error that has the status of the response, the code that the
    table gives for it, the flag of the retry rule, the body's message or
    else "Request failed with status N", never an empty message, the
    normalised [errors] of the body, and the URL and upper-cased method of
    the request; when a field of that map is an object with an own
    [toString] property, it throws a [TypeError] instead.  When the body's
    [message] is truthy and not a string, the status of the response is
    lost: the error is classified 500, INTERNAL_SERVER_ERROR, with the
    generic message and without [errors]. *)
Theorem response_interceptor (r : AxiosResponse) (w : World) :
  (ax_status r < 400 -> ClientInterceptors.onResponse r w = (Resolved r, w))
  /\ (400 <= ax_status r ->
      exists t, fst (ClientInterceptors.onResponse r w) = Rejected t)
  /\ (400 <= ax_status r ->
      truthy (optGet "message" (ax_data r)) = false
      \/ typeofString (optGet "message" (ax_data r)) = true ->
      convertibleFields (optGet "errors" (ax_data r)) = true ->
      exists en,
        ClientInterceptors.onResponse r w
        = (Rejected (ThrownEnhanced en), snd (Date_now w))
        /\ status en = JNum (ax_status r)
        /\ ErrorHandler.switchStatus (JNum (ax_status r))
           = Resolved (code en)
        /\ (forall c, In (ax_status r, c) codeTable -> code en = c)
        /\ retryable en = retryableBy (ax_status r) (code en)
        /\ message en <> ""
        /\ (truthy (optGet "message" (ax_data r)) = true ->
            JStr (message en) = optGet "message" (ax_data r))
        /\ (truthy (optGet "message" (ax_data r)) = false ->
            message en
            = "Request failed with status " ++ NumberToString (ax_status r))
        /\ (truthy (optGet "errors" (ax_data r))
              && typeofObject (optGet "errors" (ax_data r)) = true ->
            ErrorHandler.collectErrors (optGet "errors" (ax_data r))
            = Resolved (errors en))
        /\ (truthy (optGet "errors" (ax_data r))
              && typeofObject (optGet "errors" (ax_data r)) = false ->
            errors en = None)
        /\ endpoint (context en) = optStr (ax_url r)
        /\ method (context en) = option_map toUpperCase (ax_method r))
  /\ (400 <= ax_status r ->
      truthy (optGet "message" (ax_data r)) = false
      \/ typeofString (optGet "message" (ax_data r)) = true ->
      forall fields key props v,
        optGet "errors" (ax_data r) = JObj fields ->
        In (key, JObj props) fields ->
        lookup "toString" props = Some v ->
        ClientInterceptors.onResponse r w = (Rejected ThrownTypeError, w))
  /\ (400 <= ax_status r ->
      truthy (optGet "message" (ax_data r)) = true ->
      typeofString (optGet "message" (ax_data r)) = false ->
      exists en,
        ClientInterceptors.onResponse r w
        = (Rejected (ThrownEnhanced en), snd (Date_now w))
        /\ status en = JNum 500
        /\ code en = INTERNAL_SERVER_ERROR
        /\ message en = "An unexpected error occurred"
        /\ errors en = None).
Proof.
  split.
  { intro Hs. unfold ClientInterceptors.onResponse.
    destruct (Z.leb_spec 400 (ax_status r)); [lia | reflexivity]. }
  split.
  { intro Hs. rewrite (onResponse_error r w Hs). cbn [fst].
    destruct (fst (ErrorHandler.enhanceError _ _ _ w)); eexists; reflexivity. }
  assert (Hshape : truthy (optGet "message" (ax_data r)) = false
                   \/ typeofString (optGet "message" (ax_data r)) = true ->
            ErrorHandler.isApiErrorLike (ClientInterceptors.responseFailure r)
            = true).
  { intro Hmsg.
    unfold ClientInterceptors.responseFailure, ErrorHandler.isApiErrorLike,
      jsOr.
    destruct (truthy (optGet "message" (ax_data r))) eqn:Ht;
      [| reflexivity].
    destruct Hmsg as [Hf | Hstr]; [discriminate |].
    destruct (optGet "message" (ax_data r)); try discriminate Hstr.
    reflexivity. }
  split.
  - intros Hs Hmsg Hconv.
    set (fallback := "Request failed with status "
                     ++ NumberToString (ax_status r)).
    assert (Hm : exists m,
              jsOr (optGet "message" (ax_data r)) (JStr fallback) = JStr m
              /\ m <> ""
              /\ (truthy (optGet "message" (ax_data r)) = true ->
                  JStr m = optGet "message" (ax_data r))
              /\ (truthy (optGet "message" (ax_data r)) = false ->
                  m = fallback)).
    { unfold jsOr.
      destruct (truthy (optGet "message" (ax_data r))) eqn:Ht.
      - destruct Hmsg as [Hf | Hstr]; [discriminate |].
        destruct (optGet "message" (ax_data r)) as [| | b | n | m | l | ps];
          try discriminate Hstr.
        exists m. split; [reflexivity |].
        split; [| split; [reflexivity | discriminate]].
        cbn in Ht. intros ->. discriminate Ht.
      - exists fallback. split; [reflexivity |].
        split; [discriminate | split; [discriminate | reflexivity]]. }
    destruct Hm as (m & Hjs & Hne & Htrue & Hfalse).
    destruct (responseFailure_probes r m Hjs) as (Ha & Hrule & Hrs & Hos & Hp).
    assert (Hall : convertible (ClientInterceptors.responseFailure r) = true).
    { unfold convertible. rewrite Hrs. unfold responseBody. rewrite Ha.
      cbn [unconvertible negb andb optGet nullish get].
      change (get "errors" (ClientInterceptors.responseFailure r))
        with (optGet "errors" (ax_data r)).
      rewrite Hconv. reflexivity. }
    destruct (enhanceError_returns (ClientInterceptors.responseFailure r)
                (Some {| ctx_endpoint := ax_url r;
                         ctx_method := ax_method r |}) None w Hall)
      as (en & Hen & Hmsg').
    { unfold methodSource. cbn [ctx_method].
      destruct (ax_method r); reflexivity. }
    destruct (onResponse_context r w _ en Hen) as (_ & Hep & Hme).
    exists en. split.
    { rewrite (onResponse_error r w Hs), Hen. reflexivity. }
    destruct (enhanceError_fields _ _ _ _ _ _ Hen)
      as (Hst & Hco & _ & Hre & Her).
    assert (Hst' : status en = JNum (ax_status r))
      by (rewrite Hst, Hrs, Hos; reflexivity).
    assert (Hco' : ErrorHandler.switchStatus (JNum (ax_status r))
                   = Resolved (code en)).
    { rewrite Hst', (getErrorCode_later_rules _ _ Hrule) in Hco. exact Hco. }
    assert (Hm' : message en = m).
    { rewrite Hmsg'. unfold ErrorHandler.getErrorMessage. rewrite Hp.
      destruct (String.eqb_spec m ""); [contradiction | reflexivity]. }
    split; [exact Hst' |]. split; [exact Hco' |].
    split.
    { intros c Hin.
      rewrite (proj1 (switchStatus_table (ax_status r)) c Hin) in Hco'.
      congruence. }
    split.
    { rewrite isRetryable_status in Hre.
      assert (Hraw : isStr (ErrorHandler.rawCode
                              (ClientInterceptors.responseFailure r))
                       "CIRCUIT_OPEN" = false).
      { unfold matchesEarlierRule in Hrule.
        apply orb_false_elim in Hrule. destruct Hrule as [Hrule _].
        apply orb_false_elim in Hrule. destruct Hrule as [_ Hrule].
        exact Hrule. }
      rewrite Hraw, Hrs, Hos in Hre. cbv zeta in Hre.
      cbn [coalesce nullish] in Hre. rewrite status_rule in Hre.
      inversion Hre as [Hre'].
      pose proof (switchStatus_not_circuit_open (JNum (ax_status r))) as Hno.
      unfold retryableBy.
      destruct (code en); try reflexivity. contradiction. }
    split; [rewrite Hm'; exact Hne |].
    split; [intro Ht; rewrite Hm'; exact (Htrue Ht) |].
    split; [intro Hf; rewrite Hm'; exact (Hfalse Hf) |].
    assert (Herrors :
      ErrorHandler.extractValidationErrors
        (ClientInterceptors.responseFailure r) JUndefined
      = if truthy (optGet "errors" (ax_data r))
           && typeofObject (optGet "errors" (ax_data r))
        then ErrorHandler.collectErrors (optGet "errors" (ax_data r))
        else Resolved None).
    { unfold fallback in Hjs.
      unfold ErrorHandler.extractValidationErrors,
        ClientInterceptors.responseFailure, ErrorHandler.isApiErrorLike.
      rewrite Hjs. cbn.
      destruct (truthy (optGet "errors" (ax_data r))
                && typeofObject (optGet "errors" (ax_data r)));
        reflexivity. }
    rewrite Ha, Herrors in Her.
    split; [intro Hread; rewrite Hread in Her; exact Her |].
    split; [intro Hread; rewrite Hread in Her; congruence |].
    split; [exact Hep | exact Hme].
  - split.
    { intros Hs Hmsg fields key props v Hmap Hin Hown.
      rewrite (onResponse_error r w Hs).
      rewrite (enhanceError_unprintable
                 (ClientInterceptors.responseFailure r) _ None w fields key
                 props v (Hshape Hmsg) Hmap Hin Hown).
      reflexivity. }
    intros Hs Ht Hstr.
    assert (Hprobe :
      ErrorHandler.isApiErrorLike (ClientInterceptors.responseFailure r)
      = false
      /\ ErrorHandler.extractPlainMessage
           (ClientInterceptors.responseFailure r) = None).
    { unfold ClientInterceptors.responseFailure,
        ErrorHandler.extractPlainMessage, ErrorHandler.isApiErrorLike, jsOr.
      rewrite Ht. cbn.
      destruct (optGet "message" (ax_data r)); try discriminate Hstr;
        split; reflexivity. }
    destruct Hprobe as [Hl Hp].
    assert (Ha : ErrorHandler.isAxiosError
                   (ClientInterceptors.responseFailure r) = false)
      by reflexivity.
    assert (Hcode : ErrorHandler.getErrorCode (JNum 500)
                      (ClientInterceptors.responseFailure r)
                    = Resolved INTERNAL_SERVER_ERROR).
    { unfold ErrorHandler.getErrorCode, ErrorHandler.rawCode.
      rewrite Hl, Hp. reflexivity. }
    assert (Hretry : ErrorHandler.isRetryable
                       (ClientInterceptors.responseFailure r)
                     = Resolved true).
    { unfold ErrorHandler.isRetryable, ErrorHandler.rawCode.
      rewrite Hl, Ha. reflexivity. }
    assert (Herrors : ErrorHandler.extractValidationErrors
                        (ClientInterceptors.responseFailure r) JUndefined
                      = Resolved None).
    { unfold ErrorHandler.extractValidationErrors. rewrite Hl. reflexivity. }
    assert (Hmethod : ErrorHandler.upperMethod
                        (Some {| ctx_endpoint := ax_url r;
                                 ctx_method := ax_method r |}) JUndefined
                      = Resolved (option_map toUpperCase (ax_method r))).
    { unfold ErrorHandler.upperMethod. cbn [ctx_method].
      destruct (ax_method r); reflexivity. }
    destruct (enhanceError_returns_when
                (ClientInterceptors.responseFailure r)
                (Some {| ctx_endpoint := ax_url r;
                         ctx_method := ax_method r |}) None w
                INTERNAL_SERVER_ERROR true None
                (option_map toUpperCase (ax_method r)))
      as (en & Hen).
    { rewrite Ha, Hl. exact Hcode. }
    { exact Hretry. }
    { rewrite Ha. exact Herrors. }
    { rewrite Ha. exact Hmethod. }
    exists en. split.
    { rewrite (onResponse_error r w Hs), Hen. reflexivity. }
    destruct (enhanceError_fields _ _ _ _ _ _ Hen)
      as (Hst & Hco & Hmsg' & _ & Her).
    assert (Hst' : status en = JNum 500).
    { rewrite Hst. unfold responseStatus_of, ownStatus_of. rewrite Hl, Ha.
      reflexivity. }
    split; [exact Hst' |].
    split.
    { rewrite Hst', Hcode in Hco. congruence. }
    split.
    { rewrite Hmsg'. unfold ErrorHandler.getErrorMessage. rewrite Hp, Ha.
      reflexivity. }
    rewrite Ha, Herrors in Her. congruence.
Qed.

End InterceptorProperties.

(** A 404 response with a message in its body, and a 422 response one of
    whose validation errors has no primitive value. *)
Lemma response_interceptor_witness :
  (exists en,
     ClientInterceptors.onResponse (host := refHost) notFoundResponse
       (worldAt 0 0)
     = (Rejected (ThrownEnhanced en), snd (Date_now (worldAt 0 0)))
     /\ status en = JNum 404
     /\ code en = NOT_FOUND
     /\ JStr (message en) = JStr "Post not found"
     /\ endpoint (context en) = JStr "/posts/abc"
     /\ method (context en) = Some "GET")
  /\ ClientInterceptors.onResponse (host := refHost) unprintableResponse
       (worldAt 0 0)
     = (Rejected ThrownTypeError, worldAt 0 0).
Proof.
  split.
  - destruct (response_interceptor (host := refHost) notFoundResponse
                (worldAt 0 0)) as (_ & _ & Herr & _).
    destruct Herr
      as (en & Hrun & Hst & _ & Htab & _ & _ & Hmsg & _ & _ & _ & Hep & Hme).
    + vm_compute. discriminate.
    + right. reflexivity.
    + reflexivity.
    + exists en. split; [exact Hrun |]. split; [exact Hst |].
      split; [apply Htab; simpl; tauto |].
      split; [apply Hmsg; reflexivity |].
      split; [exact Hep | exact Hme].
  - destruct (response_interceptor (host := refHost) unprintableResponse
                (worldAt 0 0)) as (_ & _ & _ & Hthrows & _).
    apply (Hthrows ltac:(vm_compute; discriminate)
             (or_intror eq_refl)
             [("a", JObj [("toString", JNum 1)])] "a"
             [("toString", JNum 1)] (JNum 1));
      [reflexivity | left; reflexivity | reflexivity].
Defined.

(** ** The interceptors of the client without error handler *)

Section LegacyInterceptors.
Context {host : Host}.

Import Js.

(** X16.  What the interceptors of the client without error handler throw
    always has a truthy [message] and a truthy [status].  A response with a
    status from 400 up is thrown with that status, and a lower one is
    returned.  A rejection whose [code] is ECONNABORTED is thrown with
    status 408 whatever response it carries; any other rejection is thrown
    with the status of its response when that is truthy and with 500 when
    not, and nothing but reading a property of [undefined] or [null] makes
    the interceptor fail in another way. *)
Theorem legacy_interceptors_throw_usable_errors :
  (forall r : AxiosResponse,
     (ax_status r < 400 -> LegacyClient.onResponse r = Resolved r)
     /\ (400 <= ax_status r ->
         exists fields,
           LegacyClient.onResponse r = Rejected (LegacyApiError (JObj fields))
           /\ get "status" (JObj fields) = JNum (ax_status r)
           /\ truthy (get "status" (JObj fields)) = true
           /\ truthy (get "message" (JObj fields)) = true))
  /\ (forall error : JsValue,
        nullish error = false ->
        exists fields,
          LegacyClient.onError error = LegacyApiError (JObj fields)
          /\ truthy (get "status" (JObj fields)) = true
          /\ truthy (get "message" (JObj fields)) = true
          /\ (isStr (get "code" error) "ECONNABORTED" = true ->
              get "status" (JObj fields) = JNum 408)
          /\ (isStr (get "code" error) "ECONNABORTED" = false ->
              get "status" (JObj fields)
              = jsOr (optGet "status" (optGet "response" error)) (JNum 500)))
  /\ (forall error : JsValue,
        LegacyClient.onError error = LegacyTypeError <->
        nullish error = true).
Proof.
  assert (Hor : forall a b, truthy b = true -> truthy (jsOr a b) = true).
  { intros a b Hb. unfold jsOr. destruct (truthy a) eqn:Ha; assumption. }
  split; [| split].
  - intro r. unfold LegacyClient.onResponse. split; intro Hs.
    + destruct (Z.leb_spec 400 (ax_status r)); [lia | reflexivity].
    + destruct (Z.leb_spec 400 (ax_status r)); [| lia].
      eexists. split; [reflexivity |]. cbn [get lookup String.eqb].
      cbn. split; [reflexivity |].
      split.
      * destruct (Z.eqb_spec (ax_status r) 0); [lia | reflexivity].
      * apply Hor. reflexivity.
  - intros error Hn. unfold LegacyClient.onError. rewrite Hn.
    destruct (isStr (get "code" error) "ECONNABORTED").
    + eexists. split; [reflexivity |]. cbn.
      repeat split; try reflexivity. discriminate.
    + eexists. split; [reflexivity |]. cbn.
      split; [apply Hor; reflexivity |].
      split; [apply Hor; reflexivity |].
      split; [discriminate | reflexivity].
  - intro error. unfold LegacyClient.onError.
    destruct (nullish error); [split; reflexivity |].
    destruct (isStr (get "code" error) "ECONNABORTED");
      split; discriminate.
Qed.

End LegacyInterceptors.

(** An aborted request that carries a 504 response is thrown as 408; a
    refused connection without response as 500. *)
Lemma legacy_interceptors_throw_usable_errors_witness :
  (exists fields,
     LegacyClient.onError abortedWithResponse = LegacyApiError (JObj fields)
     /\ Js.get "status" (JObj fields) = JNum 408)
  /\ (exists fields,
        LegacyClient.onError refusedConnection = LegacyApiError (JObj fields)
        /\ Js.get "status" (JObj fields) = JNum 500
        /\ Js.truthy (Js.get "message" (JObj fields)) = true).
Proof.
  destruct (legacy_interceptors_throw_usable_errors (host := refHost))
    as (_ & Herr & _).
  split.
  - destruct (Herr abortedWithResponse) as (fields & Hrun & _ & _ & H408 & _);
      [reflexivity |].
    exists fields. split; [exact Hrun |]. apply H408. reflexivity.
  - destruct (Herr refusedConnection) as (fields & Hrun & _ & Hm & _ & H500);
      [reflexivity |].
    exists fields. split; [exact Hrun |].
    split; [apply H500; reflexivity | exact Hm].
Defined.
